(** * SECS chatbot: the query understanding and retrieval pipeline

    A shallow embedding of the retrieval core of the SECS chatbot
    (src/services/vector_store.py, cache_service.py, count_helper.py,
    chat_service.py, src/agents/focal_agent.py and
    src/agents/clarification_agent.py) and the properties its
    specification states about it, followed by further properties of the
    same code.

    Conventions of the embedding.
    - A Python [str] is the list of its code points ([pystr]); literals are
      written as UTF-8 text and decoded by [py].
    - A Python [int] is a [Z]; a NumPy [float32] scalar is a [spec_float]
      of precision 24 and maximal exponent 128.
    - A function that can raise returns an [Exc]; the exception classes the
      code meets are the constructors of [exn].
    - A SQLite table with a UNIQUE key is a [gmap] from the key; a table
      scanned in row order is the list of its rows, by rowid. *)

From Stdlib Require Import ZArith NArith List String Ascii Bool Lia.
From Stdlib Require Import DecimalN.
From Stdlib Require Import Floats.SpecFloat.
From stdpp Require Import base option list sorting gmap.

Local Open Scope N_scope.

(** ** Exceptions *)

Inductive exn : Type :=
| OperationalError   (* sqlite3.OperationalError *)
| TypeError
| ValueError
| JSONDecodeError
| ProviderError (msg : list N).  (* any error of an external service *)

Inductive Exc (A : Type) : Type :=
| Ok (a : A)
| Raise (e : exn).
Arguments Ok {A} a.
Arguments Raise {A} e.

#[export] Instance exc_ret : MRet Exc := fun A a => Ok a.

#[export] Instance exc_bind : MBind Exc := fun A B f m =>
  match m with
  | Ok a => f a
  | Raise e => Raise e
  end.

#[export] Instance exc_fmap : FMap Exc := fun A B f m =>
  match m with
  | Ok a => Ok (f a)
  | Raise e => Raise e
  end.

(** [[f(a) for a in l]], stopping at the first exception. *)
Fixpoint mapM {A B : Type} (f : A -> Exc B) (l : list A) : Exc (list B) :=
  match l with
  | [] => Ok []
  | a :: l' => b ← f a; bs ← mapM f l'; Ok (b :: bs)
  end.

(** ** Python strings *)

Module Py.

(** A [str]: the sequence of its code points. *)
Definition pystr : Type := list N.

Fixpoint bytes_of (s : string) : list N :=
  match s with
  | EmptyString => []
  | String a s' => N_of_ascii a :: bytes_of s'
  end.

(** UTF-8 decoding of a well-formed byte sequence (1 to 4 bytes a code
    point); decoding stops at a truncated sequence. *)
Fixpoint utf8_decode (bs : list N) : pystr :=
  match bs with
  | [] => []
  | b0 :: r0 =>
    if b0 <? 0x80 then b0 :: utf8_decode r0
    else match r0 with
    | [] => []
    | b1 :: r1 =>
      if b0 <? 0xE0 then ((b0 mod 32) * 64 + b1 mod 64) :: utf8_decode r1
      else match r1 with
      | [] => []
      | b2 :: r2 =>
        if b0 <? 0xF0
        then ((b0 mod 16) * 4096 + (b1 mod 64) * 64 + b2 mod 64)
               :: utf8_decode r2
        else match r2 with
        | [] => []
        | b3 :: r3 =>
          ((b0 mod 8) * 262144 + (b1 mod 64) * 4096
           + (b2 mod 64) * 64 + b3 mod 64) :: utf8_decode r3
        end
      end
    end
  end.

(** The [str] a source literal denotes. *)
Definition py (s : string) : pystr := utf8_decode (bytes_of s).

(** [bool(s)] of a [str]. *)
Definition truthy (s : pystr) : bool :=
  match s with [] => false | _ => true end.

(** *** Character tables

    [unicodedata], [str.lower], [str.isspace] and the classes of [re] are
    tables of the interpreter.  They are embedded for the code points
    U+0000 to U+00FF (Basic Latin and Latin-1 Supplement, the repertoire
    of Portuguese text) and for the code points the decompositions of
    these reach; every other code point is left as it is and belongs to
    no class. *)

(** [str.isspace], which is also the class [\s] of a [str] pattern. *)
Definition isspace (c : N) : bool :=
  ((0x09 <=? c) && (c <=? 0x0D)) || ((0x1C <=? c) && (c <=? 0x20))
  || (c =? 0x85) || (c =? 0xA0).

(** The class [\d] of a [str] pattern: the decimal digits. *)
Definition isdigit (c : N) : bool := (0x30 <=? c) && (c <=? 0x39).

Definition isalpha (c : N) : bool :=
  ((0x41 <=? c) && (c <=? 0x5A)) || ((0x61 <=? c) && (c <=? 0x7A))
  || (c =? 0xAA) || (c =? 0xB5) || (c =? 0xBA)
  || ((0xC0 <=? c) && (c <=? 0xD6)) || ((0xD8 <=? c) && (c <=? 0xF6))
  || ((0xF8 <=? c) && (c <=? 0xFF))
  || (c =? 0x3BC).

(** The class [\w] of a [str] pattern: alphanumeric (letters, decimal
    digits, and the superscript digits and vulgar fractions that
    [str.isalnum] accepts) or the underscore. *)
Definition isword (c : N) : bool :=
  isalpha c || isdigit c
  || (c =? 0xB2) || (c =? 0xB3) || (c =? 0xB9)
  || ((0xBC <=? c) && (c <=? 0xBE))
  || (c =? 0x5F).

(** [str.lower] on one code point. *)
Definition lower_cp (c : N) : N :=
  if (0x41 <=? c) && (c <=? 0x5A) then c + 32
  else if (0xC0 <=? c) && (c <=? 0xDE) && negb (c =? 0xD7) then c + 32
  else c.

Definition lower (s : pystr) : pystr := map lower_cp s.

(** [unicodedata.combining]: the canonical combining class is not zero.
    The marks U+0300 to U+036F are those a decomposition below yields. *)
Definition combining (c : N) : bool := (0x300 <=? c) && (c <=? 0x36F).

(** The accent a precomposed Latin-1 letter carries, by its offset in
    the rows U+00C0.. and U+00E0.. *)
Definition latin1_mark (off : N) : option N :=
  match off with
  | 0 | 8 | 12 | 18 | 25 => Some 0x300           (* grave *)
  | 1 | 9 | 13 | 19 | 26 | 29 => Some 0x301      (* acute *)
  | 2 | 10 | 14 | 20 | 27 => Some 0x302          (* circumflex *)
  | 3 | 17 | 21 => Some 0x303                    (* tilde *)
  | 4 | 11 | 15 | 22 | 28 => Some 0x308          (* diaeresis *)
  | 5 => Some 0x30A                              (* ring *)
  | 7 => Some 0x327                              (* cedilla *)
  | _ => None
  end.

Definition latin1_base (off : N) : N :=
  match off with
  | 0 | 1 | 2 | 3 | 4 | 5 => 0x41              (* A *)
  | 7 => 0x43                                   (* C *)
  | 8 | 9 | 10 | 11 => 0x45                     (* E *)
  | 12 | 13 | 14 | 15 => 0x49                   (* I *)
  | 17 => 0x4E                                  (* N *)
  | 18 | 19 | 20 | 21 | 22 => 0x4F              (* O *)
  | 25 | 26 | 27 | 28 => 0x55                   (* U *)
  | _ => 0x59                                   (* Y *)
  end.

(** The compatibility decomposition of one code point. *)
Definition nfkd_cp (c : N) : pystr :=
  if c =? 0xA0 then [0x20]
  else if c =? 0xA8 then [0x20; 0x308]
  else if c =? 0xAA then [0x61]
  else if c =? 0xAF then [0x20; 0x304]
  else if c =? 0xB2 then [0x32]
  else if c =? 0xB3 then [0x33]
  else if c =? 0xB4 then [0x20; 0x301]
  else if c =? 0xB5 then [0x3BC]
  else if c =? 0xB8 then [0x20; 0x327]
  else if c =? 0xB9 then [0x31]
  else if c =? 0xBA then [0x6F]
  else if c =? 0xBC then [0x31; 0x2044; 0x34]
  else if c =? 0xBD then [0x31; 0x2044; 0x32]
  else if c =? 0xBE then [0x33; 0x2044; 0x34]
  else if (0xC0 <=? c) && (c <=? 0xDF) then
    match latin1_mark (c - 0xC0) with
    | Some m => [latin1_base (c - 0xC0); m]
    | None => [c]
    end
  else if c =? 0xFF then [0x79; 0x308]
  else if (0xE0 <=? c) && (c <=? 0xFE) then
    match latin1_mark (c - 0xE0) with
    | Some m => [latin1_base (c - 0xE0) + 32; m]
    | None => [c]
    end
  else [c].

(** [unicodedata.normalize('NFKD', s)].  A text of the embedded range has
    no combining mark of its own, so no canonical reordering takes
    place after the code points are decomposed. *)
Definition nfkd (s : pystr) : pystr := flat_map nfkd_cp s.

(** [s.strip()] *)
Fixpoint lstrip (s : pystr) : pystr :=
  match s with
  | c :: s' => if isspace c then lstrip s' else s
  | [] => []
  end.

Definition rstrip (s : pystr) : pystr := rev (lstrip (rev s)).

Definition strip (s : pystr) : pystr := rstrip (lstrip s).

(** [t in s] on strings: [t] occurs in [s] as a substring. *)
Fixpoint startswith (s t : pystr) : bool :=
  match t, s with
  | [], _ => true
  | _ :: _, [] => false
  | b :: t', a :: s' => (a =? b) && startswith s' t'
  end.

Fixpoint contains (s t : pystr) : bool :=
  startswith s t ||
  match s with
  | [] => false
  | _ :: s' => contains s' t
  end.

(** [any(p(x) for x in l)] *)
Definition any {A : Type} (p : A -> bool) (l : list A) : bool := existsb p l.

(** [str(n)] of a non-negative [int]. *)
Fixpoint digits_of_uint (u : Decimal.uint) : pystr :=
  match u with
  | Decimal.Nil => []
  | Decimal.D0 u' => 0x30 :: digits_of_uint u'
  | Decimal.D1 u' => 0x31 :: digits_of_uint u'
  | Decimal.D2 u' => 0x32 :: digits_of_uint u'
  | Decimal.D3 u' => 0x33 :: digits_of_uint u'
  | Decimal.D4 u' => 0x34 :: digits_of_uint u'
  | Decimal.D5 u' => 0x35 :: digits_of_uint u'
  | Decimal.D6 u' => 0x36 :: digits_of_uint u'
  | Decimal.D7 u' => 0x37 :: digits_of_uint u'
  | Decimal.D8 u' => 0x38 :: digits_of_uint u'
  | Decimal.D9 u' => 0x39 :: digits_of_uint u'
  end.

Definition str_of_N (n : N) : pystr := digits_of_uint (N.to_uint n).

(** [int(s)] of a string of decimal digits. *)
Definition int_of_digits (s : pystr) : N :=
  fold_left (fun acc c => 10 * acc + (c - 0x30)) s 0.

(** [l[:k]] *)
Definition slice_to {A : Type} (k : Z) (l : list A) : list A :=
  if (0 <=? k)%Z then firstn (Z.to_nat k) l
  else firstn (length l - Z.to_nat (- k))%nat l.

(** [l[-k:]] for a positive literal [k]. *)
Definition slice_last {A : Type} (k : nat) (l : list A) : list A :=
  skipn (length l - k)%nat l.

(** A text of the range the character tables are embedded for. *)
Definition latin1 (s : pystr) : Prop := Forall (fun c => c < 256) s.

End Py.
Import Py.

(** ** The answer cache (src/services/cache_service.py) *)

Module CacheService.

(** A row of [qa_user_cache] or [qa_global_cache].  The columns [id] and
    [created_at] are written by SQLite and read by no statement of the
    service; a row keeps the two columns the upsert sets. *)
Record CacheRow : Type := { question : pystr; answer : pystr }.

(** The connection of a [CacheService]: the two tables that
    [_init_tables] creates, [qa_user_cache] under its constraint
    UNIQUE(user, normalized) and [qa_global_cache] under
    UNIQUE(normalized). *)
Record t : Type := {
  qa_user_cache : gmap (pystr * pystr) CacheRow;
  qa_global_cache : gmap pystr CacheRow
}.

(** [_init_tables] on a new database file. *)
Definition _init_tables : t :=
  {| qa_user_cache := ∅; qa_global_cache := ∅ |}.

(** [re.sub(r'[^\w\s]', '', text)] *)
Definition remove_punctuation (text : pystr) : pystr :=
  List.filter (fun c => isword c || isspace c) text.

(** [re.sub(r'\s+', ' ', text)]: every maximal run of white space
    becomes one space; [in_run] tells that the previous code point was
    white space. *)
Fixpoint normalize_spaces_from (in_run : bool) (text : pystr) : pystr :=
  match text with
  | [] => []
  | c :: text' =>
    if isspace c
    then if in_run then normalize_spaces_from true text'
         else 0x20 :: normalize_spaces_from true text'
    else c :: normalize_spaces_from false text'
  end.

Definition normalize_spaces (text : pystr) : pystr :=
  normalize_spaces_from false text.

Definition normalize_question (question : pystr) : pystr :=
  (* Remove accents *)
  let nfkd := nfkd question in
  let text := List.filter (fun c => negb (combining c)) nfkd in
  (* Lowercase *)
  let text := strip (lower text) in
  (* Remove punctuation (keep alphanumeric and spaces) *)
  let text := remove_punctuation text in
  (* Normalize spaces *)
  let text := normalize_spaces text in
  text.

Definition negative_signals : list pystr :=
  [ py "não encontrei";
    py "nao encontrei";
    py "não há base";
    py "nao ha base";
    py "sem base documental";
    py "não tenho certeza";
    py "nao tenho certeza";
    py "não há evidência";
    py "nao ha evidencia";
    py "não sei";
    py "nao sei" ].

Definition should_bypass_cache (answer : pystr) : bool :=
  let answer_lower := lower answer in
  any (fun signal => contains answer_lower signal) negative_signals.

Definition get_user_answer (self : t) (user_id question : pystr)
  : option pystr :=
  let normalized := normalize_question question in
  answer <$> qa_user_cache self !! (user_id, normalized).

Definition set_user_answer (self : t) (user_id question answer : pystr) : t :=
  let normalized := normalize_question question in
  {| qa_user_cache :=
       <[ (user_id, normalized) :=
            {| question := question; answer := answer |} ]>
         (qa_user_cache self);
     qa_global_cache := qa_global_cache self |}.

Definition get_global_answer (self : t) (question : pystr) : option pystr :=
  let normalized := normalize_question question in
  answer <$> qa_global_cache self !! normalized.

Definition set_global_answer (self : t) (question answer : pystr) : t :=
  let normalized := normalize_question question in
  {| qa_user_cache := qa_user_cache self;
     qa_global_cache :=
       <[ normalized := {| question := question; answer := answer |} ]>
         (qa_global_cache self) |}.

Definition clear_user_cache (self : t) (user_id : pystr) : t :=
  {| qa_user_cache :=
       filter (fun kv => fst (fst kv) ≠ user_id) (qa_user_cache self);
     qa_global_cache := qa_global_cache self |}.

Definition clear_global_cache (self : t) : t :=
  {| qa_user_cache := qa_user_cache self; qa_global_cache := ∅ |}.

(** The dict [get_stats] returns. *)
Record Stats : Type := {
  user_cache_entries : Z;
  global_cache_entries : Z;
  total_entries : Z
}.

(** Get cache statistics *)
Definition get_stats (self : t) : Stats :=
  let user_count := Z.of_nat (size (qa_user_cache self)) in
  let global_count := Z.of_nat (size (qa_global_cache self)) in
  {| user_cache_entries := user_count;
     global_cache_entries := global_count;
     total_entries := (user_count + global_count)%Z |}.

End CacheService.


(** ** Python's [list.sort] *)

Module PySort.
Section Sort.
Context {A : Type} (key : A -> spec_float).

(** The comparison [list.sort] uses: [<] on the keys, which are Python
    floats. *)
Definition key_lt (a b : A) : bool := SFltb (key a) (key b).

(** [x] enters an ascending list after every element it is not less
    than, so equal keys keep their order of arrival. *)
Fixpoint insert (x : A) (l : list A) : list A :=
  match l with
  | [] => [x]
  | y :: l' => if key_lt x y then x :: l else y :: insert x l'
  end.

(** A stable ascending sort.  CPython sorts by binary insertion and by
    merging runs; on keys that [<] orders (no NaN among them) every
    stable sort returns this list. *)
Definition sort_ascending (l : list A) : list A :=
  fold_left (fun acc x => insert x acc) l [].

(** [l.sort(key=key, reverse=True)]: CPython reverses the list, sorts
    it in ascending order and reverses the result, which keeps elements
    of equal key in their original order. *)
Definition sort_reverse (l : list A) : list A :=
  rev (sort_ascending (rev l)).



End Sort.
End PySort.

(** ** What the code calls outside the repository *)

Module Runtime.

(** A NumPy [float32] scalar and its arithmetic. *)
Definition float32 : Type := spec_float.
Definition f32_mul : float32 -> float32 -> float32 := SFmul 24 128.
Definition f32_div : float32 -> float32 -> float32 := SFdiv 24 128.

(** A one-dimensional [ndarray] of dtype [float32]. *)
Definition ndarray : Type := list float32.

(** The [float32] of a 32-bit pattern (IEEE 754 binary32). *)
Definition float32_of_bits (w : N) : float32 :=
  let sign := N.testbit w 31 in
  let e := (w / 8388608) mod 256 in
  let m := w mod 8388608 in
  if e =? 0 then
    match m with
    | N0 => S754_zero sign
    | Npos p => S754_finite sign p (-149)
    end
  else if e =? 255 then
    match m with
    | N0 => S754_infinity sign
    | Npos _ => S754_nan
    end
  else
    match m + 8388608 with
    | N0 => S754_nan
    | Npos p => S754_finite sign p (Z.of_N e - 150)
    end.

(** The items of a buffer, four bytes each, little-endian; [None] when
    the size of the buffer is not a multiple of four. *)
Fixpoint items_of_bytes (bs : list N) : option ndarray :=
  match bs with
  | [] => Some []
  | b0 :: b1 :: b2 :: b3 :: bs' =>
    cons (float32_of_bits (b0 + 256 * b1 + 65536 * b2 + 16777216 * b3))
      <$> items_of_bytes bs'
  | _ => None
  end.

(** [np.frombuffer(blob, dtype=np.float32)] of a BLOB column, which is
    [None] when the column is NULL. *)
Definition np_frombuffer (blob : option (list N)) : Exc ndarray :=
  match blob with
  | None => Raise TypeError
  | Some bs =>
    match items_of_bytes bs with
    | Some a => Ok a
    | None => Raise ValueError
    end
  end.

(** The 32-bit pattern of a [float32].  A NaN is written with the
    pattern of the quiet NaN; [float32_of_bits] reads every NaN pattern
    as the one NaN of [spec_float]. *)
Definition bits_of_float32 (x : float32) : N :=
  let sign_bit (s : bool) : N := if s then 2147483648 else 0 in
  match x with
  | S754_zero s => sign_bit s
  | S754_infinity s => sign_bit s + 2139095040
  | S754_nan => 2143289344
  | S754_finite s m e =>
    if Npos m <? 8388608 then sign_bit s + Npos m
    else sign_bit s + Z.to_N (e + 150) * 8388608 + (Npos m - 8388608)
  end.

(** The four bytes of an item, little-endian. *)
Definition bytes_of_bits (w : N) : list N :=
  [ w mod 256; (w / 256) mod 256; (w / 65536) mod 256;
    (w / 16777216) mod 256 ].

(** [a.tobytes()] of a one-dimensional array of dtype [float32]. *)
Definition tobytes (a : ndarray) : list N :=
  flat_map (fun x => bytes_of_bits (bits_of_float32 x)) a.

(** The values of dtype [float32]: the floats of precision 24 and
    maximal exponent 128. *)
Definition is_float32 (x : float32) : bool := valid_binary 24 128 x.

(** The embedding provider ([EmbeddingService.generate_embedding]), the
    reductions of NumPy, whose order of summation this development does
    not fix, [json] and the formatting of a float.  A [json] is a decoded
    metadata object; [format_percent x] is [format(x, '.1%')]. *)
Class Services : Type := {
  json : Type;
  generate_embedding : pystr -> Exc ndarray;
  np_dot : ndarray -> ndarray -> Exc float32;
  np_linalg_norm : ndarray -> float32;
  json_loads : pystr -> Exc json;
  empty_dict : json;
  format_percent : float32 -> pystr
}.

End Runtime.
Export Runtime.

(** ** Documents and chunks (src/services/document_processor.py) *)

(** Represents a document.  The fields that default to [None] are
    optional. *)
Module Document.
Record t : Type := {
  tipo : pystr;
  titulo : pystr;
  numero : option pystr;
  data : option pystr;
  conselho : option pystr;
  caminho : option pystr;
  conteudo : pystr;
  hash_sha256 : pystr
}.
End Document.

(** Represents a chunk of a document *)
Module Chunk.
Record t `{Services} : Type := {
  documento_id : Z;
  conteudo : pystr;
  metadata : json;
  posicao : Z
}.
End Chunk.

(** ** The document store (src/services/vector_store.py) *)

Module VectorStore.

(** A row of [documentos].  [user_id] and [is_global] are the columns the
    search statements read besides those of [_init_db]; a row of a table
    that lacks them carries [None] there. *)
Record Documento : Type := {
  d_id : Z;
  d_tipo : pystr;
  d_titulo : pystr;
  d_numero : option pystr;
  d_data : option pystr;
  d_conselho : option pystr;
  d_caminho : pystr;
  d_hash_sha256 : option pystr;
  d_user_id : option pystr;
  d_is_global : option Z
}.

(** A row of [chunks]; [c_embedding] is the BLOB, a byte string. *)
Record ChunkRow : Type := {
  c_id : Z;
  c_documento_id : Z;
  c_conteudo : pystr;
  c_embedding : option (list N);
  c_metadata : option pystr;
  c_posicao : option Z
}.

(** The database file: the names of the columns of [documentos] and the
    rows of the two tables, in rowid order. *)
Record Database : Type := {
  documentos_columns : list string;
  documentos : list Documento;
  chunks : list ChunkRow
}.

(** The columns of CREATE TABLE IF NOT EXISTS documentos. *)
Definition created_columns : list string :=
  [ "id"; "tipo"; "titulo"; "numero"; "data"; "conselho"; "caminho";
    "hash_sha256"; "criado_em" ]%string.

(** [_init_db] on the file at [db_path]: a new file ([None]) gets the two
    tables, empty; the tables of an existing file are left as they are. *)
Definition _init_db (file : option Database) : Database :=
  match file with
  | Some db => db
  | None => {| documentos_columns := created_columns;
               documentos := [];
               chunks := [] |}
  end.

(** *** SQL *)

(** The value of a condition: true, false or NULL ([None]). *)
Definition sql_bool : Type := option bool.

Definition sql_eq_int (v : option Z) (n : Z) : sql_bool :=
  (fun x => Z.eqb x n) <$> v.

Definition sql_eq_text (v : option pystr) (s : pystr) : sql_bool :=
  (fun x => bool_decide (x = s)) <$> v.

Definition sql_or (a b : sql_bool) : sql_bool :=
  match a, b with
  | Some true, _ | _, Some true => Some true
  | Some false, Some false => Some false
  | _, _ => None
  end.

Definition sql_and (a b : sql_bool) : sql_bool :=
  match a, b with
  | Some false, _ | _, Some false => Some false
  | Some true, Some true => Some true
  | _, _ => None
  end.

(** A row is selected when its WHERE condition is true. *)
Definition selected (c : sql_bool) : bool :=
  match c with Some true => true | _ => false end.

(** The columns of [documentos] that the SELECT of the three search
    methods names. *)
Definition selected_columns : list string :=
  [ "tipo"; "titulo"; "numero"; "data"; "conselho"; "user_id";
    "is_global"; "id" ]%string.

Definition has_column (db : Database) (name : string) : bool :=
  existsb (String.eqb name) (documentos_columns db).

(** Preparing the statement: a column the table does not have is
    [sqlite3.OperationalError: no such column]. *)
Definition prepare (db : Database) : Exc unit :=
  if forallb (has_column db) selected_columns then Ok tt
  else Raise OperationalError.

(** [FROM chunks c JOIN documentos d ON c.documento_id = d.id]: the
    chunks in rowid order, each with its document ([id] is the primary
    key of [documentos]); a chunk without document yields no row. *)
Definition join (db : Database) : list (ChunkRow * Documento) :=
  flat_map
    (fun c =>
       match List.find (fun d => Z.eqb (d_id d) (c_documento_id c))
                       (documentos db) with
       | Some d => [(c, d)]
       | None => []
       end)
    (chunks db).

(** [bool(user_id)] of an [Optional[str]]. *)
Definition given (user_id : option pystr) : bool :=
  match user_id with
  | Some u => truthy u
  | None => false
  end.

(** The permission filter of [search] and [search_by_embedding]:
    [WHERE d.is_global = 1 OR d.user_id = ?] when a user id is given,
    [WHERE d.is_global = 1] otherwise. *)
Definition permission_filter (user_id : option pystr) (d : Documento)
  : sql_bool :=
  match user_id with
  | Some u =>
    if truthy u
    then sql_or (sql_eq_int (d_is_global d) 1) (sql_eq_text (d_user_id d) u)
    else sql_eq_int (d_is_global d) 1
  | None => sql_eq_int (d_is_global d) 1
  end.

(** A document is admissible for a requester when it is global or the
    requester id is given, that is neither [None] nor empty, and is the
    owner of the document. *)
Definition admissible (requester : option pystr) (d : Documento) : Prop :=
  d_is_global d = Some 1%Z
  \/ exists u, requester = Some u /\ u <> [] /\ d_user_id d = Some u.


(** An entry of the result list. *)
Record SearchResult `{Services} : Type := {
  chunk_id : Z;
  conteudo : pystr;
  similarity : float32;
  metadata : json;
  tipo : pystr;
  titulo : pystr;
  numero : option pystr;
  data : option pystr;
  conselho : option pystr;
  posicao : option Z;
  user_id : option pystr;
  is_global : bool
}.

Section Search.
Context `{Services}.

(** The cosine similarity as the loop computes it. *)
Definition cosine (query_embedding embedding : ndarray) : Exc float32 :=
  d ← np_dot query_embedding embedding;
  Ok (f32_div d (f32_mul (np_linalg_norm query_embedding)
                          (np_linalg_norm embedding))).

(** [bool(is_global)] of a column value. *)
Definition bool_of_column (v : option Z) : bool :=
  match v with
  | Some n => negb (Z.eqb n 0)
  | None => false
  end.

(** The dict the loop appends for a row. *)
Definition entry (row : ChunkRow * Documento) (similarity : float32)
    (metadata : json) : SearchResult :=
  let (c, d) := row in
  {| chunk_id := c_id c;
     conteudo := c_conteudo c;
     similarity := similarity;
     metadata := metadata;
     tipo := d_tipo d;
     titulo := d_titulo d;
     numero := d_numero d;
     data := d_data d;
     conselho := d_conselho d;
     posicao := c_posicao c;
     user_id := d_user_id d;
     is_global := bool_of_column (d_is_global d) |}.

(** [json.loads(metadata_json) if metadata_json else {}] *)
Definition load_metadata (metadata_json : option pystr) : Exc json :=
  match metadata_json with
  | Some text => if truthy text then json_loads text else Ok empty_dict
  | None => Ok empty_dict
  end.

(** The body of the loop over [cur.fetchall()]. *)
Definition result_of_row (query_embedding : ndarray)
    (row : ChunkRow * Documento) : Exc SearchResult :=
  (* Deserialize embedding *)
  embedding ← np_frombuffer (c_embedding (fst row));
  (* Calculate cosine similarity *)
  similarity ← cosine query_embedding embedding;
  metadata ← load_metadata (c_metadata (fst row));
  Ok (entry row similarity metadata).

(** [r] is the entry of [row], whatever its score and metadata. *)
Definition from_row (r : SearchResult) (row : ChunkRow * Documento)
  : Prop :=
  exists similarity metadata, r = entry row similarity metadata.

(** [r] is the entry of [row] with the cosine similarity of the query
    vector [q] and the vector of the chunk. *)
Definition scored (q : ndarray) (row : ChunkRow * Documento)
    (r : SearchResult) : Prop :=
  exists v d metadata,
    np_frombuffer (c_embedding (fst row)) = Ok v
    /\ np_dot q v = Ok d
    /\ r = entry row
             (f32_div d (f32_mul (np_linalg_norm q) (np_linalg_norm v)))
             metadata.

(** An entry of a global document: the entry of a row of the store
    whose document has [is_global = 1]. *)
Definition global_entry (db : Database) (r : SearchResult) : Prop :=
  exists row,
    In row (join db) /\ from_row r row
    /\ d_is_global (snd row) = Some 1%Z.

(** The statement and the loop the three search methods share: the
    selected rows, scored, in the order of the scan. *)
Definition scan (db : Database) (where_ : Documento -> sql_bool)
    (query_embedding : ndarray) : Exc (list SearchResult) :=
  _ ← prepare db;
  mapM (result_of_row query_embedding)
       (List.filter (fun row => selected (where_ (snd row))) (join db)).

(** Sort by similarity and return top k. *)
Definition top_k (k : Z) (results : list SearchResult)
  : list SearchResult :=
  slice_to k (PySort.sort_reverse similarity results).

Definition search_by_embedding (db : Database) (embedding : ndarray)
    (k : Z) (user_id : option pystr) : Exc (list SearchResult) :=
  results ← scan db (permission_filter user_id) embedding;
  Ok (top_k k results).

Definition search (db : Database) (query : pystr) (k : Z)
    (user_id : option pystr) : Exc (list SearchResult) :=
  (* Generate query embedding *)
  query_embedding ← generate_embedding query;
  results ← scan db (permission_filter user_id) query_embedding;
  Ok (top_k k results).

(** The WHERE clause of [search_with_filter]: the permission filter and
    one equality for each of the keys 'tipo', 'conselho' and 'numero'
    that [filters] has. *)
Definition filter_clause (filters : gmap pystr pystr) (key : pystr)
    (column : option pystr) : sql_bool :=
  match filters !! key with
  | Some v => sql_eq_text column v
  | None => Some true
  end.

Definition where_sql (filters : gmap pystr pystr)
    (user_id : option pystr) (d : Documento) : sql_bool :=
  sql_and
    (sql_and
       (sql_and (permission_filter user_id d)
                (filter_clause filters (py "tipo") (Some (d_tipo d))))
       (filter_clause filters (py "conselho") (d_conselho d)))
    (filter_clause filters (py "numero") (d_numero d)).

Definition search_with_filter (db : Database) (query : pystr)
    (filters : gmap pystr pystr) (k : Z) (user_id : option pystr)
  : Exc (list SearchResult) :=
  query_embedding ← generate_embedding query;
  results ← scan db (where_sql filters user_id) query_embedding;
  Ok (top_k k results).

End Search.

(** *** Writing *)

(** The database file with the table [sqlite_sequence], in which SQLite
    keeps, for a table with an AUTOINCREMENT key, the largest rowid the
    table ever had. *)
Record File : Type := {
  tables : Database;
  seq_documentos : Z;
  seq_chunks : Z
}.

(** What [add_documents] raises: [sqlite3.IntegrityError] for a
    constraint of the tables, or the exception of the embedding
    provider or of the engine. *)
Inductive ingest_exn : Type :=
| IntegrityError
| Raised (e : exn).

(** The largest rowid of an AUTOINCREMENT table. *)
Definition max_rowid : Z := 9223372036854775807.

(** The rowid of a new row of an AUTOINCREMENT table: one more than the
    largest rowid the table has or ever had; SQLITE_FULL when this was
    the largest rowid there is. *)
Definition next_rowid (ids : list Z) (seq : Z) : ingest_exn + Z :=
  let largest := fold_right Z.max seq ids in
  if (largest <? max_rowid)%Z then inr (largest + 1)%Z
  else inl (Raised OperationalError).

Section Ingest.
Context `{Services}.
(** [EmbeddingService.batch_embed] and [json.dumps(_, ensure_ascii=False)],
    and the values the columns [user_id] and [is_global] take in a row
    that is inserted without them: their DEFAULT, or NULL. *)
Context (batch_embed : list pystr -> Exc (list ndarray))
        (json_dumps : json -> pystr)
        (default_user_id : option pystr)
        (default_is_global : option Z).

(** SELECT id FROM documentos WHERE hash_sha256 = ? *)
Definition select_by_hash (f : File) (hash : pystr) : option Documento :=
  List.find (fun d => selected (sql_eq_text (d_hash_sha256 d) hash))
            (documentos (tables f)).

(** INSERT INTO documentos (tipo, titulo, numero, data, conselho,
    caminho, hash_sha256); the result is [cur.lastrowid] and the file.
    [caminho] is NOT NULL and [hash_sha256] is UNIQUE. *)
Definition insert_documento (f : File) (doc : Document.t)
  : ingest_exn + (Z * File) :=
  match Document.caminho doc with
  | None => inl IntegrityError
  | Some caminho =>
    match select_by_hash f (Document.hash_sha256 doc) with
    | Some _ => inl IntegrityError
    | None =>
      match next_rowid (map d_id (documentos (tables f)))
                       (seq_documentos f) with
      | inl e => inl e
      | inr id =>
        let row :=
          {| d_id := id;
             d_tipo := Document.tipo doc;
             d_titulo := Document.titulo doc;
             d_numero := Document.numero doc;
             d_data := Document.data doc;
             d_conselho := Document.conselho doc;
             d_caminho := caminho;
             d_hash_sha256 := Some (Document.hash_sha256 doc);
             d_user_id := default_user_id;
             d_is_global := default_is_global |} in
        inr (id,
             {| tables :=
                  {| documentos_columns := documentos_columns (tables f);
                     documentos := documentos (tables f) ++ [row];
                     chunks := chunks (tables f) |};
                seq_documentos := id;
                seq_chunks := seq_chunks f |})
      end
    end
  end.

(** INSERT INTO chunks (documento_id, conteudo, embedding, metadata,
    posicao) *)
Definition insert_chunk (f : File) (doc_id : Z) (chunk : Chunk.t)
    (embedding_blob : list N) (metadata_json : pystr)
  : ingest_exn + File :=
  match next_rowid (map c_id (chunks (tables f))) (seq_chunks f) with
  | inl e => inl e
  | inr id =>
    let row :=
      {| c_id := id;
         c_documento_id := doc_id;
         c_conteudo := Chunk.conteudo chunk;
         c_embedding := Some embedding_blob;
         c_metadata := Some metadata_json;
         c_posicao := Some (Chunk.posicao chunk) |} in
    inr {| tables :=
             {| documentos_columns := documentos_columns (tables f);
                documentos := documentos (tables f);
                chunks := chunks (tables f) ++ [row] |};
           seq_documentos := seq_documentos f;
           seq_chunks := id |}
  end.

(** Insert chunks: the loop over [zip(chunks, embeddings)]. *)
Fixpoint insert_chunks (f : File) (doc_id : Z)
    (pairs : list (Chunk.t * ndarray)) : ingest_exn + File :=
  match pairs with
  | [] => inr f
  | (chunk, embedding) :: pairs' =>
    let embedding_blob := tobytes embedding in
    let metadata_json := json_dumps (Chunk.metadata chunk) in
    match insert_chunk f doc_id chunk embedding_blob metadata_json with
    | inl e => inl e
    | inr f' => insert_chunks f' doc_id pairs'
    end
  end.

(** The loop over [zip(documents, chunks_per_doc)]. *)
Fixpoint add_each (f : File) (pairs : list (Document.t * list Chunk.t))
  : ingest_exn + File :=
  match pairs with
  | [] => inr f
  | (doc, chunks) :: pairs' =>
    (* Check if document already exists *)
    match select_by_hash f (Document.hash_sha256 doc) with
    | Some existing => add_each f pairs'
    | None =>
      (* Insert document *)
      match insert_documento f doc with
      | inl e => inl e
      | inr (doc_id, f) =>
        (* Generate embeddings for chunks *)
        let chunk_texts := map Chunk.conteudo chunks in
        match batch_embed chunk_texts with
        | Raise e => inl (Raised e)
        | Ok embeddings =>
          (* Insert chunks *)
          match insert_chunks f doc_id (zip chunks embeddings) with
          | inl e => inl e
          | inr f => add_each f pairs'
          end
        end
      end
    end
  end.

(** Add documents and their chunks to the database.  The statements
    run in one transaction, which is committed at the end: when the
    call raises, the file is as it was. *)
Definition add_documents (f : File) (documents : list Document.t)
    (chunks_per_doc : list (list Chunk.t)) : ingest_exn + File :=
  add_each f (zip documents chunks_per_doc).

(** The largest rowid [documentos] has or had. *)
Definition largest_documento (f : File) : Z :=
  fold_right Z.max (seq_documentos f) (map d_id (documentos (tables f))).

(** The rows a call has appended to the two tables. *)
Record appended (f f' : File) (new_docs : list Documento)
    (new_chunks : list ChunkRow) : Prop := {
  same_columns :
    documentos_columns (tables f') = documentos_columns (tables f);
  more_documentos :
    documentos (tables f') = documentos (tables f) ++ new_docs;
  more_chunks : chunks (tables f') = chunks (tables f) ++ new_chunks
}.

(** The row of [documentos] that the INSERT writes for a document. *)
Definition row_of (doc : Document.t) (d : Documento) : Prop :=
  d_tipo d = Document.tipo doc
  /\ d_titulo d = Document.titulo doc
  /\ d_numero d = Document.numero doc
  /\ d_data d = Document.data doc
  /\ d_conselho d = Document.conselho doc
  /\ Some (d_caminho d) = Document.caminho doc
  /\ d_hash_sha256 d = Some (Document.hash_sha256 doc)
  /\ d_user_id d = default_user_id
  /\ d_is_global d = default_is_global.

(** The row of [chunks] that the INSERT writes for a chunk of the
    document [doc_id] and its vector. *)
Definition chunk_row_of (doc_id : Z) (chunk : Chunk.t) (embedding : ndarray)
    (c : ChunkRow) : Prop :=
  c_documento_id c = doc_id
  /\ c_conteudo c = Chunk.conteudo chunk
  /\ c_embedding c = Some (tobytes embedding)
  /\ c_metadata c = Some (json_dumps (Chunk.metadata chunk))
  /\ c_posicao c = Some (Chunk.posicao chunk).

(** What a call that returns has written: rows with new ids, one for
    each document whose hash the table did not have and one for each
    chunk of these documents that has a vector. *)
Definition stored (f : File) (pairs : list (Document.t * list Chunk.t))
    (f' : File) (new_docs : list Documento) (new_chunks : list ChunkRow)
  : Prop :=
  appended f f' new_docs new_chunks
  /\ (largest_documento f <= largest_documento f')%Z
  /\ Forall (fun d => (largest_documento f < d_id d)%Z) new_docs
  /\ StronglySorted (fun a b => (d_id a < d_id b)%Z) new_docs
  /\ Forall (fun d =>
               exists doc chunks,
                 In (doc, chunks) pairs /\ row_of doc d
                 /\ select_by_hash f (Document.hash_sha256 doc) = None)
            new_docs
  /\ NoDup (map d_hash_sha256 new_docs)
  /\ Forall (fun row =>
               Forall (fun c => (c_id c < c_id row)%Z) (chunks (tables f)))
            new_chunks
  /\ StronglySorted (fun a b => (c_id a < c_id b)%Z) new_chunks
  /\ Forall (fun c =>
               exists d doc chunks embeddings chunk e,
                 In d new_docs /\ In (doc, chunks) pairs /\ row_of doc d
                 /\ batch_embed (map Chunk.conteudo chunks) = Ok embeddings
                 /\ In (chunk, e) (zip chunks embeddings)
                 /\ chunk_row_of (d_id d) chunk e c)
            new_chunks
  /\ Forall (fun p =>
               select_by_hash f' (Document.hash_sha256 (fst p)) <> None)
            pairs.
End Ingest.

(** The dict [get_stats] returns; [documentos_por_tipo] is
    [dict(cur.fetchall())] of the rows of GROUP BY tipo. *)
Record Stats : Type := {
  num_documentos : Z;
  num_chunks : Z;
  documentos_por_tipo : gmap pystr Z
}.

(** SELECT tipo, COUNT( * ) FROM documentos GROUP BY tipo *)
Definition count_by_tipo (rows : list Documento) : gmap pystr Z :=
  fold_right
    (fun d counts =>
       <[ d_tipo d := (default 0 (counts !! d_tipo d) + 1)%Z ]> counts)
    ∅ rows.

(** Get database statistics *)
Definition get_stats (db : Database) : Stats :=
  {| num_documentos := Z.of_nat (length (documentos db));
     num_chunks := Z.of_nat (length (chunks db));
     documentos_por_tipo := count_by_tipo (documentos db) |}.

End VectorStore.

(** ** The focal tool selector (src/agents/focal_agent.py) *)

Module FocalAgent.
Import VectorStore.

(** Configuration for a focal tool *)
Record ToolConfig : Type := {
  name : pystr;
  detect_terms : list pystr;
  filter_terms : list pystr;
  description : pystr
}.

Definition tool_pauta : ToolConfig :=
  {| name := py "pauta";
     detect_terms := [py "pauta"; py "agenda"; py "ordem do dia"];
     filter_terms := [py "pauta"; py "agenda"; py "convocacao"];
     description := py "Busca pautas e agendas de reuniões" |}.

Definition tool_ata : ToolConfig :=
  {| name := py "ata";
     detect_terms :=
       [py "ata"; py "sessao"; py "sessão"; py "reuniao"; py "reunião"];
     filter_terms := [py "ata"];
     description := py "Busca atas de reuniões" |}.

Definition tool_votacao : ToolConfig :=
  {| name := py "votacao";
     detect_terms :=
       [py "votacao"; py "votação"; py "resultado"; py "quorum";
        py "voto"; py "aprovad"];
     filter_terms := [py "votacao"; py "ata"];
     description := py "Busca informações sobre votações" |}.

Definition tool_participantes : ToolConfig :=
  {| name := py "participantes";
     detect_terms :=
       [py "participantes"; py "presenca"; py "presença";
        py "assinaturas"; py "quem participou"];
     filter_terms := [py "participantes"; py "assinaturas"; py "ata"];
     description := py "Busca lista de participantes" |}.

Definition tool_resolucao : ToolConfig :=
  {| name := py "resolucao";
     detect_terms := [py "resolucao"; py "resolução"];
     filter_terms := [py "resolucao"];
     description := py "Busca resoluções" |}.

Definition tool_portaria : ToolConfig :=
  {| name := py "portaria";
     detect_terms := [py "portaria"];
     filter_terms := [py "portaria"];
     description := py "Busca portarias" |}.

Definition tool_data_reuniao : ToolConfig :=
  {| name := py "data_reuniao";
     detect_terms :=
       [py "quando foi"; py "data da reuniao"; py "data da reunião";
        py "que dia"; py "quando ocorreu"];
     filter_terms := [py "ata"; py "agenda"; py "pauta"; py "convocacao"];
     description := py "Busca datas de reuniões" |}.

(** Tool configurations *)
Definition TOOLS : list ToolConfig :=
  [ tool_pauta; tool_ata; tool_votacao; tool_participantes;
    tool_resolucao; tool_portaria; tool_data_reuniao ].

(** Whether a detect-term of [tool] occurs in the lowercased question. *)
Definition detects (q : pystr) (tool : ToolConfig) : bool :=
  any (fun term => contains q term) (detect_terms tool).

(** The loop of [pick_tool] over a tool table. *)
Definition pick_from (tools : list ToolConfig) (question : pystr)
  : option ToolConfig :=
  let q := lower question in
  List.find (detects q) tools.

Definition pick_tool (question : pystr) : option ToolConfig :=
  pick_from TOOLS question.

Section Run.
Context `{Services}.

(** Result from focal agent *)
Record AgentResult : Type := {
  tool : option pystr;
  chunks : list SearchResult;
  enhanced_query : pystr
}.

Definition name_is (t : ToolConfig) (s : string) : bool :=
  bool_decide (name t = py s).

(** Enhance query for specific tools *)
Definition enhance (t : ToolConfig) (question : pystr) : pystr :=
  if name_is t "data_reuniao"
  then question ++ py " data reunião sessão ata agenda pauta convocação"
  else if name_is t "votacao"
  then question ++ py " votação resultado quórum aprovada"
  else if name_is t "participantes"
  then question ++ py " participantes presença assinaturas lista"
  else question.

(** Build filters *)
Definition build_filters (t : ToolConfig) : gmap pystr pystr :=
  if name_is t "pauta" || name_is t "ata" || name_is t "resolucao"
     || name_is t "portaria"
  then {[ py "tipo" := name t ]}
  else ∅.

(** Post-filter by keywords *)
Definition keyword_match (t : ToolConfig) (r : SearchResult) : bool :=
  let content_lower := lower (conteudo r) in
  let source_lower := lower (titulo r) in
  any (fun term => contains content_lower term
                   || contains source_lower term)
      (filter_terms t).

(** The body of the [try] block of [run]. *)
Definition execute_search (db : Database) (t : ToolConfig)
    (enhanced_query : pystr) (k : Z) (user_id : option pystr)
  : Exc (list SearchResult) :=
  let filters := build_filters t in
  if bool_decide (filters = ∅)
  then
    (* For tools without direct type filter, search all *)
    results ← search db enhanced_query k user_id;
    match filter_terms t with
    | [] => Ok results
    | _ :: _ => Ok (slice_to k (List.filter (keyword_match t) results))
    end
  else search_with_filter db enhanced_query filters k user_id.

Definition run (db : Database) (question : pystr) (k : Z)
    (user_id : option pystr) : AgentResult :=
  match pick_tool question with
  | None =>
    {| tool := None; chunks := []; enhanced_query := question |}
  | Some t =>
    let enhanced_query := enhance t question in
    match execute_search db t enhanced_query k user_id with
    | Ok results =>
      {| tool := Some (name t);
         chunks := results;
         enhanced_query := enhanced_query |}
    | Raise _ =>
      {| tool := Some (name t);
         chunks := [];
         enhanced_query := enhanced_query |}
    end
  end.
End Run.
End FocalAgent.

(** ** Regular expressions of [re]

    The patterns of count_helper.py are matched by backtracking, as [re]
    does: alternatives are tried from left to right, a greedy repetition
    tries one more iteration before it tries to stop, a lazy one the
    other way round, and [re.search] takes the first position of the text
    at which the pattern matches. *)

Module Re.

Inductive regex : Type :=
| Eps                                  (* the empty pattern *)
| Chr (p : N -> bool)                  (* one code point of a class *)
| Seq (r1 r2 : regex)
| Alt (r1 r2 : regex)                  (* r1|r2 *)
| Star (greedy : bool) (r : regex)     (* r* and r*? *)
| Group (i : nat) (r : regex)          (* the i-th capturing group *)
| Eos.                                 (* $ *)

(** The groups matched so far, the latest first. *)
Definition captures : Type := list (nat * pystr).

Fixpoint group (i : nat) (c : captures) : pystr :=
  match c with
  | [] => []
  | (j, s) :: c' => if Nat.eqb i j then s else group i c'
  end.

(** [matches r s pos c k]: match [r] at the head of [s], which is the
    text from offset [pos] of the attempt on, then hand the rest of the
    text and its offset to the continuation [k]; [None] when every
    alternative has failed.  The body of a repetition in the patterns
    below always takes a code point, so a text of [n] code points allows
    [n] iterations at most. *)
Fixpoint matches {R : Type} (r : regex) (s : pystr) (pos : nat)
    (c : captures) (k : pystr -> nat -> captures -> option R) {struct r}
  : option R :=
  match r with
  | Eps => k s pos c
  | Chr p =>
    match s with
    | x :: s' => if p x then k s' (S pos) c else None
    | [] => None
    end
  | Seq r1 r2 =>
    matches r1 s pos c (fun s' pos' c' => matches r2 s' pos' c' k)
  | Alt r1 r2 =>
    match matches r1 s pos c k with
    | Some x => Some x
    | None => matches r2 s pos c k
    end
  | Star greedy r1 =>
    (fix star (n : nat) (s : pystr) (pos : nat) (c : captures) {struct n}
       : option R :=
       match n with
       | O => k s pos c
       | S n' =>
         if greedy
         then match matches r1 s pos c (star n') with
              | Some x => Some x
              | None => k s pos c
              end
         else match k s pos c with
              | Some x => Some x
              | None => matches r1 s pos c (star n')
              end
       end) (length s) s pos c
  | Group i r1 =>
    matches r1 s pos c
      (fun s' pos' c' => k s' pos' ((i, firstn (pos' - pos) s) :: c'))
  | Eos =>
    match s with
    | [] => k s pos c
    | [x] => if x =? 0x0A then k s pos c else None
    | _ => None
    end
  end.

(** [re.search(r, s)]: the groups of the leftmost match. *)
Fixpoint search (r : regex) (s : pystr) : option captures :=
  match matches r s 0 [] (fun _ _ c => Some c) with
  | Some c => Some c
  | None =>
    match s with
    | [] => None
    | _ :: s' => search r s'
    end
  end.

(** [re.split] on a class of single code points. *)
Fixpoint split_from (p : N -> bool) (current : pystr) (s : pystr)
  : list pystr :=
  match s with
  | [] => [rev current]
  | x :: s' =>
    if p x then rev current :: split_from p [] s'
    else split_from p (x :: current) s'
  end.

Definition split (p : N -> bool) (s : pystr) : list pystr :=
  split_from p [] s.

(** *** Pattern syntax *)

Fixpoint seq (rs : list regex) : regex :=
  match rs with
  | [] => Eps
  | [r] => r
  | r :: rs' => Seq r (seq rs')
  end.

(** A literal code point under [re.IGNORECASE] (the patterns are written
    in lower case). *)
Definition lit (c : N) : regex := Chr (fun x => lower_cp x =? c).

(** A literal text under [re.IGNORECASE]. *)
Definition text (s : string) : regex := seq (map lit (py s)).

(** A set [[...]] under [re.IGNORECASE]. *)
Definition set (s : string) : regex :=
  Chr (fun x => existsb (N.eqb (lower_cp x)) (py s)).

Definition digit : regex := Chr isdigit.                     (* \d *)
Definition space : regex := Chr isspace.                     (* \s *)
Definition dot : regex := Chr (fun x => negb (x =? 0x0A)).   (* . *)
Definition plus (r : regex) : regex := Seq r (Star true r).  (* r+ *)
Definition lazy_plus (r : regex) : regex := Seq r (Star false r). (* r+? *)
Definition opt (r : regex) : regex := Alt r Eps.             (* r? *)


End Re.

(** ** The fact deriver (src/services/count_helper.py) *)

Module CountHelper.
Import Re.

(** (\d+)\s+votos?\s+(?:a\s+)?favor.*?(\d+)\s+contra.*?(\d+)\s+absten *)
Definition voting_pattern : regex :=
  seq [ Group 1 (plus digit); plus space; text "voto"; opt (text "s");
        plus space; opt (Seq (text "a") (plus space)); text "favor";
        Star false dot; Group 2 (plus digit); plus space; text "contra";
        Star false dot; Group 3 (plus digit); plus space; text "absten" ].

(** aprovad[oa]\s+por\s+unanimidade *)
Definition unanimity_pattern : regex :=
  seq [ text "aprovad"; set "oa"; plus space; text "por"; plus space;
        text "unanimidade" ].

(** aprovad[oa]\s+por\s+maioria *)
Definition majority_pattern : regex :=
  seq [ text "aprovad"; set "oa"; plus space; text "por"; plus space;
        text "maioria" ].

(** presentes:\s*(.+?)(?:\n|$) *)
Definition present_pattern : regex :=
  seq [ text "presentes:"; Star true space; Group 1 (lazy_plus dot);
        Alt (lit 0x0A) Eos ].

(** (\d+)\s+participantes? *)
Definition participants_pattern : regex :=
  seq [ Group 1 (plus digit); plus space; text "participante";
        opt (text "s") ].

(** qu[oó]rum\s+de\s+(\d+) *)
Definition quorum_of_pattern : regex :=
  seq [ text "qu"; set "oó"; text "rum"; plus space; text "de";
        plus space; Group 1 (plus digit) ].

(** qu[oó]rum\s+atingido *)
Definition quorum_reached_pattern : regex :=
  seq [ text "qu"; set "oó"; text "rum"; plus space; text "atingido" ].

(** sem\s+qu[oó]rum *)
Definition no_quorum_pattern : regex :=
  seq [ text "sem"; plus space; text "qu"; set "oó"; text "rum" ].

Definition found (r : regex) (content : pystr) : bool :=
  match search r content with Some _ => true | None => false end.

Section Derive.
(** A chunk is a dict; [conteudo_of chunk] is
    [chunk.get('conteudo', '')]. *)
Context {Chunk : Type} (conteudo_of : Chunk -> pystr).

(** The facts one chunk adds in the loop of [_derive_voting_counts]. *)
Definition voting_facts_of (content : pystr) : list pystr :=
  (match search voting_pattern content with
   | Some m =>
     let favor := group 1 m in
     let contra := group 2 m in
     let abstencoes := group 3 m in
     let total := int_of_digits favor + int_of_digits contra
                  + int_of_digits abstencoes in
     [ py "Votação: " ++ favor ++ py " a favor, " ++ contra
       ++ py " contra, " ++ abstencoes ++ py " abstenções (total: "
       ++ str_of_N total ++ py ")" ]
   | None => []
   end)
  ++ (if found unanimity_pattern content
      then [py "Aprovado por unanimidade"] else [])
  ++ (if found majority_pattern content
      then [py "Aprovado por maioria"] else []).

(** Extract voting information from chunks *)
Definition _derive_voting_counts (chunks : list Chunk) : list pystr :=
  flat_map (fun chunk => voting_facts_of (conteudo_of chunk)) chunks.

(** The names one chunk adds to the set [participants]. *)
Definition names_of (content : pystr) : list pystr :=
  if contains (lower content) (py "presentes:")
  then match search present_pattern content with
       | Some m =>
         let names_text := group 1 m in
         (* Split by common separators *)
         let names :=
           split (fun x => (x =? 0x2C) || (x =? 0x3B)) names_text in
         List.filter (fun name => truthy name && (3 <? length name)%nat)
                     (map strip names)
       | None => []
       end
  else [].

Definition participant_count_of (content : pystr) : list pystr :=
  match search participants_pattern content with
  | Some m => [py "Total de participantes: " ++ group 1 m]
  | None => []
  end.

(** Extract participant information from chunks *)
Definition _derive_participant_counts (chunks : list Chunk)
  : list pystr :=
  let participants :=
    remove_dups
      (flat_map (fun chunk => names_of (conteudo_of chunk)) chunks) in
  flat_map (fun chunk => participant_count_of (conteudo_of chunk)) chunks
  ++ match participants with
     | [] => []
     | _ :: _ =>
       [ py "Participantes identificados: "
         ++ str_of_N (N.of_nat (length participants)) ]
     end.

Definition quorum_facts_of (content : pystr) : list pystr :=
  (match search quorum_of_pattern content with
   | Some m => [py "Quórum: " ++ group 1 m]
   | None => []
   end)
  ++ (if found quorum_reached_pattern content
      then [py "Quórum atingido"] else [])
  ++ (if found no_quorum_pattern content
      then [py "Sem quórum"] else []).

(** Extract quorum information from chunks *)
Definition _derive_quorum_info (chunks : list Chunk) : list pystr :=
  flat_map (fun chunk => quorum_facts_of (conteudo_of chunk)) chunks.

Definition voting_terms : list pystr :=
  [py "votacao"; py "votação"; py "voto"; py "aprovad"; py "resultado"].

Definition participant_terms : list pystr :=
  [py "participantes"; py "presenca"; py "presença"; py "quem";
   py "quantos"].

(** Derive facts from chunks based on question. *)
Definition derive_counts (question : pystr) (chunks : list Chunk)
  : list pystr :=
  let q_lower := lower question in
  (* Check if question is about voting *)
  (if any (fun term => contains q_lower term) voting_terms
   then _derive_voting_counts chunks else [])
  (* Check if question is about participants *)
  ++ (if any (fun term => contains q_lower term) participant_terms
      then _derive_participant_counts chunks else [])
  (* Check if question is about quorum *)
  ++ (if contains q_lower (py "quorum") || contains q_lower (py "quórum")
      then _derive_quorum_info chunks else []).


End Derive.


Definition vote_fact : pystr :=
  py "Votação: 15 a favor, 2 contra, 1 abstenções (total: 18)".


End CountHelper.

(** ** The orchestrator (src/services/chat_service.py) *)

Module ChatService.
Import VectorStore.

(** Chat message model *)
Record ChatMessage : Type := { role : pystr; content : pystr }.

(** What [semantic_rewriter.enrich] returns. *)
Record SemanticEnrichment : Type := {
  rewritten : pystr;
  heuristics : list pystr;
  alternates : list pystr;
  enrichment_confidence : spec_float
}.

(** What [clarification_agent.check_clarification] returns when the
    question is ambiguous; [confidence] is a Python float. *)
Record ClarificationNeeded : Type := {
  original_query : pystr;
  ambiguity_type : pystr;
  question : pystr;
  options : list pystr;
  confidence : spec_float
}.

(** The float [0.7]: 0x3FE6666666666666. *)
Definition threshold : spec_float :=
  S754_finite false 6305039478318694 (-53).

(** The stream [llm.get_response] returns: the [delta.content] of its
    chunks and, when the call or the iteration raises, [str(e)] of the
    exception that ends it. *)
Record Stream : Type := {
  deltas : list (option pystr);
  failure : option pystr
}.

Definition signals : list pystr :=
  [ py "não encontrei";
    py "nao encontrei";
    py "não há base";
    py "nao ha base";
    py "sem base documental";
    py "não tenho certeza";
    py "nao tenho certeza";
    py "sem informação";
    py "sem informacao" ].

(** Check if answer is negative/uncertain. *)
Definition _is_negative (answer : pystr) : bool :=
  let answer_lower := lower answer in
  any (fun signal => contains answer_lower signal) signals.

Section Answer.
Context `{Services}.

(** The [metadata] dict of a response; a key that is set on some paths
    only is an [option]. *)
Record Metadata : Type := {
  m_user_id : pystr;
  m_role : pystr;
  cache_hit : option pystr;
  agent_tool : option pystr;
  num_chunks : nat;
  num_facts : nat;
  clarification : bool;
  error : option pystr;
  enrichment : option (option SemanticEnrichment);
  derived_facts : option (list pystr);
  chunks : option (list SearchResult)
}.

(** Complete chat response with metadata *)
Record ChatResponse : Type := {
  message : ChatMessage;
  sources : list pystr;
  metadata : Metadata
}.

Record AuditRecord : Type := {
  a_user : pystr;
  a_role : pystr;
  input_text : pystr;
  output_text : pystr;
  a_metadata : Metadata
}.

(** The service and the objects it was built with.  The store, the
    cache and the focal agent are those of this repository; the other
    collaborators are known by the one method [answer] calls.  The
    audit logger is the list of the records it has written. *)
Record t : Type := {
  llm : list ChatMessage -> Stream;
  vector_store : option Database;
  cache : option CacheService.t;
  audit : option (list AuditRecord);
  rewriter : option (pystr -> Exc SemanticEnrichment);
  agent : option Database;   (* FocalAgent(vector_store) *)
  counter : option (pystr -> list SearchResult -> Exc (list pystr));
  enricher :
    option (pystr -> list SearchResult -> list ChatMessage ->
            option SemanticEnrichment -> list pystr -> option pystr ->
            Exc (list ChatMessage));
  clarifier :
    option (pystr -> list SearchResult ->
            Exc (option ClarificationNeeded));
  system_prompt : pystr   (* get_settings().system_prompt *)
}.

Definition with_state (self : t) (cache' : option CacheService.t)
    (audit' : option (list AuditRecord)) : t :=
  {| llm := llm self; vector_store := vector_store self;
     cache := cache'; audit := audit';
     rewriter := rewriter self; agent := agent self;
     counter := counter self; enricher := enricher self;
     clarifier := clarifier self;
     system_prompt := system_prompt self |}.

(** Log interaction to audit *)
Definition _log_audit (self : t) (user role input_text output_text : pystr)
    (metadata : Metadata) : option (list AuditRecord) :=
  (fun log =>
     log ++ [ {| a_user := user; a_role := role;
                 input_text := input_text; output_text := output_text;
                 a_metadata := metadata |} ])
  <$> audit self.

Definition assistant (text : pystr) : ChatMessage :=
  {| role := py "assistant"; content := text |}.

(** 1. Check cache: the level that answers and the cached text. *)
Definition cache_lookup (self : t) (user_id user_message : pystr)
  : option (pystr * pystr) :=
  match cache self with
  | None => None
  | Some c =>
    (* Try user cache *)
    let cached := CacheService.get_user_answer c user_id user_message in
    match cached with
    | Some a =>
      if truthy a && negb (_is_negative a) then Some (py "user", a)
      else
        (* Try global cache *)
        match CacheService.get_global_answer c user_message with
        | Some g =>
          if truthy g && negb (_is_negative g) then Some (py "global", g)
          else None
        | None => None
        end
    | None =>
      match CacheService.get_global_answer c user_message with
      | Some g =>
        if truthy g && negb (_is_negative g) then Some (py "global", g)
        else None
      | None => None
      end
    end
  end.

(** 2. Semantic rewriting *)
Definition rewrite (self : t) (user_message : pystr)
  : Exc (option SemanticEnrichment * pystr) :=
  match rewriter self with
  | Some enrich =>
    enrichment ← enrich user_message;
    Ok (Some enrichment, rewritten enrichment)
  | None => Ok (None, user_message)
  end.

(** 3. Focal agent search: the chunks and the tool of the agent. *)
Definition retrieve (self : t) (search_query : pystr)
  : Exc (list SearchResult * option pystr) :=
  match agent self, vector_store self with
  | Some agent_store, Some _ =>
    let agent_result := FocalAgent.run agent_store search_query 5 None in
    Ok (FocalAgent.chunks agent_result, FocalAgent.tool agent_result)
  | None, Some store =>
    (* Fallback to regular search *)
    chunks ← search store search_query 5 None;
    Ok (chunks, None)
  | _, None => Ok ([], None)
  end.

(** 4. Count helper (derive facts) *)
Definition derive (self : t) (user_message : pystr)
    (chunks : list SearchResult) : Exc (list pystr) :=
  match counter self, chunks with
  | Some derive_counts, _ :: _ => derive_counts user_message chunks
  | _, _ => Ok []
  end.

(** 5. Clarification check *)
Definition clarify (self : t) (user_message : pystr)
    (chunks : list SearchResult) : Exc (option ClarificationNeeded) :=
  match clarifier self, chunks with
  | Some check_clarification, _ :: _ =>
    check_clarification user_message chunks
  | _, _ => Ok None
  end.

Definition clarification_text (c : ClarificationNeeded) : pystr :=
  py "🤔 " ++ question c ++ [0x0A; 0x0A]
  ++ match options c with
     | [] => []
     | _ :: _ =>
       py "**Opções:**" ++ [0x0A]
       ++ flat_map (fun opt => py "- " ++ opt ++ [0x0A]) (options c)
     end
  ++ [0x0A] ++ py "Por favor, seja mais específico.".

(** 6. Prompt enrichment *)
Definition build_messages (self : t) (user_message : pystr)
    (chunks : list SearchResult) (history : list ChatMessage)
    (enrichment : option SemanticEnrichment) (derived_facts : list pystr)
    (agent_tool : option pystr) : Exc (list ChatMessage) :=
  match enricher self with
  | Some enrich =>
    enrich user_message chunks (slice_last 10 history) enrichment
           derived_facts agent_tool
  | None =>
    (* Fallback: simple messages *)
    Ok [ {| role := py "system"; content := system_prompt self |};
         {| role := py "user"; content := user_message |} ]
  end.

(** 7. LLM generation: the response text and [metadata["error"]]. *)
Definition generate (self : t) (messages : list ChatMessage)
  : pystr * option pystr :=
  let stream := llm self messages in
  match failure stream with
  | Some e => (py "Erro ao gerar resposta: " ++ e, Some e)
  | None =>
    (flat_map (fun delta =>
                 match delta with
                 | Some text => text
                 | None => []
                 end) (deltas stream),
     None)
  end.

(** 8. Cache storage *)
Definition store_answer (self : t) (user_id user_message : pystr)
    (response_text : pystr) : option CacheService.t :=
  match cache self with
  | Some c =>
    if truthy response_text && negb (_is_negative response_text)
    then
      let c := CacheService.set_user_answer c user_id user_message
                                            response_text in
      Some (CacheService.set_global_answer c user_message response_text)
    else Some c
  | None => None
  end.

(** Build sources *)
Definition build_sources (chunks : list SearchResult) : list pystr :=
  map (fun c => slice_to 50 (titulo c) ++ py " ("
                ++ format_percent (similarity c) ++ py ")")
      (slice_to 5 chunks).

(** The [metadata] dict before the keys for the UI are added. *)
Definition base_metadata (user_id role : pystr)
    (cache_hit agent_tool : option pystr) (num_chunks num_facts : nat)
    (clarification : bool) (error : option pystr) : Metadata :=
  {| m_user_id := user_id; m_role := role; cache_hit := cache_hit;
     agent_tool := agent_tool; num_chunks := num_chunks;
     num_facts := num_facts; clarification := clarification;
     error := error; enrichment := None; derived_facts := None;
     chunks := None |}.

(** Add enrichment and facts to metadata for UI *)
Definition ui_metadata (m : Metadata)
    (enrichment : option SemanticEnrichment) (derived_facts : list pystr)
    (chunks : list SearchResult) : Metadata :=
  {| m_user_id := m_user_id m; m_role := m_role m;
     cache_hit := cache_hit m; agent_tool := agent_tool m;
     num_chunks := num_chunks m; num_facts := num_facts m;
     clarification := clarification m; error := error m;
     enrichment := Some enrichment;
     derived_facts := Some derived_facts;
     chunks := Some chunks |}.

(** Steps 6 to 9 of [answer] and the response they build. *)
Definition respond (self : t) (user_message : pystr)
    (history : list ChatMessage) (user_id role : pystr)
    (enrichment : option SemanticEnrichment)
    (chunks : list SearchResult) (agent_tool : option pystr)
    (derived_facts : list pystr) : Exc (ChatResponse * t) :=
  (* 6. Prompt enrichment *)
  messages ← build_messages self user_message chunks history enrichment
                            derived_facts agent_tool;
  (* 7. LLM generation *)
  let (response_text, error) := generate self messages in
  (* 8. Cache storage *)
  let cache' := store_answer self user_id user_message response_text in
  (* 9. Audit logging *)
  let metadata :=
    base_metadata user_id role None agent_tool (length chunks)
                  (length derived_facts) false error in
  let audit' :=
    _log_audit self user_id role user_message response_text metadata in
  Ok ({| message := assistant response_text;
         sources := build_sources chunks;
         metadata := ui_metadata metadata enrichment derived_facts chunks |},
      with_state self cache' audit').

(** Process user message and generate response.  The result is the
    response and the service with the cache and the audit log as the
    call leaves them. *)
Definition answer (self : t) (user_message : pystr)
    (history : option (list ChatMessage)) (user_id role : pystr)
  : Exc (ChatResponse * t) :=
  let history := default [] history in
  (* 1. Check cache *)
  match cache_lookup self user_id user_message with
  | Some (level, cached) =>
    let metadata :=
      base_metadata user_id role (Some level) None 0 0 false None in
    Ok ({| message := assistant cached; sources := [];
           metadata := metadata |},
        with_state self (cache self)
          (_log_audit self user_id role user_message cached metadata))
  | None =>
    (* 2. Semantic rewriting *)
    '(enrichment, search_query) ← rewrite self user_message;
    (* 3. Focal agent search *)
    '(chunks, agent_tool) ← retrieve self search_query;
    (* 4. Count helper (derive facts) *)
    derived_facts ← derive self user_message chunks;
    (* 5. Clarification check *)
    clarification ← clarify self user_message chunks;
    match clarification with
    | Some c =>
      if SFltb threshold (confidence c)
      then
        (* If needs clarification, return clarification message *)
        let text := clarification_text c in
        let metadata :=
          base_metadata user_id role None agent_tool (length chunks)
                        (length derived_facts) true None in
        Ok ({| message := assistant text; sources := [];
               metadata := metadata |},
            with_state self (cache self)
              (_log_audit self user_id role user_message text metadata))
      else
        respond self user_message history user_id role enrichment
                chunks agent_tool derived_facts
    | None =>
      respond self user_message history user_id role enrichment
              chunks agent_tool derived_facts
    end
  end.
(** The store [retrieve] reads: that of the agent, or the store of
    the service when there is no agent. *)
Definition retrieval_store (self : t) : option Database :=
  match agent self, vector_store self with
  | Some db, Some _ => Some db
  | None, Some db => Some db
  | _, None => None
  end.

(** Both cache tables are empty (or there is no cache). *)
Definition caches_empty (self : t) : Prop :=
  match cache self with
  | Some c =>
    CacheService.qa_user_cache c = ∅ /\ CacheService.qa_global_cache c = ∅
  | None => True
  end.

(** A response without the user id its metadata records. *)
Definition anonymous (r : ChatResponse) : ChatResponse :=
  let m := metadata r in
  {| message := message r;
     sources := sources r;
     metadata :=
       {| m_user_id := []; m_role := m_role m; cache_hit := cache_hit m;
          agent_tool := agent_tool m; num_chunks := num_chunks m;
          num_facts := num_facts m; clarification := clarification m;
          error := error m; enrichment := enrichment m;
          derived_facts := derived_facts m; chunks := chunks m |} |}.

(** What a caller observes of a call besides the user id: the
    response, or the exception. *)
Definition observed (result : Exc (ChatResponse * t)) : Exc ChatResponse :=
  (fun p => anonymous (fst p)) <$> result.
End Answer.
End ChatService.

(** ** The disambiguation detector (src/agents/clarification_agent.py) *)

Module ClarificationAgent.
Import ChatService.

Definition temporal_words : list pystr :=
  [py "pauta"; py "ata"; py "reunião"; py "reuniao"].

Definition vague_words : list pystr := [py "qual"; py "quando"; py "onde"].

(** The last entry is the raw string [r'\d+'], three code points that
    are looked for as they are. *)
Definition specific_words : list pystr :=
  [py "última"; py "ultima"; py "próxima"; py "proxima"; py "número";
   py "numero"; py "\d+"].

(** Check if query has temporal ambiguity *)
Definition _is_temporal_query (query : pystr) : bool :=
  let has_temporal := any (fun word => contains query word) temporal_words in
  let has_vague := any (fun word => contains query word) vague_words in
  let no_specific :=
    negb (any (fun word => contains query word) specific_words) in
  has_temporal && has_vague && no_specific.

(** The keys of a dict filled with the elements of [l] in their order:
    each element once, at its first occurrence. *)
Fixpoint keys_in_order (l : list pystr) : list pystr :=
  match l with
  | [] => []
  | x :: l' =>
    x :: List.filter (fun y => negb (bool_decide (y = x))) (keys_in_order l')
  end.

(** The float [0.8]: 0x3FE999999999999A. *)
Definition temporal_confidence : spec_float :=
  S754_finite false 7205759403792794 (-53).

(** The float [0.7]: 0x3FE6666666666666. *)
Definition multiple_confidence : spec_float :=
  S754_finite false 6305039478318694 (-53).

Section Check.
(** A search result is a dict; [titulo_of result] is
    [result.get('titulo', '')] and [tipo_of result] is
    [result.get('tipo', '')]. *)
Context {Result : Type} (titulo_of tipo_of : Result -> pystr).

(** Check for temporal ambiguity (última vs próxima) *)
Definition _check_temporal_ambiguity (user_query : pystr)
    (search_results : list Result) : option ClarificationNeeded :=
  (* Extract document types and dates *)
  let doc_info := slice_to 5 search_results in
  match doc_info with
  | first :: _ =>
    let tipo := tipo_of first in
    (* Check if there are multiple documents of this type *)
    let unique_docs := remove_dups (map titulo_of doc_info) in
    if (1 <? length unique_docs)%nat
    then Some {| original_query := user_query;
                 ambiguity_type := py "temporal";
                 question :=
                   py "Você quer saber sobre a " ++ tipo
                   ++ py " da **última** reunião ou da **próxima** reunião?";
                 options := [py "última"; py "próxima"];
                 confidence := temporal_confidence |}
    else None
  | [] => None
  end.

(** Check if there are multiple similar documents *)
Definition _has_multiple_similar_docs (search_results : list Result)
  : bool :=
  if (length search_results <? 2)%nat then false
  else
    (* Check if top results are from different documents *)
    let unique_docs := remove_dups (map titulo_of (slice_to 5 search_results)) in
    (1 <? length unique_docs)%nat.

(** Check for multiple documents ambiguity *)
Definition _check_multiple_docs_ambiguity (user_query : pystr)
    (search_results : list Result) : option ClarificationNeeded :=
  (* Group by document *)
  let docs_by_title :=
    keys_in_order (map titulo_of (slice_to 8 search_results)) in
  if (1 <? length docs_by_title)%nat
  then
    (* Multiple documents found *)
    let doc_list := slice_to 3 docs_by_title in
    Some {| original_query := user_query;
            ambiguity_type := py "multiple_options";
            question :=
              py "Encontrei " ++ str_of_N (N.of_nat (length docs_by_title))
              ++ py " documentos. Sobre qual você quer saber?";
            options := doc_list;
            confidence := multiple_confidence |}
  else None.

(** Check if query is ambiguous and needs clarification.  The
    conversation history is an argument the method never reads. *)
Definition check_for_ambiguity (user_query : pystr)
    (search_results : list Result) (conversation_history : list ChatMessage)
  : option ClarificationNeeded :=
  let query_lower := lower user_query in
  (* Check for temporal ambiguity (última vs próxima) *)
  if _is_temporal_query query_lower
  then _check_temporal_ambiguity user_query search_results
  (* Check for multiple documents of same type *)
  else if _has_multiple_similar_docs search_results
  then _check_multiple_docs_ambiguity user_query search_results
  else None.

(** The test [answer] applies to a clarification before it interrupts
    the pipeline: [clarification.confidence > 0.7]. *)
Definition interrupts (c : ClarificationNeeded) : bool :=
  SFltb threshold (confidence c).
End Check.
End ClarificationAgent.

(** ** A runtime and a corpus for the examples *)

Module Fixture.
Import VectorStore.

Definition f32_add : float32 -> float32 -> float32 := SFadd 24 128.

(** The sum of the products, from left to right. *)
Definition dot_sum (u v : ndarray) : float32 :=
  fold_left f32_add (zip_with f32_mul u v) (S754_zero false).

Definition one : float32 := float32_of_bits 0x3F800000.
Definition zero : float32 := float32_of_bits 0.

(** A provider that embeds every text as the vector (1, 0); metadata is
    kept as its text. *)
#[export] Instance services : Services := {|
  json := pystr;
  generate_embedding := fun _ => Ok [one; zero];
  np_dot := fun u v =>
    if (length u =? length v)%nat then Ok (dot_sum u v)
    else Raise ValueError;
  np_linalg_norm := fun u => SFsqrt 24 128 (dot_sum u u);
  json_loads := fun text => Ok text;
  empty_dict := py "{}";
  format_percent := fun _ => py "%"
|}.

(** The little-endian bytes of 1.0 and 0.0. *)
Definition b_one : list N := [0; 0; 0x80; 0x3F].
Definition b_zero : list N := [0; 0; 0; 0].

Definition document (id : Z) (tipo titulo : string)
    (owner : option pystr) (is_global : Z) : Documento :=
  {| d_id := id; d_tipo := py tipo; d_titulo := py titulo;
     d_numero := None; d_data := None; d_conselho := None;
     d_caminho := py "data/documents"; d_hash_sha256 := None;
     d_user_id := owner; d_is_global := Some is_global |}.

Definition chunk (id documento : Z) (text : string) (embedding : list N)
  : ChunkRow :=
  {| c_id := id; c_documento_id := documento; c_conteudo := py text;
     c_embedding := Some embedding; c_metadata := None;
     c_posicao := Some 0%Z |}.

(** The columns of a [documentos] table that also has the two
    permission columns. *)
Definition permission_columns : list string :=
  created_columns ++ ["user_id"; "is_global"]%string.

(** One global document of three chunks, inserted in the order of the
    vectors (0,1), (1,0), (1,1), and one private document of alice. *)
Definition corpus : Database :=
  {| documentos_columns := permission_columns;
     documentos :=
       [ document 1 "ata" "Ata 01/2024" None 1;
         document 2 "ata" "Notas de alice" (Some (py "alice")) 0 ];
     chunks :=
       [ chunk 1 1 "Abertura da sessão" (b_zero ++ b_one);
         chunk 2 1 "Pauta da reunião" (b_one ++ b_zero);
         chunk 3 1 "Votação da ata" (b_one ++ b_one);
         chunk 4 2 "Rascunho" (b_one ++ b_zero) ] |}.






(** A service over [corpus] whose model answers every prompt by
    [reply]. *)
Definition service (reply : pystr) : ChatService.t :=
  {| ChatService.llm := fun _ =>
       {| ChatService.deltas := [Some reply];
          ChatService.failure := None |};
     ChatService.vector_store := Some corpus;
     ChatService.cache := Some CacheService._init_tables;
     ChatService.audit := Some [];
     ChatService.rewriter := None;
     ChatService.agent := Some corpus;
     ChatService.counter :=
       Some (fun question chunks =>
               Ok (CountHelper.derive_counts conteudo question chunks));
     ChatService.enricher := None;
     ChatService.clarifier := None;
     ChatService.system_prompt := py "Assistente do SECS." |}.

(** *** Stores and services of the further examples *)

(** A store whose second chunk was written without embedding. *)
Definition damaged : Database :=
  {| documentos_columns := permission_columns;
     documentos := [ document 1 "ata" "Ata 01/2024" None 1 ];
     chunks :=
       [ chunk 1 1 "Abertura da sessão" (b_zero ++ b_one);
         {| c_id := 2; c_documento_id := 1; c_conteudo := py "Pauta";
            c_embedding := None; c_metadata := None;
            c_posicao := Some 1%Z |} ] |}.

(** A file with the two tables, empty, and the permission columns. *)
Definition empty_file : File :=
  {| tables := {| documentos_columns := permission_columns;
                  documentos := [];
                  chunks := [] |};
     seq_documentos := 0;
     seq_chunks := 0 |}.

Definition ata_document : Document.t :=
  {| Document.tipo := py "ata";
     Document.titulo := py "Ata 01/2024";
     Document.numero := Some (py "01/2024");
     Document.data := None;
     Document.conselho := Some (py "CONSUNI");
     Document.caminho := Some (py "data/documents/atas/ata_01.md");
     Document.conteudo := py "# Ata 01/2024";
     Document.hash_sha256 := py "9f86d081884c7d65" |}.

Definition ata_chunks : list Chunk.t :=
  [ {| Chunk.documento_id := 0; Chunk.conteudo := py "Abertura da sessão";
       Chunk.metadata := py "{}"; Chunk.posicao := 0 |};
    {| Chunk.documento_id := 0; Chunk.conteudo := py "Pauta da reunião";
       Chunk.metadata := py "{}"; Chunk.posicao := 1 |} ].

(** A provider that embeds every text as the vector (1, 0). *)
Definition embed_all (texts : list pystr) : Exc (list ndarray) :=
  Ok (map (fun _ => [one; zero]) texts).

(** The metadata of the examples is kept as its text. *)
Definition dumps (metadata : @json services) : pystr := metadata.

(** [empty_file] after the ingestion of the document, when the columns
    [user_id] and [is_global] have no default. *)
Definition ingested : File :=
  Eval vm_compute in
    match add_documents embed_all dumps None None empty_file [ata_document]
                        [ata_chunks] with
    | inr f => f
    | inl _ => empty_file
    end.



(** A service over [corpus] whose global cache holds an answer. *)
Definition cached_service : ChatService.t :=
  {| ChatService.llm := fun _ =>
       {| ChatService.deltas := [Some (py "Outra resposta.")];
          ChatService.failure := None |};
     ChatService.vector_store := Some corpus;
     ChatService.cache :=
       Some (CacheService.set_global_answer CacheService._init_tables
               (py "O que diz a ata?") (py "A ata registra três itens."));
     ChatService.audit := Some [];
     ChatService.rewriter := None;
     ChatService.agent := Some corpus;
     ChatService.counter := None;
     ChatService.enricher := None;
     ChatService.clarifier := None;
     ChatService.system_prompt := py "Assistente do SECS." |}.

End Fixture.

(** * Properties *)

(** ** Strings *)

Section StringFacts.

Lemma startswith_spec (s t : pystr) :
  startswith s t = true <-> exists rest, s = t ++ rest.
Proof.
  revert s; induction t as [|b t IH]; intros s; simpl.
  - split; [intros _; exists s; reflexivity | intros _; destruct s; reflexivity].
  - destruct s as [|a s].
    + split; [discriminate | intros [rest Hrest]; discriminate].
    + cbn [startswith]. rewrite andb_true_iff, N.eqb_eq, IH. split.
      * intros [-> [rest ->]]. exists rest. reflexivity.
      * intros [rest Hrest]. injection Hrest as -> ->. eauto.
Qed.

(** [t in s] holds exactly when [t] is a substring of [s]. *)
Lemma contains_spec (s t : pystr) :
  contains s t = true <-> exists before after, s = before ++ t ++ after.
Proof.
  induction s as [|a s IH].
  - cbn [contains]. rewrite orb_false_r, startswith_spec. split.
    + intros [rest Hrest]. exists [], rest. exact Hrest.
    + intros (before & after & Heq).
      symmetry in Heq. apply app_eq_nil in Heq as [-> Heq].
      exists after. symmetry. exact Heq.
  - cbn [contains]. rewrite orb_true_iff, startswith_spec, IH. split.
    + intros [[rest Hrest] | (before & after & ->)].
      * exists [], rest. exact Hrest.
      * exists (a :: before), after. reflexivity.
    + intros (before & after & Heq). destruct before as [|b before].
      * left. exists after. exact Heq.
      * right. injection Heq as -> ->. eauto.
Qed.

Lemma contains_trans (s t u : pystr) :
  contains s t = true -> contains t u = true -> contains s u = true.
Proof.
  rewrite !contains_spec.
  intros (b1 & a1 & ->) (b2 & a2 & ->).
  exists (b1 ++ b2), (a2 ++ a1). rewrite <- !app_assoc. reflexivity.
Qed.

Lemma contains_app_l (s t u : pystr) :
  contains s u = true -> contains (s ++ t) u = true.
Proof.
  rewrite !contains_spec. intros (b & a & ->).
  exists b, (a ++ t). rewrite <- !app_assoc. reflexivity.
Qed.

Lemma contains_app_r (s t u : pystr) :
  contains t u = true -> contains (s ++ t) u = true.
Proof.
  rewrite !contains_spec. intros (b & a & ->).
  exists (s ++ b), a. rewrite <- !app_assoc. reflexivity.
Qed.

Lemma any_true {A : Type} (p : A -> bool) (l : list A) :
  any p l = true <-> exists x, In x l /\ p x = true.
Proof. apply existsb_exists. Qed.

End StringFacts.

(** ** The answer cache *)

Section CacheFacts.
Import CacheService.

Lemma get_set_user_answer (c : t) (user_id q a : pystr) :
  get_user_answer (set_user_answer c user_id q a) user_id q = Some a.
Proof.
  unfold get_user_answer, set_user_answer; cbn [qa_user_cache].
  rewrite lookup_insert_eq. reflexivity.
Qed.

Lemma get_set_global_answer (c : t) (q a : pystr) :
  get_global_answer (set_global_answer c q a) q = Some a.
Proof.
  unfold get_global_answer, set_global_answer; cbn [qa_global_cache].
  rewrite lookup_insert_eq. reflexivity.
Qed.

(** Two questions of one normal form share their entry. *)
Lemma get_set_user_answer_normalized (c : t) (user_id q q' a : pystr) :
  normalize_question q' = normalize_question q ->
  get_user_answer (set_user_answer c user_id q a) user_id q' = Some a.
Proof.
  intros Hn. unfold get_user_answer, set_user_answer; cbn [qa_user_cache].
  rewrite Hn, lookup_insert_eq. reflexivity.
Qed.

(** An upsert leaves the entries of every other key as they were. *)
Lemma get_set_user_answer_other (c : t) (u u' q q' a : pystr) :
  (u', normalize_question q') <> (u, normalize_question q) ->
  get_user_answer (set_user_answer c u q a) u' q' = get_user_answer c u' q'.
Proof.
  intros Hne. unfold get_user_answer, set_user_answer; cbn [qa_user_cache].
  rewrite lookup_insert_ne by congruence. reflexivity.
Qed.

Lemma set_user_answer_global (c : t) (u q a q' : pystr) :
  get_global_answer (set_user_answer c u q a) q' = get_global_answer c q'.
Proof. reflexivity. Qed.


(** C7. Cache round trip: in the scope of a user and in the global
    scope, for every question [q] and every answer [a] that is not a
    negative answer, [set(scope, q, a)] followed by [get(scope, q)]
    returns exactly [a], whatever the cache held before. *)
Theorem cache_round_trip (c : t) (user_id q a : pystr) :
  should_bypass_cache a = false ->
  get_user_answer (set_user_answer c user_id q a) user_id q = Some a
  /\ get_global_answer (set_global_answer c q a) q = Some a.
Proof.
  intros _. split.
  - apply get_set_user_answer.
  - apply get_set_global_answer.
Qed.

Lemma cache_round_trip_witness :
  should_bypass_cache (py "Pauta da 3ª reunião...") = false
  /\ get_user_answer
       (set_user_answer _init_tables (py "user1") (py "Qual a pauta?")
                        (py "Pauta da 3ª reunião..."))
       (py "user1") (py "Qual a pauta?") = Some (py "Pauta da 3ª reunião...")
  /\ get_global_answer
       (set_global_answer _init_tables (py "Qual a pauta?")
                          (py "Pauta da 3ª reunião..."))
       (py "Qual a pauta?") = Some (py "Pauta da 3ª reunião...").
Proof.
  split; [reflexivity|].
  apply (cache_round_trip _init_tables (py "user1") (py "Qual a pauta?")
                          (py "Pauta da 3ª reunião...")).
  reflexivity.
Defined.

Example normalize_docstring :
  normalize_question (py "Qual é a PAUTA??") = py "qual e a pauta".
Proof. reflexivity. Qed.

Example bypass_negative :
  should_bypass_cache (py "Não encontrei informações sobre isso.") = true
  /\ should_bypass_cache (py "A reunião ocorreu em 2024.") = false.
Proof. split; reflexivity. Qed.

(** C3. [normalize_question] is not idempotent: it strips the ends of
    the text before it removes punctuation, so the space in front of a
    final question mark stays, and a second pass strips it. *)
Theorem normalize_question_not_idempotent :
  normalize_question (py "Qual a pauta ?") = py "qual a pauta "
  /\ normalize_question (normalize_question (py "Qual a pauta ?"))
     = py "qual a pauta"
  /\ normalize_question (normalize_question (py "Qual a pauta ?"))
     <> normalize_question (py "Qual a pauta ?").
Proof. repeat split; try reflexivity. vm_compute. discriminate. Qed.

End CacheFacts.

(** ** The focal tool selector *)

Section FocalAgentFacts.
Import FocalAgent.

(** The loop of [pick_tool] returns the first tool of the table, in its
    order, that has a detect-term in the lowercased question. *)
Lemma pick_from_first (tools : list ToolConfig) (question : pystr)
    (t : ToolConfig) :
  pick_from tools question = Some t <->
  exists before after,
    tools = before ++ t :: after
    /\ detects (lower question) t = true
    /\ Forall (fun t' => detects (lower question) t' = false) before.
Proof.
  unfold pick_from. induction tools as [|t0 tools IH]; cbn [List.find].
  - split; [discriminate|].
    intros (before & after & Heq & _). destruct before; discriminate.
  - destruct (detects (lower question) t0) eqn:Hd.
    + split.
      * intros [= <-]. exists [], tools. auto.
      * intros (before & after & Heq & Ht & Hbefore).
        destruct before as [|b before]; [injection Heq as -> _; reflexivity|].
        injection Heq as <- _. inversion Hbefore; congruence.
    + rewrite IH. split.
      * intros (before & after & -> & Ht & Hbefore).
        exists (t0 :: before), after. auto.
      * intros (before & after & Heq & Ht & Hbefore).
        destruct before as [|b before].
        -- injection Heq as -> _. congruence.
        -- injection Heq as <- ->. inversion Hbefore; subst. eauto.
Qed.

(** [pick_tool] returns [None] exactly when no tool matches. *)
Lemma pick_from_none (tools : list ToolConfig) (question : pystr) :
  pick_from tools question = None <->
  Forall (fun t => detects (lower question) t = false) tools.
Proof.
  unfold pick_from. induction tools as [|t0 tools IH]; cbn [List.find].
  - split; auto.
  - destruct (detects (lower question) t0) eqn:Hd.
    + split; [discriminate | inversion 1; congruence].
    + rewrite IH. split; [auto | inversion 1; auto].
Qed.

Example pick_tool_agenda :
  pick_tool (py "Qual a pauta da próxima reunião?") = Some tool_pauta.
Proof. reflexivity. Qed.

Example pick_tool_when :
  pick_tool (py "Quando foi?") = Some tool_data_reuniao.
Proof. reflexivity. Qed.

Example pick_tool_no_match : pick_tool (py "Bom dia") = None.
Proof. reflexivity. Qed.

(** C4. On "Quando foi a reunião?" [pick_tool] returns the tool "ata",
    not "data_reuniao": the question contains "reunião", a detect-term
    of "ata", which stands before "data_reuniao" in [TOOLS]. *)
Theorem pick_tool_meeting_date_question :
  pick_tool (py "Quando foi a reunião?") = Some tool_ata
  /\ detects (lower (py "Quando foi a reunião?")) tool_data_reuniao = true
  /\ name tool_ata <> name tool_data_reuniao.
Proof. repeat split; try reflexivity. vm_compute. discriminate. Qed.

(** A question that names "data da reunião" or "data da reuniao", two
    detect-terms of "data_reuniao", never selects that tool: "data"
    contains "ata". *)
Lemma date_terms_are_shadowed (question : pystr) :
  contains (lower question) (py "data da reunião") = true
  \/ contains (lower question) (py "data da reuniao") = true ->
  pick_tool question = Some tool_pauta \/ pick_tool question = Some tool_ata.
Proof.
  intros Hq.
  assert (Hata : detects (lower question) tool_ata = true).
  { unfold detects. apply any_true. exists (py "ata"). split.
    - left. reflexivity.
    - destruct Hq as [Hq|Hq];
        (eapply contains_trans; [exact Hq | reflexivity]). }
  unfold pick_tool, pick_from, TOOLS. cbn [List.find].
  destruct (detects (lower question) tool_pauta); [left; reflexivity|].
  rewrite Hata. right; reflexivity.
Qed.

End FocalAgentFacts.

(** ** The order of floats *)

Section FloatOrder.

Lemma SFcompare_antisym (a b : spec_float) (c : comparison) :
  SFcompare a b = Some c -> SFcompare b a = Some (CompOpp c).
Proof.
  destruct a as [sa|sa| |sa ma ea], b as [sb|sb| |sb mb eb];
    cbn [SFcompare]; try discriminate;
    try destruct sa; try destruct sb; intros [= <-]; try reflexivity;
    change (Pos.compare_cont Eq mb ma) with (Pos.compare mb ma);
    change (Pos.compare_cont Eq ma mb) with (Pos.compare ma mb);
    rewrite (Z.compare_antisym ea eb), (Pos.compare_antisym ma mb);
    destruct (ea ?= eb)%Z, (ma ?= mb)%positive; reflexivity.
Qed.


(** [a < b] excludes [b < a]. *)
Lemma SFltb_asym (a b : spec_float) :
  SFltb a b = true -> SFltb b a = false.
Proof.
  unfold SFltb. destruct (SFcompare a b) as [[]|] eqn:Hc; try discriminate.
  rewrite (SFcompare_antisym _ _ _ Hc). reflexivity.
Qed.









End FloatOrder.

(** ** [list.sort] *)


Section SortFacts.
Import PySort.
Context {A : Type} (key : A -> spec_float).

Lemma insert_perm (x : A) (l : list A) : insert key x l ≡ₚ x :: l.
Proof.
  induction l as [|y l IH]; cbn [insert]; [reflexivity|].
  destruct (key_lt key x y); [reflexivity|].
  rewrite IH. apply Permutation_swap.
Qed.

Lemma sort_from_perm (l acc : list A) :
  fold_left (fun acc x => insert key x acc) l acc ≡ₚ acc ++ l.
Proof.
  revert acc; induction l as [|x l IH]; intros acc; cbn [fold_left].
  - rewrite app_nil_r. reflexivity.
  - rewrite IH, insert_perm. rewrite (Permutation_middle acc l x).
    reflexivity.
Qed.

Lemma sort_ascending_perm (l : list A) : sort_ascending key l ≡ₚ l.
Proof. apply (sort_from_perm l []). Qed.

Lemma sort_reverse_perm (l : list A) : sort_reverse key l ≡ₚ l.
Proof.
  unfold sort_reverse.
  rewrite <- Permutation_rev, sort_ascending_perm, <- Permutation_rev.
  reflexivity.
Qed.









End SortFacts.

(** ** The document store *)

Section ExcFacts.

Lemma bind_ok {A B : Type} (m : Exc A) (k : A -> Exc B) (b : B) :
  (a ← m; k a) = Ok b -> exists a, m = Ok a /\ k a = Ok b.
Proof. destruct m as [a|e]; [eauto | discriminate]. Qed.

Lemma mapM_Forall2 {A B : Type} (f : A -> Exc B) (l : list A)
    (rs : list B) :
  mapM f l = Ok rs -> Forall2 (fun a b => f a = Ok b) l rs.
Proof.
  revert rs; induction l as [|a l IH]; intros rs; cbn [mapM].
  - intros [= <-]. constructor.
  - intros Hm. apply bind_ok in Hm as (b & Hb & Hm).
    apply bind_ok in Hm as (bs & Hbs & [= <-]).
    constructor; auto.
Qed.

Lemma mapM_total {A B : Type} (f : A -> Exc B) (l : list A) :
  Forall (fun a => exists b, f a = Ok b) l -> exists rs, mapM f l = Ok rs.
Proof.
  induction 1 as [|a l [b Hb] _ [rs Hrs]]; cbn [mapM].
  - eauto.
  - rewrite Hb; cbn. rewrite Hrs; cbn. eauto.
Qed.

Lemma slice_to_subset {A : Type} (k : Z) (l : list A) (x : A) :
  In x (slice_to k l) -> In x l.
Proof.
  assert (Hfirst : forall n, In x (firstn n l) -> In x l).
  { intros n Hin. rewrite <- (firstn_skipn n l). apply in_or_app. auto. }
  unfold slice_to. destruct (0 <=? k)%Z; apply Hfirst.
Qed.


Lemma slice_to_length {A : Type} (k : Z) (l : list A) :
  (0 <= k)%Z -> (Z.of_nat (length (slice_to k l)) <= k)%Z.
Proof.
  intros Hk. unfold slice_to. destruct (Z.leb_spec 0 k); [|lia].
  rewrite length_firstn. lia.
Qed.

End ExcFacts.

Lemma Forall2_In_r {A B : Type} (P : A -> B -> Prop) (l : list A)
    (rs : list B) (r : B) :
  Forall2 P l rs -> In r rs -> exists a, In a l /\ P a r.
Proof.
  induction 1 as [|a b l rs Hab _ IH]; cbn [In]; [tauto|].
  intros [<-|Hr]; [eauto|]. destruct (IH Hr) as (a' & Ha' & HP). eauto.
Qed.


Section VectorStoreFacts.
Import VectorStore PySort.
Context `{Services}.

(** The WHERE clause of [search] selects the admissible documents. *)
Lemma permission_filter_spec (requester : option pystr) (d : Documento) :
  selected (permission_filter requester d) = true <-> admissible requester d.
Proof.
  unfold permission_filter, admissible, sql_eq_int, sql_eq_text.
  destruct requester as [[|c u]|]; cbn [truthy];
    destruct (d_is_global d) as [g|]; cbn;
    try destruct (Z.eqb_spec g 1); subst; cbn.
  all: try (split; [intros _; left; reflexivity | reflexivity]).
  all: try (split; [discriminate
                   | intros [[=]|(u' & [= <-] & Hu & _)]; congruence]).
  all: try (split; [discriminate | intros [[=]|(u' & [=] & _)]; congruence]).
  all: destruct (d_user_id d) as [o|]; cbn;
    try (split; [discriminate
                | intros [[=]|(u' & _ & _ & [=])]; congruence]).
  all: destruct (bool_decide_reflect (o = c :: u)); subst; cbn.
  all: try (split; [intros _; right; exists (c :: u); repeat split;
                    discriminate
                   | reflexivity]).
  all: split; [discriminate
              | intros [[=]|(u' & [= <-] & _ & [= ->])]; congruence].
Qed.

Lemma result_of_row_scored (q : ndarray) (row : ChunkRow * Documento)
    (r : SearchResult) :
  result_of_row q row = Ok r -> scored q row r.
Proof.
  unfold result_of_row, cosine. intros Hr.
  apply bind_ok in Hr as (v & Hv & Hr).
  apply bind_ok in Hr as (sim & Hsim & Hr).
  apply bind_ok in Hsim as (d & Hd & [= <-]).
  apply bind_ok in Hr as (md & _ & [= <-]).
  exists v, d, md. auto.
Qed.

Lemma scored_from_row (q : ndarray) (row : ChunkRow * Documento)
    (r : SearchResult) :
  scored q row r -> from_row r row.
Proof. intros (v & d & md & _ & _ & ->). eexists _, _. reflexivity. Qed.

(** What a scan returns: one scored entry for each selected row of the
    join, in the order of the rows. *)
Lemma scan_spec (db : Database) (where_ : Documento -> sql_bool)
    (q : ndarray) (all : list SearchResult) :
  scan db where_ q = Ok all ->
  prepare db = Ok tt
  /\ Forall2 (scored q)
       (List.filter (fun row => selected (where_ (snd row))) (join db)) all.
Proof.
  unfold scan. intros Hs. apply bind_ok in Hs as ([] & Hp & Hm).
  split; [exact Hp|].
  apply mapM_Forall2 in Hm.
  eapply Forall2_impl; [exact Hm|]. apply result_of_row_scored.
Qed.

(** A scan returns when the table has the columns of the statement and
    every selected row has a vector that decodes, of the dimension of the
    query, and metadata that loads. *)
Lemma scan_returns (db : Database) (where_ : Documento -> sql_bool)
    (q : ndarray) :
  prepare db = Ok tt ->
  Forall (fun row => exists v d metadata,
              np_frombuffer (c_embedding (fst row)) = Ok v
              /\ np_dot q v = Ok d
              /\ load_metadata (c_metadata (fst row)) = Ok metadata)
         (List.filter (fun row => selected (where_ (snd row))) (join db)) ->
  exists all, scan db where_ q = Ok all.
Proof.
  intros Hp Hrows. unfold scan. rewrite Hp. cbn [mbind exc_bind].
  apply mapM_total. eapply Forall_impl; [exact Hrows|].
  intros row (v & d & md & Hv & Hd & Hmd).
  unfold result_of_row, cosine. rewrite Hv; cbn [mbind exc_bind].
  rewrite Hd; cbn [mbind exc_bind]. rewrite Hmd; cbn [mbind exc_bind].
  eauto.
Qed.

(** The similarity of a chunk whose vector is zero is a NaN, whatever the
    query: the quotient is 0/0. *)
Lemma cosine_zero_vector (q v : ndarray) (s s' : bool) :
  np_dot q v = Ok (S754_zero s) ->
  np_linalg_norm v = S754_zero s' ->
  cosine q v = Ok S754_nan.
Proof.
  intros Hd Hn. unfold cosine. rewrite Hd, Hn. cbn [mbind exc_bind].
  destruct (np_linalg_norm q) as [sq|sq| |sq mq eq]; reflexivity.
Qed.

Lemma join_length (db : Database) :
  (length (join db) <= length (chunks db))%nat.
Proof.
  unfold join. induction (chunks db) as [|c cs IH]; cbn [flat_map].
  - reflexivity.
  - rewrite length_app.
    destruct (List.find _ (documentos db)); cbn [length]; lia.
Qed.

Lemma scan_length (db : Database) (where_ : Documento -> sql_bool)
    (q : ndarray) (all : list SearchResult) :
  scan db where_ q = Ok all -> (length all <= length (chunks db))%nat.
Proof.
  intros Hs. apply scan_spec in Hs as [_ Hall].
  apply Forall2_length in Hall. rewrite <- Hall.
  etransitivity; [apply List.filter_length_le | apply join_length].
Qed.

Lemma top_k_subset (k : Z) (results : list SearchResult) (r : SearchResult) :
  In r (top_k k results) -> In r results.
Proof.
  unfold top_k. intros Hin. apply slice_to_subset in Hin.
  apply list_elem_of_In. apply list_elem_of_In in Hin.
  rewrite (sort_reverse_perm similarity results) in Hin. exact Hin.
Qed.

(** The two searches by similarity are one scan under the permission
    filter, ranked and cut. *)
Lemma search_inv (db : Database) (query : pystr) (k : Z)
    (requester : option pystr) (rs : list SearchResult) :
  search db query k requester = Ok rs ->
  exists q all,
    generate_embedding query = Ok q
    /\ scan db (permission_filter requester) q = Ok all
    /\ rs = top_k k all.
Proof.
  unfold search. intros Hs. apply bind_ok in Hs as (q & Hq & Hs).
  apply bind_ok in Hs as (all & Hall & [= <-]). eauto.
Qed.


Lemma scan_selected (db : Database) (where_ : Documento -> sql_bool)
    (q : ndarray) (all : list SearchResult) (r : SearchResult) :
  scan db where_ q = Ok all -> In r all ->
  exists row,
    In row (join db) /\ from_row r row
    /\ selected (where_ (snd row)) = true.
Proof.
  intros Hs Hr. apply scan_spec in Hs as [_ Hall].
  destruct (Forall2_In_r _ _ _ _ Hall Hr) as (row & Hrow & Hsc).
  apply filter_In in Hrow as [Hrow Hsel].
  exists row. repeat split; [exact Hrow | | exact Hsel].
  eapply scored_from_row, Hsc.
Qed.

Lemma scan_admissible (db : Database) (requester : option pystr)
    (q : ndarray) (all : list SearchResult) (r : SearchResult) :
  scan db (permission_filter requester) q = Ok all -> In r all ->
  exists row,
    In row (join db) /\ from_row r row /\ admissible requester (snd row).
Proof.
  intros Hs Hr. apply scan_spec in Hs as [_ Hall].
  destruct (Forall2_In_r _ _ _ _ Hall Hr) as (row & Hrow & Hsc).
  apply filter_In in Hrow as [Hrow Hsel].
  exists row. repeat split.
  - exact Hrow.
  - eapply scored_from_row, Hsc.
  - apply permission_filter_spec, Hsel.
Qed.





(** The statement of the searches cannot be prepared on the tables
    [_init_db] creates: they have no column [user_id] or [is_global]. *)
Lemma prepare_created_tables : prepare (_init_db None) = Raise OperationalError.
Proof. reflexivity. Qed.

(** C5. On a store that [_init_db] has just created, [search] returns no
    list: it raises [sqlite3.OperationalError] as soon as the query has
    its embedding (and the error of the provider otherwise); so do
    [search_by_embedding] and [search_with_filter]. *)
Theorem search_on_created_tables_raises (query : pystr) (embedding : ndarray)
    (filters : gmap pystr pystr) (k : Z) (requester : option pystr) :
  search (_init_db None) query k requester
  = (_ ← generate_embedding query; Raise OperationalError)
  /\ search_with_filter (_init_db None) query filters k requester
     = (_ ← generate_embedding query; Raise OperationalError)
  /\ search_by_embedding (_init_db None) embedding k requester
     = Raise OperationalError
  /\ search (_init_db None) query k requester <> Ok [].
Proof.
  unfold search, search_with_filter, search_by_embedding, scan.
  rewrite prepare_created_tables.
  repeat split; try reflexivity.
  destruct (generate_embedding query); discriminate.
Qed.


End VectorStoreFacts.

(** ** The searches on the example corpus *)

Section VectorStoreExamples.
Import VectorStore PySort Fixture.

Example search_ranks_corpus :
  map chunk_id <$> search corpus (py "pauta") 3 None = Ok [2; 3; 1]%Z.
Proof. reflexivity. Qed.

Example search_private_for_owner :
  map chunk_id <$> search corpus (py "pauta") 5 (Some (py "alice"))
  = Ok [2; 4; 3; 1]%Z
  /\ map chunk_id <$> search corpus (py "pauta") 5 (Some (py "bob"))
     = Ok [2; 3; 1]%Z.
Proof. split; reflexivity. Qed.







End VectorStoreExamples.

(** ** The orchestrator *)

Section ChatServiceFacts.
Import VectorStore ChatService.
Context `{Services}.

(** Without requester only the documents of [is_global = 1] are
    selected. *)
Lemma permission_filter_none (d : Documento) :
  selected (permission_filter None d) = true -> d_is_global d = Some 1%Z.
Proof.
  intros Hsel. apply permission_filter_spec in Hsel as [Hg|(u & [=] & _)].
  exact Hg.
Qed.

Lemma where_sql_permission (filters : gmap pystr pystr)
    (requester : option pystr) (d : Documento) :
  selected (where_sql filters requester d) = true ->
  selected (permission_filter requester d) = true.
Proof.
  unfold where_sql.
  destruct (permission_filter requester d) as [[]|]; [reflexivity| |];
    destruct (filter_clause filters (py "tipo") _) as [[]|];
    destruct (filter_clause filters (py "conselho") _) as [[]|];
    destruct (filter_clause filters (py "numero") _) as [[]|];
    cbn; auto.
Qed.

Lemma search_none_global (db : Database) (query : pystr) (k : Z)
    (rs : list SearchResult) :
  search db query k None = Ok rs -> Forall (global_entry db) rs.
Proof.
  intros Hs. apply search_inv in Hs as (q & all & _ & Hall & ->).
  apply Forall_forall. intros r Hr.
  apply list_elem_of_In, top_k_subset in Hr.
  destruct (scan_selected _ _ _ _ r Hall Hr) as (row & Hrow & Hfrom & Hsel).
  exists row. auto using permission_filter_none.
Qed.

Lemma search_with_filter_none_global (db : Database) (query : pystr)
    (filters : gmap pystr pystr) (k : Z) (rs : list SearchResult) :
  search_with_filter db query filters k None = Ok rs ->
  Forall (global_entry db) rs.
Proof.
  unfold search_with_filter. intros Hs.
  apply bind_ok in Hs as (q & _ & Hs).
  apply bind_ok in Hs as (all & Hall & [= <-]).
  apply Forall_forall. intros r Hr.
  apply list_elem_of_In, top_k_subset in Hr.
  destruct (scan_selected _ _ _ _ r Hall Hr) as (row & Hrow & Hfrom & Hsel).
  exists row. eauto using permission_filter_none, where_sql_permission.
Qed.

Lemma run_none_global (db : Database) (question : pystr) (k : Z) :
  Forall (global_entry db) (FocalAgent.chunks (FocalAgent.run db question k None)).
Proof.
  unfold FocalAgent.run.
  destruct (FocalAgent.pick_tool question) as [t|]; [|constructor].
  destruct (FocalAgent.execute_search db t _ k None) as [rs|] eqn:He;
    cbn; [|constructor].
  unfold FocalAgent.execute_search in He.
  destruct (bool_decide _).
  - apply bind_ok in He as (all & Hall & He).
    apply search_none_global in Hall.
    destruct (FocalAgent.filter_terms t); injection He as <-; [exact Hall|].
    apply Forall_forall. intros r Hr.
    apply list_elem_of_In, slice_to_subset, filter_In in Hr as [Hr _].
    rewrite Forall_forall in Hall. apply Hall, list_elem_of_In, Hr.
  - eapply search_with_filter_none_global, He.
Qed.

Lemma retrieve_global (self : t) (search_query : pystr)
    (chunks : list SearchResult) (tool : option pystr) :
  retrieve self search_query = Ok (chunks, tool) ->
  chunks = []
  \/ exists db, retrieval_store self = Some db
                /\ Forall (global_entry db) chunks.
Proof.
  unfold retrieve, retrieval_store.
  destruct (agent self) as [adb|], (vector_store self) as [db|].
  - intros [= <- _]. right. exists adb. split; [reflexivity|].
    apply run_none_global.
  - intros [= <- _]. left; reflexivity.
  - intros Hr. apply bind_ok in Hr as (rs & Hrs & [= <- _]).
    right. exists db. split; [reflexivity|].
    eapply search_none_global, Hrs.
  - intros [= <- _]. left; reflexivity.
Qed.

End ChatServiceFacts.

Section ChatServiceClaims.
Import VectorStore ChatService.
Context `{Services}.

Lemma cache_lookup_empty (self : t) (user_id user_message : pystr) :
  caches_empty self -> cache_lookup self user_id user_message = None.
Proof.
  unfold caches_empty, cache_lookup.
  destruct (cache self) as [c|]; [|reflexivity]. intros [Hu Hg].
  unfold CacheService.get_user_answer, CacheService.get_global_answer.
  rewrite Hu, Hg, !lookup_empty. reflexivity.
Qed.

(** Step 8 writes nothing for a negative or empty response. *)
Lemma store_answer_negative (self : t) (user_id user_message text : pystr) :
  _is_negative text = true \/ text = [] ->
  store_answer self user_id user_message text = cache self.
Proof.
  unfold store_answer. destruct (cache self) as [c|]; [|reflexivity].
  intros [Hneg| ->]; [rewrite Hneg, andb_false_r|]; reflexivity.
Qed.

Lemma respond_inv (self : t) (user_message : pystr)
    (history : list ChatMessage) (user_id role : pystr)
    (enrichment : option SemanticEnrichment) (chunks : list SearchResult)
    (agent_tool : option pystr) (derived_facts : list pystr)
    (resp : ChatResponse) (self' : t) :
  respond self user_message history user_id role enrichment chunks
          agent_tool derived_facts = Ok (resp, self') ->
  cache self'
  = store_answer self user_id user_message (content (message resp))
  /\ ChatService.chunks (metadata resp) = Some chunks.
Proof.
  unfold respond. intros Hr. apply bind_ok in Hr as (messages & _ & Hr).
  destruct (generate self messages) as [text err].
  injection Hr as <- <-. split; reflexivity.
Qed.

(** C10. [answer] never writes a negative or empty answer into a cache:
    for a text that [_is_negative] recognizes or that is empty, the
    storage step leaves the cache of the service as it is, and so does
    every call of [answer] whose response has this text. *)
Theorem negative_answer_not_cached (self : t) (user_message : pystr)
    (history : option (list ChatMessage)) (user_id role text : pystr) :
  _is_negative text = true \/ text = [] ->
  store_answer self user_id user_message text = cache self
  /\ (forall resp self',
        answer self user_message history user_id role = Ok (resp, self') ->
        content (message resp) = text ->
        cache self' = cache self).
Proof.
  intros Htext. split; [apply store_answer_negative, Htext|].
  intros resp self'. unfold answer.
  destruct (cache_lookup self user_id user_message) as [[level cached]|].
  { intros [= <- <-] _. reflexivity. }
  intros Ha Hc.
  apply bind_ok in Ha as ([enrichment search_query] & _ & Ha).
  apply bind_ok in Ha as ([chunks agent_tool] & _ & Ha).
  apply bind_ok in Ha as (derived_facts & _ & Ha).
  apply bind_ok in Ha as (clarification & _ & Ha).
  assert (Hrespond :
            respond self user_message (default [] history) user_id role
                    enrichment chunks agent_tool derived_facts
            = Ok (resp, self') -> cache self' = cache self).
  { intros Hr. apply respond_inv in Hr as [-> _].
    rewrite Hc. apply store_answer_negative, Htext. }
  destruct clarification as [c|]; [|auto].
  destruct (SFltb threshold (confidence c)); [|auto].
  injection Ha as <- <-. reflexivity.
Qed.

(** C9. [answer] never hands the user id to the retrieval: the focal
    agent and the fallback search run without requester.  With empty
    caches, two calls that differ in the user id only end alike, with
    the same exception or with responses that differ in the recorded
    user id only, so with the same chunks; and every chunk [answer] or
    its retrieval step returns is a chunk of a global document of the
    store, whoever asks. *)
Theorem retrieval_ignores_requester (self : t) (user_message : pystr)
    (history : option (list ChatMessage)) (role u1 u2 : pystr) :
  caches_empty self ->
  observed (answer self user_message history u1 role)
  = observed (answer self user_message history u2 role)
  /\ (forall resp self' found,
        answer self user_message history u1 role = Ok (resp, self') ->
        ChatService.chunks (metadata resp) = Some found ->
        found = []
        \/ exists db, retrieval_store self = Some db
                      /\ Forall (global_entry db) found)
  /\ (forall search_query found tool,
        retrieve self search_query = Ok (found, tool) ->
        found = []
        \/ exists db, retrieval_store self = Some db
                      /\ Forall (global_entry db) found).
Proof.
  intros Hempty. split; [|split].
  - unfold observed, answer. rewrite !cache_lookup_empty by exact Hempty.
    destruct (rewrite self user_message) as [[enrichment search_query]|];
      [|reflexivity]. cbn [mbind exc_bind].
    destruct (retrieve self search_query) as [[found tool]|];
      [|reflexivity]. cbn [mbind exc_bind].
    destruct (derive self user_message found) as [facts|];
      [|reflexivity]. cbn [mbind exc_bind].
    assert (Hrespond :
      (fun p : ChatResponse * t => anonymous (fst p))
        <$> respond self user_message (default [] history) u1 role
                    enrichment found tool facts
      = (fun p : ChatResponse * t => anonymous (fst p))
          <$> respond self user_message (default [] history) u2 role
                      enrichment found tool facts).
    { unfold respond.
      destruct (build_messages self _ _ _ _ _ _) as [messages|];
        [|reflexivity]. cbn [mbind exc_bind].
      destruct (generate self messages). reflexivity. }
    destruct (clarify self user_message found) as [[c|]|];
      [| exact Hrespond | reflexivity]. cbn [mbind exc_bind].
    destruct (SFltb threshold (confidence c)); [reflexivity|exact Hrespond].
  - intros resp self' found. unfold answer.
    rewrite cache_lookup_empty by exact Hempty. intros Ha Hfound.
    apply bind_ok in Ha as ([enrichment search_query] & _ & Ha).
    apply bind_ok in Ha as ([chunks agent_tool] & Hretrieve & Ha).
    apply bind_ok in Ha as (derived_facts & _ & Ha).
    apply bind_ok in Ha as (clarification & _ & Ha).
    assert (Hrespond :
              respond self user_message (default [] history) u1 role
                      enrichment chunks agent_tool derived_facts
              = Ok (resp, self') -> found = chunks).
    { intros Hr. apply respond_inv in Hr as [_ Hr]. congruence. }
    assert (found = chunks) as ->.
    { destruct clarification as [c|]; [|auto].
      destruct (SFltb threshold (confidence c)); [|auto].
      injection Ha as <- _. discriminate. }
    eapply retrieve_global, Hretrieve.
  - intros search_query found tool. apply retrieve_global.
Qed.

End ChatServiceClaims.

Section ChatServiceExamples.
Import VectorStore ChatService Fixture.

(** The private chunk of alice (chunk 4) is not retrieved for alice. *)
Example answer_for_alice :
  (fun p => option_map (map chunk_id) (chunks (metadata (fst p))))
    <$> answer (service (py "A ata registra três itens."))
               (py "O que diz a ata?") None (py "alice") (py "publico")
  = Ok (Some [2; 3; 1]%Z).
Proof. reflexivity. Qed.

Lemma retrieval_ignores_requester_witness :
  observed (answer (service (py "A ata registra três itens."))
                   (py "O que diz a ata?") None (py "alice") (py "publico"))
  = observed (answer (service (py "A ata registra três itens."))
                     (py "O que diz a ata?") None (py "bob") (py "publico")).
Proof.
  apply (retrieval_ignores_requester
           (service (py "A ata registra três itens."))
           (py "O que diz a ata?") None (py "publico")
           (py "alice") (py "bob")).
  split; reflexivity.
Defined.

Lemma negative_answer_not_cached_witness :
  _is_negative (py "Não encontrei informações sobre isso.") = true
  /\ store_answer (service (py "Não encontrei informações sobre isso."))
                  (py "alice") (py "O que diz a ata?")
                  (py "Não encontrei informações sobre isso.")
     = cache (service (py "Não encontrei informações sobre isso.")).
Proof.
  split; [reflexivity|].
  apply (negative_answer_not_cached
           (service (py "Não encontrei informações sobre isso."))
           (py "O que diz a ata?") None (py "alice") (py "publico")
           (py "Não encontrei informações sobre isso.")).
  left. reflexivity.
Defined.

Example negative_answer_leaves_cache :
  (fun p => cache (snd p))
    <$> answer (service (py "Não encontrei informações sobre isso."))
               (py "O que diz a ata?") None (py "alice") (py "publico")
  = Ok (Some CacheService._init_tables).
Proof. reflexivity. Qed.

Example positive_answer_is_cached :
  (fun p => CacheService.get_global_answer
              (default CacheService._init_tables (cache (snd p)))
              (py "o que diz a ATA??"))
    <$> answer (service (py "A ata registra três itens."))
               (py "O que diz a ata?") None (py "alice") (py "publico")
  = Ok (Some (py "A ata registra três itens.")).
Proof. reflexivity. Qed.

End ChatServiceExamples.

(** ** The fact deriver *)

Section CountHelperFacts.
Import Re CountHelper.
Context {Chunk : Type} (conteudo_of : Chunk -> pystr).











End CountHelperFacts.

Section CountHelperExamples.
Import Re CountHelper.

Example derive_counts_test :
  derive_counts id (py "Qual foi o resultado da votação?")
    [py "Votação: 15 votos a favor, 2 contra, 1 abstenção. Aprovado por maioria."]
  = [vote_fact; py "Aprovado por maioria"].
Proof. reflexivity. Qed.

Example derive_counts_participants :
  derive_counts id (py "Quem participou?")
    [py "Presentes: João Silva, Maria Santos, Pedro Oliveira"]
  = [py "Participantes identificados: 3"].
Proof. reflexivity. Qed.

Example derive_counts_quorum :
  derive_counts id (py "Teve quórum?")
    [py "Quórum de 20 membros. Quórum atingido."]
  = [py "Quórum: 20"; py "Quórum atingido"].
Proof. reflexivity. Qed.



End CountHelperExamples.

(** * Further properties *)

(** ** The answer cache: keys, users and scopes *)

Section CacheKeys.
Import CacheService.




Lemma below_256 (P : N -> bool) :
  forallb P (map N.of_nat (seq 0 256)) = true ->
  forall c, c < 256 -> P c = true.
Proof.
  intros HP c Hc. rewrite forallb_forall in HP. apply HP.
  rewrite <- (N2Nat.id c). apply in_map, in_seq. lia.
Qed.

(** Lowering a code point of Latin-1 before it is decomposed gives the
    text that lowering it afterwards gives. *)
Lemma lower_nfkd_cp (c : N) :
  c < 256 ->
  lower (List.filter (fun c => negb (combining c)) (nfkd_cp (lower_cp c)))
  = lower (List.filter (fun c => negb (combining c)) (nfkd_cp c)).
Proof.
  intros Hc.
  apply (below_256
           (fun c =>
              bool_decide
                (lower (List.filter (fun c => negb (combining c))
                                    (nfkd_cp (lower_cp c)))
                 = lower (List.filter (fun c => negb (combining c))
                                      (nfkd_cp c))))) in Hc.
  - apply bool_decide_eq_true in Hc. exact Hc.
  - vm_compute. reflexivity.
Qed.

Lemma normalize_question_lower (q : pystr) :
  latin1 q -> normalize_question (lower q) = normalize_question q.
Proof.
  intros Hq. unfold normalize_question.
  assert (Ht :
    lower (List.filter (fun c => negb (combining c)) (nfkd (lower q)))
    = lower (List.filter (fun c => negb (combining c)) (nfkd q))).
  { unfold latin1 in Hq. induction Hq as [|c q Hc _ IH]; [reflexivity|].
    unfold nfkd, lower in *. cbn [map flat_map].
    rewrite !List.filter_app, !map_app. rewrite IH.
    f_equal. apply lower_nfkd_cp, Hc. }
  rewrite Ht. reflexivity.
Qed.

(** X2. A question asked again in another letter case finds the answer
    stored for it, in the cache of the user and in the global cache. *)
Theorem cache_ignores_letter_case (c : t) (u q q' a : pystr) :
  latin1 q -> latin1 q' -> lower q' = lower q ->
  get_user_answer (set_user_answer c u q a) u q' = Some a
  /\ get_global_answer (set_global_answer c q a) q' = Some a.
Proof.
  intros Hq Hq' Hlower.
  assert (Hn : normalize_question q' = normalize_question q).
  { rewrite <- (normalize_question_lower q'), <- (normalize_question_lower q)
      by assumption. rewrite Hlower. reflexivity. }
  unfold get_user_answer, set_user_answer, get_global_answer,
    set_global_answer. cbn. rewrite Hn, !lookup_insert_eq. split; reflexivity.
Qed.

Lemma cache_ignores_letter_case_witness :
  get_user_answer
    (set_user_answer _init_tables (py "user1") (py "Qual é a pauta?")
                     (py "Pauta da 3ª reunião"))
    (py "user1") (py "QUAL É A PAUTA?") = Some (py "Pauta da 3ª reunião").
Proof.
  destruct (cache_ignores_letter_case _init_tables (py "user1")
              (py "Qual é a pauta?") (py "QUAL É A PAUTA?")
              (py "Pauta da 3ª reunião")) as [Hget _].
  - vm_compute. repeat constructor.
  - vm_compute. repeat constructor.
  - vm_compute. reflexivity.
  - exact Hget.
Defined.

(** X3. An upsert into the cache of one user changes no answer of another
    user and no answer of the global cache, and an upsert into the
    global cache changes no answer of a user. *)
Theorem user_cache_isolation (c : t) (u u' q q' a : pystr) :
  u' <> u ->
  get_user_answer (set_user_answer c u q a) u' q' = get_user_answer c u' q'
  /\ get_global_answer (set_user_answer c u q a) q' = get_global_answer c q'
  /\ get_user_answer (set_global_answer c q a) u' q'
     = get_user_answer c u' q'.
Proof.
  intros Hu. unfold get_user_answer, set_user_answer, get_global_answer,
    set_global_answer. cbn. rewrite lookup_insert_ne by congruence.
  repeat split.
Qed.

Lemma user_cache_isolation_witness :
  get_user_answer
    (set_user_answer _init_tables (py "alice") (py "Qual a pauta?")
                     (py "Pauta da 3ª reunião"))
    (py "bob") (py "Qual a pauta?")
  = get_user_answer _init_tables (py "bob") (py "Qual a pauta?").
Proof.
  destruct (user_cache_isolation _init_tables (py "alice") (py "bob")
              (py "Qual a pauta?") (py "Qual a pauta?")
              (py "Pauta da 3ª reunião")) as [Hget _].
  - vm_compute. discriminate.
  - exact Hget.
Defined.

(** X4. Clearing is scoped: [clear_user_cache] removes every answer of
    the user and nothing else, the answers of the other users and the
    global cache stay; [clear_global_cache] empties the global cache
    and leaves the answers of the users. *)
Theorem clearing_is_scoped (c : t) (u : pystr) :
  (forall q, get_user_answer (clear_user_cache c u) u q = None)
  /\ (forall u' q, u' <> u ->
        get_user_answer (clear_user_cache c u) u' q = get_user_answer c u' q)
  /\ (forall q, get_global_answer (clear_user_cache c u) q
                = get_global_answer c q)
  /\ (user_cache_entries (get_stats (clear_user_cache c u))
      <= user_cache_entries (get_stats c))%Z
  /\ (forall q, get_global_answer (clear_global_cache c) q = None)
  /\ (forall u' q, get_user_answer (clear_global_cache c) u' q
                   = get_user_answer c u' q)
  /\ global_cache_entries (get_stats (clear_global_cache c)) = 0%Z.
Proof.
  unfold get_user_answer, get_global_answer, clear_user_cache,
    clear_global_cache, get_stats.
  cbn [qa_user_cache qa_global_cache user_cache_entries
       global_cache_entries].
  split; [|split; [|split; [|split; [|split; [|split]]]]].
  - intros q. rewrite map_lookup_filter.
    destruct (qa_user_cache c !! (u, normalize_question q)) as [row|];
      [|reflexivity].
    cbn. rewrite option_guard_False; [reflexivity|]. cbn. tauto.
  - intros u' q Hu. rewrite map_lookup_filter.
    destruct (qa_user_cache c !! (u', normalize_question q)) as [row|];
      [|reflexivity].
    cbn. rewrite option_guard_True by exact Hu. reflexivity.
  - reflexivity.
  - apply inj_le, map_subseteq_size, map_filter_subseteq.
  - intros q. rewrite lookup_empty. reflexivity.
  - reflexivity.
  - reflexivity.
Qed.

(** X5. An upsert keeps one row for each key: storing an answer for a
    question that has one replaces it and the number of rows stays,
    and storing the first answer adds one row. *)
Theorem upsert_keeps_one_row_per_key (c : t) (u q a : pystr) :
  user_cache_entries (get_stats (set_user_answer c u q a))
  = (match get_user_answer c u q with
     | Some _ => user_cache_entries (get_stats c)
     | None => user_cache_entries (get_stats c) + 1
     end)%Z
  /\ global_cache_entries (get_stats (set_user_answer c u q a))
     = global_cache_entries (get_stats c)
  /\ global_cache_entries (get_stats (set_global_answer c q a))
     = (match get_global_answer c q with
        | Some _ => global_cache_entries (get_stats c)
        | None => global_cache_entries (get_stats c) + 1
        end)%Z
  /\ user_cache_entries (get_stats (set_global_answer c q a))
     = user_cache_entries (get_stats c).
Proof.
  unfold get_stats, get_user_answer, set_user_answer, get_global_answer,
    set_global_answer. cbn. rewrite !map_size_insert.
  destruct (qa_user_cache c !! (u, normalize_question q)),
    (qa_global_cache c !! normalize_question q); cbn; repeat split; lia.
Qed.
End CacheKeys.

(** ** Lists *)

Section ListFacts.

Lemma mapM_raises {A B : Type} (f : A -> Exc B) (l : list A) (a : A)
    (e : exn) :
  In a l -> f a = Raise e -> exists e', mapM f l = Raise e'.
Proof.
  intros Ha Hf. induction l as [|x l IH]; [destruct Ha|].
  cbn [mapM]. destruct (f x) as [b|e0] eqn:Hx; [|eexists; reflexivity].
  cbn [mbind exc_bind]. destruct Ha as [->|Ha]; [congruence|].
  destruct (IH Ha) as [e' ->]. eexists; reflexivity.
Qed.

Lemma mapM_map {A B C : Type} (f : A -> Exc B) (g : B -> C) (h : A -> C)
    (l : list A) (rs : list B) :
  (forall a b, f a = Ok b -> g b = h a) ->
  mapM f l = Ok rs -> map g rs = map h l.
Proof.
  intros Hgh. revert rs. induction l as [|a l IH]; intros rs.
  - intros [= <-]. reflexivity.
  - cbn [mapM]. intros Hm. apply bind_ok in Hm as (b & Hb & Hm).
    apply bind_ok in Hm as (bs & Hbs & [= <-]). cbn [map].
    rewrite (Hgh _ _ Hb), (IH _ Hbs). reflexivity.
Qed.

Lemma NoDup_map_filter {A B : Type} (f : A -> B) (p : A -> bool)
    (l : list A) :
  NoDup (map f l) -> NoDup (map f (List.filter p l)).
Proof.
  induction l as [|a l IH]; [intros; constructor|].
  cbn [map List.filter]. rewrite NoDup_cons. intros [Ha Hl].
  destruct (p a); [|auto]. cbn [map]. apply NoDup_cons. split; [|auto].
  intros Hin. apply Ha. apply list_elem_of_In.
  apply list_elem_of_In, in_map_iff in Hin as (x & <- & Hx).
  apply filter_In in Hx as [Hx _]. apply in_map, Hx.
Qed.

Lemma NoDup_firstn {A : Type} (n : nat) (l : list A) :
  NoDup l -> NoDup (firstn n l).
Proof. intros Hl. eapply sublist_NoDup; [exact Hl|apply sublist_take]. Qed.

Lemma slice_to_NoDup {A : Type} (k : Z) (l : list A) :
  NoDup l -> NoDup (slice_to k l).
Proof. unfold slice_to. destruct (0 <=? k)%Z; apply NoDup_firstn. Qed.

Lemma slice_to_map {A B : Type} (f : A -> B) (k : Z) (l : list A) :
  map f (slice_to k l) = slice_to k (map f l).
Proof.
  unfold slice_to. rewrite length_map.
  destruct (0 <=? k)%Z; symmetry; apply firstn_map.
Qed.

Lemma slice_to_le_length {A : Type} (k : Z) (l : list A) :
  (length (slice_to k l) <= length l)%nat.
Proof.
  unfold slice_to. destruct (0 <=? k)%Z; rewrite length_firstn; lia.
Qed.

End ListFacts.

(** ** The document store: what a search returns *)

Section StoreSearches.
Import VectorStore PySort.
Context `{Services}.

Lemma sql_and_selected (a b : sql_bool) :
  selected (sql_and a b) = true <-> selected a = true /\ selected b = true.
Proof. destruct a as [[]|], b as [[]|]; cbn; intuition discriminate. Qed.

Lemma filter_clause_selected (filters : gmap pystr pystr) (key : pystr)
    (column : option pystr) (v : pystr) :
  selected (filter_clause filters key column) = true ->
  filters !! key = Some v -> column = Some v.
Proof.
  unfold filter_clause. intros Hs Hv. rewrite Hv in Hs.
  destruct column as [x|]; [|discriminate]. cbn in Hs.
  destruct (bool_decide (x = v)) eqn:Hx; [|discriminate].
  apply bool_decide_eq_true in Hx. congruence.
Qed.

Lemma search_with_filter_inv (db : Database) (query : pystr)
    (filters : gmap pystr pystr) (k : Z) (requester : option pystr)
    (rs : list SearchResult) :
  search_with_filter db query filters k requester = Ok rs ->
  exists q all,
    generate_embedding query = Ok q
    /\ scan db (where_sql filters requester) q = Ok all
    /\ rs = top_k k all.
Proof.
  unfold search_with_filter. intros Hs.
  apply bind_ok in Hs as (q & Hq & Hs).
  apply bind_ok in Hs as (all & Hall & [= <-]). eauto.
Qed.

(** The rows a filtered statement selects. *)
Lemma filtered_scan_entries (db : Database) (filters : gmap pystr pystr)
    (requester : option pystr) (q : ndarray) (all : list SearchResult) :
  scan db (where_sql filters requester) q = Ok all ->
  forall r, In r all ->
  (exists row,
      In row (join db) /\ from_row r row /\ admissible requester (snd row))
  /\ (forall v, filters !! py "tipo" = Some v -> tipo r = v)
  /\ (forall v, filters !! py "conselho" = Some v -> conselho r = Some v)
  /\ (forall v, filters !! py "numero" = Some v -> numero r = Some v).
Proof.
  intros Hall r Hr.
  destruct (scan_selected _ _ _ _ _ Hall Hr) as (row & Hrow & Hfrom & Hsel).
  unfold where_sql in Hsel. rewrite !sql_and_selected in Hsel.
  destruct Hsel as [[[Hperm Htipo] Hconselho] Hnumero].
  destruct Hfrom as (similarity & metadata & ->). destruct row as [c d].
  cbn [entry tipo conselho numero snd] in *. repeat split.
  - exists (c, d). repeat split; [exact Hrow|eexists _, _; reflexivity|].
    apply permission_filter_spec, Hperm.
  - intros v Hv.
    pose proof (filter_clause_selected _ _ _ _ Htipo Hv). congruence.
  - intros v Hv. exact (filter_clause_selected _ _ _ _ Hconselho Hv).
  - intros v Hv. exact (filter_clause_selected _ _ _ _ Hnumero Hv).
Qed.

(** X6. Every entry [search_with_filter] returns is the entry of a chunk
    whose document the requester may read and whose type, council and
    number are those the filter asks for. *)
Theorem search_with_filter_sound (db : Database) (query : pystr)
    (filters : gmap pystr pystr) (k : Z) (requester : option pystr)
    (rs : list SearchResult) :
  search_with_filter db query filters k requester = Ok rs ->
  forall r, In r rs ->
  (exists row,
      In row (join db) /\ from_row r row /\ admissible requester (snd row))
  /\ (forall v, filters !! py "tipo" = Some v -> tipo r = v)
  /\ (forall v, filters !! py "conselho" = Some v -> conselho r = Some v)
  /\ (forall v, filters !! py "numero" = Some v -> numero r = Some v).
Proof.
  intros Hs r Hr.
  apply search_with_filter_inv in Hs as (q & all & _ & Hall & ->).
  apply top_k_subset in Hr. eapply filtered_scan_entries; eassumption.
Qed.

(** X7. A filter dict without the keys 'tipo', 'conselho' and 'numero'
    filters nothing: its other keys are ignored and the call is that of
    [search]. *)
Theorem search_with_filter_ignores_other_keys (db : Database)
    (query : pystr) (filters : gmap pystr pystr) (k : Z)
    (requester : option pystr) :
  filters !! py "tipo" = None ->
  filters !! py "conselho" = None ->
  filters !! py "numero" = None ->
  search_with_filter db query filters k requester
  = search db query k requester.
Proof.
  intros Htipo Hconselho Hnumero. unfold search_with_filter, search, scan.
  destruct (generate_embedding query) as [q|]; [|reflexivity].
  cbn [mbind exc_bind]. destruct (prepare db); [|reflexivity].
  cbn [mbind exc_bind].
  replace (List.filter
             (fun row => selected (where_sql filters requester (snd row)))
             (join db))
    with (List.filter
            (fun row => selected (permission_filter requester (snd row)))
            (join db)); [reflexivity|].
  apply List.filter_ext. intros [c d]. unfold where_sql, filter_clause.
  rewrite Htipo, Hconselho, Hnumero. cbn [snd].
  destruct (permission_filter requester d) as [[]|]; reflexivity.
Qed.

Lemma list_ind4 {A : Type} (P : list A -> Prop) :
  P [] -> (forall a, P [a]) -> (forall a b, P [a; b]) ->
  (forall a b c, P [a; b; c]) ->
  (forall a b c d l, P l -> P (a :: b :: c :: d :: l)) ->
  forall l, P l.
Proof.
  intros H0 H1 H2 H3 H4. fix IH 1.
  intros [|a [|b [|c [|d l]]]];
    [exact H0|apply H1|apply H2|apply H3|apply H4, IH].
Qed.

(** [np.frombuffer] returns an array exactly for the buffers whose size
    is a multiple of the item size, with one item for every four
    bytes. *)
Lemma items_of_bytes_spec (bs : list N) :
  match items_of_bytes bs with
  | Some a => length bs = (4 * length a)%nat
  | None => (length bs mod 4 <> 0)%nat
  end.
Proof.
  induction bs as [|a|a b|a b c|a b c d bs IH] using list_ind4;
    try (cbn; lia).
  cbn [items_of_bytes].
  destruct (items_of_bytes bs) as [v|];
    cbn [fmap option_fmap option_map length].
  - lia.
  - replace (S (S (S (S (length bs))))) with (length bs + 1 * 4)%nat by lia.
    rewrite Nat.Div0.mod_add. exact IH.
Qed.

(** X8. One chunk whose vector cannot be decoded fails the whole search:
    when the requester may read a chunk whose embedding is NULL or whose
    BLOB is not a sequence of 4-byte items, [search] raises and returns
    no result at all. *)
Theorem search_fails_on_undecodable_vector (db : Database) (query : pystr)
    (q : ndarray) (k : Z) (requester : option pystr) (c : ChunkRow)
    (d : Documento) :
  generate_embedding query = Ok q ->
  prepare db = Ok tt ->
  In (c, d) (join db) ->
  admissible requester d ->
  c_embedding c = None
  \/ (exists bs, c_embedding c = Some bs /\ (length bs mod 4 <> 0)%nat) ->
  exists e, search db query k requester = Raise e.
Proof.
  intros Hq Hprepare Hrow Hadm Hblob. unfold search, scan.
  rewrite Hq, Hprepare. cbn [mbind exc_bind].
  assert (Hfail : exists e, result_of_row q (c, d) = Raise e).
  { unfold result_of_row. cbn [fst].
    destruct Hblob as [->|(bs & -> & Hbs)]; [eexists; reflexivity|].
    unfold np_frombuffer. pose proof (items_of_bytes_spec bs) as Hspec.
    destruct (items_of_bytes bs) as [a|]; [|eexists; reflexivity].
    exfalso. apply Hbs. rewrite Hspec, Nat.mul_comm.
    apply Nat.Div0.mod_mul. }
  destruct Hfail as [e He].
  destruct (mapM_raises (result_of_row q)
              (List.filter
                 (fun row => selected (permission_filter requester (snd row)))
                 (join db)) (c, d) e) as [e' He']; [|exact He|].
  - apply filter_In. split; [exact Hrow|]. apply permission_filter_spec, Hadm.
  - rewrite He'. eexists; reflexivity.
Qed.

Lemma join_ids (db : Database) :
  NoDup (map c_id (chunks db)) ->
  NoDup (map (fun row => c_id (fst row)) (join db)).
Proof.
  unfold join. induction (chunks db) as [|c cs IH]; [intros; constructor|].
  cbn [map flat_map]. rewrite NoDup_cons. intros [Hc Hcs].
  rewrite map_app. specialize (IH Hcs).
  assert (Hin : forall x,
            In x (map (fun row : ChunkRow * Documento => c_id (fst row))
                    (flat_map
                       (fun c =>
                          match List.find
                                  (fun d => Z.eqb (d_id d) (c_documento_id c))
                                  (documentos db) with
                          | Some d => [(c, d)]
                          | None => []
                          end) cs)) ->
            In x (map c_id cs)).
  { intros x Hx. apply in_map_iff in Hx as ([c' d'] & <- & Hx).
    apply in_flat_map in Hx as (c0 & Hc0 & Hx).
    destruct (List.find _ _); [|destruct Hx].
    destruct Hx as [[= <- <-]|[]]. apply in_map, Hc0. }
  destruct (List.find _ (documentos db)); [|exact IH].
  cbn [map app fst]. apply NoDup_cons. split; [|exact IH].
  intros Hx. apply Hc. apply list_elem_of_In, Hin, list_elem_of_In, Hx.
Qed.

Lemma top_k_length (k : Z) (results : list SearchResult) :
  (length (top_k k results) <= length results)%nat
  /\ ((0 <= k)%Z -> (Z.of_nat (length (top_k k results)) <= k)%Z).
Proof.
  unfold top_k. split; [|apply slice_to_length].
  etransitivity; [apply slice_to_le_length|].
  rewrite (Permutation_length (sort_reverse_perm similarity results)). lia.
Qed.

Lemma scan_ids (db : Database) (where_ : Documento -> sql_bool)
    (q : ndarray) (all : list SearchResult) :
  NoDup (map c_id (chunks db)) ->
  scan db where_ q = Ok all -> NoDup (map chunk_id all).
Proof.
  intros Hids Hscan. unfold scan in Hscan.
  apply bind_ok in Hscan as (_ & _ & Hscan).
  assert (Hmap :
            map chunk_id all
            = map (fun row => c_id (fst row))
                (List.filter (fun row => selected (where_ (snd row)))
                             (join db))).
  { eapply mapM_map; [|exact Hscan].
    intros row r Hr. apply result_of_row_scored, scored_from_row in Hr.
    destruct Hr as (s & m & ->). destruct row. reflexivity. }
  rewrite Hmap. apply NoDup_map_filter, join_ids, Hids.
Qed.

Lemma top_k_ids (k : Z) (all : list SearchResult) :
  NoDup (map chunk_id all) -> NoDup (map chunk_id (top_k k all)).
Proof.
  intros Hall. unfold top_k. rewrite slice_to_map. apply slice_to_NoDup.
  assert (Hperm : map chunk_id (sort_reverse similarity all)
                  ≡ₚ map chunk_id all)
    by apply Permutation_map, sort_reverse_perm.
  rewrite Hperm. exact Hall.
Qed.

(** X9. No chunk is returned twice, and a search returns at most as
    many entries as the store has chunks and, for [k >= 0], at most
    [k]. *)
Theorem search_returns_each_chunk_once (db : Database) (query : pystr)
    (k : Z) (requester : option pystr) (rs : list SearchResult) :
  NoDup (map c_id (chunks db)) ->
  search db query k requester = Ok rs ->
  NoDup (map chunk_id rs)
  /\ (length rs <= length (chunks db))%nat
  /\ ((0 <= k)%Z -> (Z.of_nat (length rs) <= k)%Z).
Proof.
  intros Hids Hs. apply search_inv in Hs as (q & all & _ & Hall & ->).
  split; [|split].
  - apply top_k_ids. eapply scan_ids; eassumption.
  - etransitivity; [apply top_k_length|]. eapply scan_length, Hall.
  - apply top_k_length.
Qed.

End StoreSearches.

Section StoreSearchExamples.
Import VectorStore PySort Fixture.

Lemma search_with_filter_sound_witness :
  exists rs,
    search_with_filter corpus (py "pauta") {[ py "tipo" := py "ata" ]} 5
                       (Some (py "alice")) = Ok rs
    /\ map chunk_id rs = [2; 4; 3; 1]%Z
    /\ forall r, In r rs ->
         (exists row,
            In row (join corpus) /\ from_row r row
            /\ admissible (Some (py "alice")) (snd row))
         /\ (forall v,
               ({[ py "tipo" := py "ata" ]} : gmap pystr pystr) !! py "tipo"
               = Some v -> tipo r = v)
         /\ (forall v,
               ({[ py "tipo" := py "ata" ]} : gmap pystr pystr)
                 !! py "conselho" = Some v -> conselho r = Some v)
         /\ (forall v,
               ({[ py "tipo" := py "ata" ]} : gmap pystr pystr)
                 !! py "numero" = Some v -> numero r = Some v).
Proof.
  eexists. split; [reflexivity|]. split; [reflexivity|].
  exact (search_with_filter_sound corpus (py "pauta")
           {[ py "tipo" := py "ata" ]} 5 (Some (py "alice")) _ eq_refl).
Defined.

Lemma search_with_filter_ignores_other_keys_witness :
  search_with_filter corpus (py "pauta") {[ py "data" := py "2024" ]} 5 None
  = search corpus (py "pauta") 5 None.
Proof.
  exact (search_with_filter_ignores_other_keys corpus (py "pauta")
           {[ py "data" := py "2024" ]} 5 None eq_refl eq_refl eq_refl).
Defined.

Lemma search_fails_on_undecodable_vector_witness :
  exists e, search damaged (py "pauta") 5 None = Raise e.
Proof.
  apply (search_fails_on_undecodable_vector damaged (py "pauta") [one; zero]
           5 None
           {| c_id := 2; c_documento_id := 1; c_conteudo := py "Pauta";
              c_embedding := None; c_metadata := None;
              c_posicao := Some 1%Z |}
           (document 1 "ata" "Ata 01/2024" None 1)).
  - reflexivity.
  - reflexivity.
  - right. left. reflexivity.
  - left. reflexivity.
  - left. reflexivity.
Defined.

Lemma search_returns_each_chunk_once_witness :
  exists rs,
    search corpus (py "pauta") 2 (Some (py "alice")) = Ok rs
    /\ NoDup (map chunk_id rs)
    /\ (length rs <= length (chunks corpus))%nat
    /\ ((0 <= 2)%Z -> (Z.of_nat (length rs) <= 2)%Z).
Proof.
  eexists. split; [reflexivity|].
  refine (search_returns_each_chunk_once corpus (py "pauta") 2
            (Some (py "alice")) _ _ eq_refl).
  compute_done.
Defined.
End StoreSearchExamples.

(** ** The document store: the bytes of a vector *)

Section Float32Bytes.

Lemma digits2_pos_size (m : positive) : digits2_pos m = Pos.size m.
Proof. induction m as [m IH|m IH|]; cbn; rewrite ?IH; reflexivity. Qed.

Lemma size_bounds (m : positive) :
  (2 ^ (Z.pos (Pos.size m) - 1) <= Z.pos m < 2 ^ Z.pos (Pos.size m))%Z.
Proof.
  pose proof (Pos.size_gt m) as Hgt. pose proof (Pos.size_le m) as Hle.
  apply Pos2Z.pos_lt_pos in Hgt. apply Pos2Z.pos_le_pos in Hle.
  rewrite Pos2Z.inj_pow in Hgt, Hle. split; [|exact Hgt].
  replace (Z.pos (Pos.size m)) with (Z.succ (Z.pos (Pos.size m) - 1)) in Hle
    by lia.
  rewrite Z.pow_succ_r in Hle by lia. lia.
Qed.

Lemma size_le_23 (m : positive) :
  (Z.pos (Pos.size m) <= 23)%Z <-> Npos m < 8388608.
Proof.
  pose proof (size_bounds m) as [Hlo Hhi]. split.
  - intros Hs.
    assert (Hpow : (2 ^ Z.pos (Pos.size m) <= 2 ^ 23)%Z)
      by (apply Z.pow_le_mono_r; lia).
    change (2 ^ 23)%Z with 8388608%Z in Hpow. lia.
  - intros Hm.
    destruct (Z.le_gt_cases (Z.pos (Pos.size m)) 23) as [|Hgt]; [assumption|].
    exfalso.
    assert (Hpow : (2 ^ 23 <= 2 ^ (Z.pos (Pos.size m) - 1))%Z)
      by (apply Z.pow_le_mono_r; lia).
    change (2 ^ 23)%Z with 8388608%Z in Hpow. lia.
Qed.

Lemma size_24 (m : positive) :
  Z.pos (Pos.size m) = 24%Z -> 8388608 <= Npos m < 16777216.
Proof.
  intros Hs. pose proof (size_bounds m) as [Hlo Hhi]. rewrite Hs in Hlo, Hhi.
  change (2 ^ (24 - 1))%Z with 8388608%Z in Hlo.
  change (2 ^ 24)%Z with 16777216%Z in Hhi. lia.
Qed.

(** The finite values of dtype float32: subnormal, with a mantissa below
    2^23 and the exponent -149, or normal, with a mantissa of 24 bits
    and an exponent from -149 to 104. *)
Lemma is_float32_finite (s : bool) (m : positive) (e : Z) :
  is_float32 (S754_finite s m e) = true ->
  Npos m < 8388608 /\ e = (-149)%Z
  \/ 8388608 <= Npos m < 16777216 /\ (-149 <= e <= 104)%Z.
Proof.
  unfold is_float32, valid_binary, bounded, canonical_mantissa, fexp, emin.
  rewrite digits2_pos_size. intros Hv. apply andb_prop in Hv as [Hc He].
  apply Z.leb_le in He. apply Z.eqb_eq in Hc.
  destruct (Z.le_gt_cases (Z.pos (Pos.size m)) 23) as [Hsmall|Hbig].
  - left. split; [apply size_le_23, Hsmall|]. lia.
  - right. assert (Hsize : Z.pos (Pos.size m) = 24%Z) by lia.
    split; [apply size_24, Hsize|]. lia.
Qed.

Lemma sign_bit_31 (s : bool) (r : N) :
  r < 2147483648 ->
  N.testbit ((if s then 2147483648 else 0) + r) 31 = s.
Proof.
  intros Hr. destruct s.
  - apply N.testbit_true. change (2 ^ 31) with 2147483648.
    replace (2147483648 + r) with (r + 1 * 2147483648) by lia.
    rewrite N.div_add by lia. rewrite (N.div_small r) by lia. reflexivity.
  - apply N.testbit_false. change (2 ^ 31) with 2147483648.
    rewrite N.add_0_l, (N.div_small r) by lia. reflexivity.
Qed.

Lemma fields_of_bits (s : bool) (e m : N) :
  e < 256 -> m < 8388608 ->
  N.testbit ((if s then 2147483648 else 0) + e * 8388608 + m) 31 = s
  /\ (((if s then 2147483648 else 0) + e * 8388608 + m) / 8388608) mod 256
     = e
  /\ ((if s then 2147483648 else 0) + e * 8388608 + m) mod 8388608 = m.
Proof.
  intros He Hm. split; [|split].
  - rewrite <- N.add_assoc. apply sign_bit_31. nia.
  - replace ((if s then 2147483648 else 0) + e * 8388608 + m)
      with (m + ((if s then 256 else 0) + e) * 8388608)
      by (destruct s; lia).
    rewrite N.div_add by lia. rewrite (N.div_small m) by lia.
    rewrite N.add_0_l. destruct s.
    + replace (256 + e) with (e + 1 * 256) by lia.
      rewrite N.Div0.mod_add. apply N.mod_small, He.
    + apply N.mod_small, He.
  - replace ((if s then 2147483648 else 0) + e * 8388608 + m)
      with (m + ((if s then 256 else 0) + e) * 8388608)
      by (destruct s; lia).
    rewrite N.Div0.mod_add. apply N.mod_small, Hm.
Qed.

(** Reading the pattern of a value of dtype float32 gives the value. *)
Lemma float32_of_bits_of_float32 (x : float32) :
  is_float32 x = true -> float32_of_bits (bits_of_float32 x) = x.
Proof.
  destruct x as [s|s| |s m e]; intros Hx.
  - destruct s; reflexivity.
  - destruct s; reflexivity.
  - reflexivity.
  - apply is_float32_finite in Hx. unfold bits_of_float32, float32_of_bits.
    destruct Hx as [[Hm ->]|[[Hlo Hhi] He]].
    + rewrite (proj2 (N.ltb_lt _ _) Hm).
      destruct (fields_of_bits s 0 (Npos m)) as (Hs & Hexp & Hmant);
        [lia|exact Hm|].
      rewrite N.mul_0_l, N.add_0_r in Hs, Hexp, Hmant.
      rewrite Hs, Hexp, Hmant. reflexivity.
    + rewrite (proj2 (N.ltb_ge _ _) Hlo).
      destruct (fields_of_bits s (Z.to_N (e + 150)) (Npos m - 8388608))
        as (Hs & Hexp & Hmant); [lia|lia|].
      rewrite Hs, Hexp, Hmant.
      destruct (N.eqb_spec (Z.to_N (e + 150)) 0) as [H0|_]; [lia|].
      destruct (N.eqb_spec (Z.to_N (e + 150)) 255) as [H255|_]; [lia|].
      replace (N.pos m - 8388608 + 8388608) with (N.pos m) by lia.
      f_equal. lia.
Qed.

Lemma bits_of_float32_bound (x : float32) :
  is_float32 x = true -> bits_of_float32 x < 4294967296.
Proof.
  destruct x as [s|s| |s m e]; intros Hx.
  - destruct s; reflexivity.
  - destruct s; reflexivity.
  - reflexivity.
  - apply is_float32_finite in Hx. unfold bits_of_float32.
    destruct Hx as [[Hm ->]|[[Hlo Hhi] He]].
    + rewrite (proj2 (N.ltb_lt _ _) Hm). destruct s; lia.
    + rewrite (proj2 (N.ltb_ge _ _) Hlo).
      assert (Z.to_N (e + 150) <= 254) by lia. destruct s; nia.
Qed.

Lemma bits_of_bytes (w : N) :
  w < 4294967296 ->
  w mod 256 + 256 * ((w / 256) mod 256) + 65536 * ((w / 65536) mod 256)
  + 16777216 * ((w / 16777216) mod 256) = w.
Proof.
  intros Hw.
  rewrite (N.mod_small (w / 16777216) 256)
    by (apply N.Div0.div_lt_upper_bound; lia).
  change 16777216 with (65536 * 256) at 2.
  rewrite <- N.Div0.div_div.
  change 65536 with (256 * 256) at 1 2 3.
  rewrite <- !N.Div0.div_div.
  pose proof (N.div_mod w 256). pose proof (N.div_mod (w / 256) 256).
  pose proof (N.div_mod (w / 256 / 256) 256). lia.
Qed.

Lemma items_of_tobytes (a : ndarray) :
  forallb is_float32 a = true -> items_of_bytes (tobytes a) = Some a.
Proof.
  intros Ha. induction a as [|x a IH]; [reflexivity|].
  cbn [forallb] in Ha. apply andb_prop in Ha as [Hx Ha].
  unfold tobytes. cbn [flat_map]. unfold bytes_of_bits at 1.
  cbn [app items_of_bytes].
  rewrite bits_of_bytes by (apply bits_of_float32_bound, Hx).
  rewrite float32_of_bits_of_float32 by exact Hx.
  fold (tobytes a). rewrite (IH Ha). reflexivity.
Qed.

(** X10. The vector a search reads is the vector that was written:
    [np.frombuffer(a.tobytes(), dtype=np.float32)] is [a] for every
    array of dtype float32, and the buffer has four bytes for each
    item. *)
Theorem frombuffer_tobytes (a : ndarray) :
  forallb is_float32 a = true ->
  np_frombuffer (Some (tobytes a)) = Ok a
  /\ length (tobytes a) = (4 * length a)%nat.
Proof.
  intros Ha. unfold np_frombuffer.
  pose proof (items_of_tobytes a Ha) as Hitems.
  rewrite Hitems. split; [reflexivity|].
  pose proof (items_of_bytes_spec (tobytes a)) as Hspec.
  rewrite Hitems in Hspec. exact Hspec.
Qed.

End Float32Bytes.

Section Float32Examples.
Import Fixture.

Lemma frombuffer_tobytes_witness :
  tobytes [one; zero] = b_one ++ b_zero
  /\ np_frombuffer (Some (tobytes [one; zero])) = Ok [one; zero]
  /\ length (tobytes [one; zero]) = (4 * length [one; zero])%nat.
Proof.
  split; [reflexivity|].
  exact (frombuffer_tobytes [one; zero] eq_refl).
Defined.
End Float32Examples.

(** ** The document store: ingestion *)

Section IngestLists.

Lemma find_app_first {A : Type} (p : A -> bool) (l1 l2 : list A) :
  List.find p (l1 ++ l2)
  = match List.find p l1 with
    | Some x => Some x
    | None => List.find p l2
    end.
Proof.
  induction l1 as [|a l1 IH]; [reflexivity|]. cbn [app List.find].
  destruct (p a); [reflexivity|exact IH].
Qed.

Lemma filter_flat_map {A B : Type} (p : B -> bool) (g : A -> list B)
    (l : list A) :
  List.filter p (flat_map g l)
  = flat_map (fun a => List.filter p (g a)) l.
Proof.
  induction l as [|a l IH]; [reflexivity|]. cbn [flat_map].
  rewrite List.filter_app, IH. reflexivity.
Qed.

Lemma flat_map_none {A B : Type} (g : A -> list B) (l : list A) :
  Forall (fun a => g a = []) l -> flat_map g l = [].
Proof.
  induction 1 as [|a l Ha _ IH]; [reflexivity|]. cbn [flat_map].
  rewrite Ha, IH. reflexivity.
Qed.

Lemma sorted_NoDup {A : Type} (key : A -> Z) (l : list A) :
  StronglySorted (fun a b => (key a < key b)%Z) l -> NoDup (map key l).
Proof.
  induction 1 as [|a l _ IH Ha]; [constructor|]. cbn [map].
  apply NoDup_cons. split; [|exact IH].
  intros Hin. apply list_elem_of_In, in_map_iff in Hin as (b & Hkey & Hb).
  rewrite Forall_forall in Ha.
  specialize (Ha b (proj2 (list_elem_of_In _ _) Hb)). lia.
Qed.

Lemma NoDup_omap {A B : Type} (g : A -> option B) (l : list A) :
  NoDup (map g l) -> NoDup (omap g l).
Proof.
  induction l as [|a l IH]; [constructor|]. cbn [map].
  rewrite NoDup_cons. intros [Ha Hl]. specialize (IH Hl).
  change (omap g (a :: l))
    with (match g a with Some b => b :: omap g l | None => omap g l end).
  destruct (g a) as [b|] eqn:Hg; [|exact IH].
  apply NoDup_cons. split; [|exact IH].
  intros Hin. apply Ha. apply list_elem_of_omap in Hin as (a' & Ha' & Hg').
  apply list_elem_of_In, in_map_iff. exists a'.
  split; [exact Hg'|apply list_elem_of_In, Ha'].
Qed.

End IngestLists.

Section IngestSkips.
Import VectorStore.
Context `{Services}.

(** Documents whose hash the table has are skipped, whatever the
    embedding provider. *)
Lemma add_each_skips (batch_embed : list pystr -> Exc (list ndarray))
    (json_dumps : json -> pystr) (default_user_id : option pystr)
    (default_is_global : option Z) (f : File)
    (pairs : list (Document.t * list Chunk.t)) :
  Forall (fun p => select_by_hash f (Document.hash_sha256 (fst p)) <> None)
         pairs ->
  add_each batch_embed json_dumps default_user_id default_is_global f pairs
  = inr f.
Proof.
  induction 1 as [|[doc chunks] pairs Hknown _ IH]; [reflexivity|].
  cbn [add_each fst] in *.
  destruct (select_by_hash f (Document.hash_sha256 doc));
    [exact IH|contradiction].
Qed.
End IngestSkips.

Section IngestFacts.
Import VectorStore.
Context `{Services}.
Context (batch_embed : list pystr -> Exc (list ndarray))
        (json_dumps : json -> pystr)
        (default_user_id : option pystr)
        (default_is_global : option Z).

Lemma select_by_hash_known (f : File) (hash : pystr) :
  select_by_hash f hash <> None
  <-> exists d, In d (documentos (tables f)) /\ d_hash_sha256 d = Some hash.
Proof.
  unfold select_by_hash. split.
  - destruct (List.find _ _) as [d|] eqn:Hfind; [intros _|contradiction].
    apply find_some in Hfind as [Hin Hsel]. exists d. split; [exact Hin|].
    destruct (d_hash_sha256 d) as [x|]; [|discriminate]. cbn in Hsel.
    destruct (bool_decide (x = hash)) eqn:Hx; [|discriminate].
    apply bool_decide_eq_true in Hx. congruence.
  - intros (d & Hin & Hd) Hnone.
    apply (find_none _ _ Hnone) in Hin. rewrite Hd in Hin. cbn in Hin.
    rewrite bool_decide_eq_true_2 in Hin by reflexivity. discriminate.
Qed.

(** The largest rowid of a table is the greatest of its ids. *)
Lemma largest_rowid (ids : list Z) (seq : Z) :
  (seq <= fold_right Z.max seq ids)%Z
  /\ Forall (fun id => (id <= fold_right Z.max seq ids)%Z) ids.
Proof.
  induction ids as [|id ids [IHseq IHids]]; cbn [fold_right].
  - split; [lia|constructor].
  - split; [lia|]. constructor; [lia|].
    eapply Forall_impl; [exact IHids|]. cbn. intros. lia.
Qed.

Lemma next_rowid_above (ids : list Z) (seq id : Z) :
  next_rowid ids seq = inr id ->
  id = (fold_right Z.max seq ids + 1)%Z.
Proof.
  unfold next_rowid. destruct (_ <? _)%Z; [|discriminate].
  intros [= <-]. reflexivity.
Qed.

Lemma insert_documento_inv (f f' : File) (doc : Document.t) (id : Z) :
  insert_documento default_user_id default_is_global f doc = inr (id, f') ->
  exists caminho,
    Document.caminho doc = Some caminho
    /\ select_by_hash f (Document.hash_sha256 doc) = None
    /\ id = (largest_documento f + 1)%Z
    /\ f' = {| tables :=
                 {| documentos_columns := documentos_columns (tables f);
                    documentos :=
                      documentos (tables f)
                      ++ [ {| d_id := id;
                              d_tipo := Document.tipo doc;
                              d_titulo := Document.titulo doc;
                              d_numero := Document.numero doc;
                              d_data := Document.data doc;
                              d_conselho := Document.conselho doc;
                              d_caminho := caminho;
                              d_hash_sha256 :=
                                Some (Document.hash_sha256 doc);
                              d_user_id := default_user_id;
                              d_is_global := default_is_global |} ];
                    chunks := chunks (tables f) |};
               seq_documentos := id;
               seq_chunks := seq_chunks f |}.
Proof.
  unfold insert_documento.
  destruct (Document.caminho doc) as [caminho|]; [|discriminate].
  destruct (select_by_hash f (Document.hash_sha256 doc)); [discriminate|].
  destruct (next_rowid _ _) as [e|id'] eqn:Hid; [discriminate|].
  intros [= <- <-]. apply next_rowid_above in Hid.
  exists caminho. auto.
Qed.

(** What the loop over the chunks of a document writes: rows of
    [chunks] that hold the id of the document and the bytes of the
    vectors, and nothing else. *)
Lemma insert_chunks_inv (f f' : File) (doc_id : Z)
    (pairs : list (Chunk.t * ndarray)) :
  insert_chunks json_dumps f doc_id pairs = inr f' ->
  exists rows,
    f' = {| tables :=
              {| documentos_columns := documentos_columns (tables f);
                 documentos := documentos (tables f);
                 chunks := chunks (tables f) ++ rows |};
            seq_documentos := seq_documentos f;
            seq_chunks := seq_chunks f' |}
    /\ Forall2
         (fun row pair =>
            c_documento_id row = doc_id
            /\ c_conteudo row = Chunk.conteudo (fst pair)
            /\ c_embedding row = Some (tobytes (snd pair))
            /\ c_metadata row = Some (json_dumps (Chunk.metadata (fst pair)))
            /\ c_posicao row = Some (Chunk.posicao (fst pair)))
         rows pairs
    /\ Forall (fun row =>
                 Forall (fun c => (c_id c < c_id row)%Z) (chunks (tables f)))
              rows
    /\ StronglySorted (fun a b => (c_id a < c_id b)%Z) rows.
Proof.
  revert f. induction pairs as [|[chunk embedding] pairs IH]; intros f.
  - intros [= <-]. exists []. rewrite app_nil_r.
    destruct f as [[]]. repeat split; constructor.
  - cbn [insert_chunks]. unfold insert_chunk.
    destruct (next_rowid _ _) as [e|id] eqn:Hid; [discriminate|].
    apply next_rowid_above in Hid. intros Hrest.
    apply IH in Hrest as (rows & Hf' & Hrows & Habove & Hsorted).
    cbn [tables documentos_columns documentos chunks seq_documentos
         seq_chunks] in *.
    rewrite <- app_assoc in Hf'. cbn [app] in Hf'.
    eexists (_ :: rows). split; [exact Hf'|].
    pose proof (largest_rowid (map c_id (chunks (tables f))) (seq_chunks f))
      as [_ Hids].
    assert (Hold : Forall (fun c => (c_id c < id)%Z) (chunks (tables f))).
    { rewrite Forall_map in Hids. eapply Forall_impl; [exact Hids|].
      cbn. intros. lia. }
    split; [|split].
    + constructor; [|exact Hrows]. cbn. auto.
    + constructor; [exact Hold|].
      eapply Forall_impl; [exact Habove|]. cbn. intros row Hrow.
      apply Forall_app in Hrow as [Hrow _]. exact Hrow.
    + constructor; [exact Hsorted|].
      eapply Forall_impl; [exact Habove|]. cbn. intros row Hrow.
      apply Forall_app in Hrow as [_ Hrow].
      apply Forall_cons in Hrow as [Hrow _]. exact Hrow.
Qed.

(** One iteration of the loop of [add_documents] that inserts. *)
Lemma ingest_one (f f1 f2 : File) (doc : Document.t) (id : Z)
    (pairs : list (Chunk.t * ndarray)) :
  insert_documento default_user_id default_is_global f doc = inr (id, f1) ->
  insert_chunks json_dumps f1 id pairs = inr f2 ->
  exists d rows,
    appended f f2 [d] rows
    /\ select_by_hash f (Document.hash_sha256 doc) = None
    /\ d_id d = id /\ id = (largest_documento f + 1)%Z
    /\ largest_documento f2 = id
    /\ row_of default_user_id default_is_global doc d
    /\ Forall2 (fun c pair =>
                  chunk_row_of json_dumps id (fst pair) (snd pair) c)
               rows pairs
    /\ Forall (fun row =>
                 Forall (fun c => (c_id c < c_id row)%Z) (chunks (tables f)))
              rows
    /\ StronglySorted (fun a b => (c_id a < c_id b)%Z) rows.
Proof.
  intros Hdoc Hchunks.
  apply insert_documento_inv in Hdoc as (caminho & Hcaminho & Hnew & Hid & ->).
  apply insert_chunks_inv in Hchunks as (rows & -> & Hrows & Habove & Hsorted).
  cbn [tables documentos_columns documentos chunks seq_documentos] in *.
  eexists _, rows. split; [constructor; reflexivity|].
  split; [exact Hnew|]. split; [reflexivity|]. split; [exact Hid|].
  split; [|split; [|split; [|split]]].
  - unfold largest_documento.
    cbn [tables documentos seq_documentos]. rewrite map_app, fold_right_app.
    cbn [map fold_right d_id]. rewrite Z.max_id.
    pose proof (largest_rowid (map d_id (documentos (tables f))) id)
      as [Hseq Hids].
    assert (Hle : Forall (fun x => (x <= id)%Z)
                         (map d_id (documentos (tables f)))).
    { pose proof (largest_rowid (map d_id (documentos (tables f)))
                    (seq_documentos f)) as [_ Hold].
      eapply Forall_impl; [exact Hold|]. cbn. intros x Hx.
      unfold largest_documento in Hid. lia. }
    clear -Hle. induction Hle as [|x ids Hx _ IH]; cbn [fold_right]; lia.
  - unfold row_of. cbn. rewrite Hcaminho. repeat split.
  - eapply Forall2_impl; [exact Hrows|]. cbn. intros c pair Hc. exact Hc.
  - exact Habove.
  - exact Hsorted.
Qed.

Lemma add_each_step (f f' : File) (doc : Document.t) (chunks : list Chunk.t)
    (pairs : list (Document.t * list Chunk.t)) :
  add_each batch_embed json_dumps default_user_id default_is_global f
           ((doc, chunks) :: pairs) = inr f' ->
  select_by_hash f (Document.hash_sha256 doc) <> None
  /\ add_each batch_embed json_dumps default_user_id default_is_global f
              pairs = inr f'
  \/ exists id f1 embeddings f2,
       insert_documento default_user_id default_is_global f doc
       = inr (id, f1)
       /\ batch_embed (map Chunk.conteudo chunks) = Ok embeddings
       /\ insert_chunks json_dumps f1 id (zip chunks embeddings) = inr f2
       /\ add_each batch_embed json_dumps default_user_id default_is_global
                   f2 pairs = inr f'.
Proof.
  cbn [add_each].
  destruct (select_by_hash f (Document.hash_sha256 doc)) as [existing|].
  { intros Hrest. left. split; [discriminate|exact Hrest]. }
  destruct (insert_documento _ _ f doc) as [e|[id f1]]; [discriminate|].
  destruct (batch_embed _) as [embeddings|e]; [|discriminate].
  destruct (insert_chunks _ f1 id _) as [e|f2] eqn:Hchunks; [discriminate|].
  intros Hrest. right. exists id, f1, embeddings, f2. auto.
Qed.

Lemma known_appended (f f' : File) (new_docs : list Documento)
    (new_chunks : list ChunkRow) (hash : pystr) :
  appended f f' new_docs new_chunks ->
  select_by_hash f hash <> None -> select_by_hash f' hash <> None.
Proof.
  intros [_ Hdocs _]. rewrite !select_by_hash_known.
  intros (d & Hd & Hhash). exists d. split; [|exact Hhash].
  rewrite Hdocs. apply in_or_app. left. exact Hd.
Qed.

Lemma unknown_appended (f f' : File) (new_docs : list Documento)
    (new_chunks : list ChunkRow) (hash : pystr) :
  appended f f' new_docs new_chunks ->
  select_by_hash f' hash = None -> select_by_hash f hash = None.
Proof.
  intros Happ Hnone.
  destruct (select_by_hash f hash) eqn:Hf; [|reflexivity].
  exfalso. apply (known_appended _ _ _ _ hash Happ); [|exact Hnone].
  rewrite Hf. discriminate.
Qed.

Lemma Forall2_zip_In {A B C : Type} (P : C -> A * B -> Prop)
    (rows : list C) (pairs : list (A * B)) :
  Forall2 P rows pairs ->
  Forall (fun c => exists pair, In pair pairs /\ P c pair) rows.
Proof.
  induction 1 as [|c pair rows pairs Hc _ IH]; constructor.
  - exists pair. split; [left; reflexivity|exact Hc].
  - eapply Forall_impl; [exact IH|]. cbn. intros c' (pair' & Hin & Hp).
    exists pair'. split; [right; exact Hin|exact Hp].
Qed.

Lemma add_each_stored (f f' : File)
    (pairs : list (Document.t * list Chunk.t)) :
  add_each batch_embed json_dumps default_user_id default_is_global
    f pairs = inr f' ->
  exists new_docs new_chunks,
    stored batch_embed json_dumps default_user_id default_is_global f pairs
           f' new_docs new_chunks.
Proof.
  revert f. induction pairs as [|[doc chunks] pairs IH]; intros f Hadd.
  { injection Hadd as <-. exists [], []. unfold stored.
    split; [constructor; rewrite ?app_nil_r; reflexivity|].
    split; [lia|]. repeat split; constructor. }
  apply add_each_step in Hadd
    as [[Hknown Hrest]|(id & f1 & embeddings & f2 & Hdoc & Hembed & Hchunks
                        & Hrest)].
  - (* the document is skipped *)
    apply IH in Hrest
      as (nd & nc & Happ & Hle & Habove & Hsorted & Hrows & Hhashes & Hcabove
          & Hcsorted & Hcrows & Hall).
    exists nd, nc. unfold stored.
    split; [exact Happ|]. split; [exact Hle|]. split; [exact Habove|].
    split; [exact Hsorted|]. split; [|split; [exact Hhashes|]].
    { eapply Forall_impl; [exact Hrows|]. cbn.
      intros d (doc' & chunks' & Hin & Hrow & Hnew).
      exists doc', chunks'. split; [right; exact Hin|]. auto. }
    split; [exact Hcabove|]. split; [exact Hcsorted|]. split.
    { eapply Forall_impl; [exact Hcrows|]. cbn.
      intros c (d & doc' & chunks' & embeddings' & chunk & e & Hd & Hin
                & Hrest').
      exists d, doc', chunks', embeddings', chunk, e.
      split; [exact Hd|]. split; [right; exact Hin|exact Hrest']. }
    constructor; [|exact Hall]. cbn [fst].
    eapply known_appended; eassumption.
  - (* the document and its chunks are inserted *)
    destruct (ingest_one _ _ _ _ _ _ Hdoc Hchunks)
      as (d & rows & Happ1 & Hnew & Hid & Hlargest & Hlargest2 & Hrow
          & Hrows1 & Habove1 & Hsorted1).
    apply IH in Hrest
      as (nd & nc & Happ & Hle & Habove & Hsorted & Hrows & Hhashes & Hcabove
          & Hcsorted & Hcrows & Hall).
    destruct Happ1 as [Hcols1 Hdocs1 Hchunks1].
    destruct Happ as [Hcols Hdocs Hchunks'].
    assert (Happ' : appended f f' (d :: nd) (rows ++ nc)).
    { constructor.
      - congruence.
      - rewrite Hdocs, Hdocs1, <- app_assoc. reflexivity.
      - rewrite Hchunks', Hchunks1, <- app_assoc. reflexivity. }
    assert (Hknown2 : select_by_hash f2 (Document.hash_sha256 doc) <> None).
    { apply select_by_hash_known. exists d. split.
      - rewrite Hdocs1. apply in_or_app. right. left. reflexivity.
      - apply Hrow. }
    exists (d :: nd), (rows ++ nc). unfold stored.
    split; [exact Happ'|]. split; [lia|]. split.
    { constructor; [lia|]. eapply Forall_impl; [exact Habove|].
      cbn. intros. lia. }
    split.
    { constructor; [exact Hsorted|]. eapply Forall_impl; [exact Habove|].
      cbn. intros. lia. }
    split.
    { constructor.
      - exists doc, chunks. split; [left; reflexivity|]. auto.
      - eapply Forall_impl; [exact Hrows|]. cbn.
        intros d' (doc' & chunks' & Hin & Hrow' & Hnew').
        exists doc', chunks'. split; [right; exact Hin|].
        split; [exact Hrow'|].
        eapply (unknown_appended f f2 [d] rows);
          [constructor; assumption|exact Hnew']. }
    split.
    { cbn [map]. apply NoDup_cons. split; [|exact Hhashes].
      intros Hin. apply list_elem_of_In, in_map_iff in Hin
        as (d' & Hhash & Hd').
      rewrite Forall_forall in Hrows.
      destruct (Hrows d' (proj2 (list_elem_of_In _ _) Hd'))
        as (doc' & chunks' & _ & Hrow' & Hnew').
      apply Hknown2. destruct Hrow as (_ & _ & _ & _ & _ & _ & Hh & _).
      destruct Hrow' as (_ & _ & _ & _ & _ & _ & Hh' & _).
      replace (Document.hash_sha256 doc) with (Document.hash_sha256 doc')
        by congruence.
      exact Hnew'. }
    split.
    { apply Forall_app. split; [exact Habove1|].
      eapply Forall_impl; [exact Hcabove|]. cbn. intros row Hrow'.
      rewrite Hchunks1 in Hrow'. apply Forall_app in Hrow' as [Hrow' _].
      exact Hrow'. }
    split.
    { apply StronglySorted_app_2; [|exact Hsorted1|exact Hcsorted].
      intros a b Ha Hb. rewrite Forall_forall in Hcabove.
      specialize (Hcabove b Hb). rewrite Hchunks1, Forall_app in Hcabove.
      destruct Hcabove as [_ Hcabove]. rewrite Forall_forall in Hcabove.
      apply Hcabove, Ha. }
    split.
    { apply Forall_app. split.
      - apply Forall2_zip_In in Hrows1.
        eapply Forall_impl; [exact Hrows1|]. cbn.
        intros c ([chunk e] & Hin & Hc).
        exists d, doc, chunks, embeddings, chunk, e.
        split; [left; reflexivity|]. split; [left; reflexivity|].
        split; [exact Hrow|]. split; [exact Hembed|].
        split; [exact Hin|]. rewrite Hid. exact Hc.
      - eapply Forall_impl; [exact Hcrows|]. cbn.
        intros c (d' & doc' & chunks' & embeddings' & chunk & e & Hd & Hin
                  & Hrest').
        exists d', doc', chunks', embeddings', chunk, e.
        split; [right; exact Hd|]. split; [right; exact Hin|exact Hrest']. }
    constructor; [|exact Hall]. cbn [fst].
    eapply (known_appended f2 f' nd nc);
      [constructor; assumption|exact Hknown2].
Qed.

(** X11. Ingesting again is a no-op: after a call of [add_documents] that
    returned, the same call finds every document by its hash, skips it,
    and leaves the file as it is, without a call of the embedding
    provider. *)
Theorem add_documents_is_idempotent (f f' : File)
    (documents : list Document.t) (chunks_per_doc : list (list Chunk.t)) :
  add_documents batch_embed json_dumps default_user_id default_is_global
                f documents chunks_per_doc = inr f' ->
  add_documents batch_embed json_dumps default_user_id default_is_global
                f' documents chunks_per_doc = inr f'
  /\ add_documents (fun _ => Raise TypeError) json_dumps default_user_id
                   default_is_global f' documents chunks_per_doc = inr f'.
Proof.
  unfold add_documents. intros Hadd.
  apply add_each_stored in Hadd as (nd & nc & Hstored).
  destruct Hstored as (_ & _ & _ & _ & _ & _ & _ & _ & _ & Hall).
  split; apply add_each_skips, Hall.
Qed.

(** X12. [add_documents] keeps the keys of the tables and the rows they
    have: in a file whose ids are keys and whose hashes are unique, a
    call that returns leaves ids that are keys and hashes that are
    unique, and it appends rows to the tables without changing a row
    that was there. *)
Theorem add_documents_keeps_the_keys (f f' : File)
    (documents : list Document.t) (chunks_per_doc : list (list Chunk.t)) :
  NoDup (map d_id (documentos (tables f))) ->
  NoDup (map c_id (chunks (tables f))) ->
  NoDup (omap d_hash_sha256 (documentos (tables f))) ->
  add_documents batch_embed json_dumps default_user_id default_is_global
                f documents chunks_per_doc = inr f' ->
  NoDup (map d_id (documentos (tables f')))
  /\ NoDup (map c_id (chunks (tables f')))
  /\ NoDup (omap d_hash_sha256 (documentos (tables f')))
  /\ exists new_docs new_chunks, appended f f' new_docs new_chunks.
Proof.
  unfold add_documents. intros Hdocs Hchunks Hhashes Hadd.
  apply add_each_stored in Hadd as (nd & nc & Hstored).
  destruct Hstored
    as (Happ & _ & Habove & Hsorted & Hrows & Hnew & Hcabove & Hcsorted
        & _ & _).
  destruct Happ as [Hcols Hmore Hcmore].
  split; [|split; [|split]].
  - rewrite Hmore, map_app. apply NoDup_app. split; [exact Hdocs|].
    split; [|apply sorted_NoDup, Hsorted].
    intros id Hold Hin.
    pose proof (largest_rowid (map d_id (documentos (tables f)))
                  (seq_documentos f)) as [_ Hle].
    rewrite Forall_forall in Hle. specialize (Hle id Hold).
    apply list_elem_of_In, in_map_iff in Hin as (d & <- & Hd).
    rewrite Forall_forall in Habove.
    specialize (Habove d (proj2 (list_elem_of_In _ _) Hd)).
    unfold largest_documento in Habove. lia.
  - rewrite Hcmore, map_app. apply NoDup_app. split; [exact Hchunks|].
    split; [|apply sorted_NoDup, Hcsorted].
    intros id Hold Hin.
    apply list_elem_of_In, in_map_iff in Hold as (c & <- & Hc).
    apply list_elem_of_In, in_map_iff in Hin as (c' & Heq & Hc').
    rewrite Forall_forall in Hcabove.
    specialize (Hcabove c' (proj2 (list_elem_of_In _ _) Hc')).
    rewrite Forall_forall in Hcabove.
    specialize (Hcabove c (proj2 (list_elem_of_In _ _) Hc)). lia.
  - rewrite Hmore, omap_app. apply NoDup_app. split; [exact Hhashes|].
    split; [|apply NoDup_omap, Hnew].
    intros hash Hold Hin.
    apply list_elem_of_omap in Hold as (d & Hd & Hhash).
    apply list_elem_of_omap in Hin as (d' & Hd' & Hhash').
    rewrite Forall_forall in Hrows.
    destruct (Hrows d' Hd') as (doc & chunks & _ & Hrow & Hunknown).
    destruct Hrow as (_ & _ & _ & _ & _ & _ & Hh & _).
    assert (Hknown : select_by_hash f (Document.hash_sha256 doc) <> None).
    { apply select_by_hash_known. exists d.
      split; [apply list_elem_of_In, Hd|congruence]. }
    contradiction.
  - exists nd, nc. constructor; assumption.
Qed.

(** X13. What [add_documents] writes: every row it appends to [chunks]
    belongs to a row it appends to [documentos], holds the id the
    INSERT of the document returned, whatever [documento_id] the chunk
    has, and holds the bytes of the vector the provider returned for
    the text of the chunk, which [np.frombuffer] reads back when the
    vector has dtype float32; and every row it appends to [documentos]
    is that of a document of the call. *)
Theorem add_documents_stores_the_vectors (f f' : File)
    (documents : list Document.t) (chunks_per_doc : list (list Chunk.t)) :
  add_documents batch_embed json_dumps default_user_id default_is_global
                f documents chunks_per_doc = inr f' ->
  exists new_docs new_chunks,
    appended f f' new_docs new_chunks
    /\ Forall (fun d =>
                 exists doc,
                   In doc documents
                   /\ row_of default_user_id default_is_global doc d)
              new_docs
    /\ Forall (fun c =>
                 exists d doc chunks embeddings chunk e,
                   In d new_docs
                   /\ In (doc, chunks) (zip documents chunks_per_doc)
                   /\ row_of default_user_id default_is_global doc d
                   /\ batch_embed (map Chunk.conteudo chunks)
                      = Ok embeddings
                   /\ In (chunk, e) (zip chunks embeddings)
                   /\ chunk_row_of json_dumps (d_id d) chunk e c
                   /\ (forallb is_float32 e = true ->
                       np_frombuffer (c_embedding c) = Ok e))
              new_chunks.
Proof.
  unfold add_documents. intros Hadd.
  apply add_each_stored in Hadd as (nd & nc & Hstored).
  destruct Hstored as (Happ & _ & _ & _ & Hrows & _ & _ & _ & Hcrows & _).
  exists nd, nc. split; [exact Happ|]. split.
  - eapply Forall_impl; [exact Hrows|]. cbn.
    intros d (doc & chunks & Hin & Hrow & _). exists doc.
    split; [|exact Hrow].
    apply list_elem_of_In in Hin. apply elem_of_zip_l in Hin.
    apply list_elem_of_In, Hin.
  - eapply Forall_impl; [exact Hcrows|]. cbn.
    intros c (d & doc & chunks & embeddings & chunk & e & Hd & Hin & Hrow
              & Hembed & Hpair & Hc).
    exists d, doc, chunks, embeddings, chunk, e.
    repeat (split; [assumption|]).
    intros He. destruct Hc as (_ & _ & -> & _). unfold np_frombuffer.
    rewrite (items_of_tobytes e He). reflexivity.
Qed.

Lemma hidden_row (requester : option pystr) (filters : gmap pystr pystr)
    (d : Documento) :
  d_user_id d = None -> d_is_global d <> Some 1%Z ->
  selected (permission_filter requester d) = false
  /\ selected (where_sql filters requester d) = false.
Proof.
  intros Huser Hglobal.
  assert (Hperm : selected (permission_filter requester d) = false).
  { unfold permission_filter. rewrite Huser.
    destruct (d_is_global d) as [n|]; cbn.
    - destruct (Z.eqb_spec n 1) as [->|_]; [contradiction|].
      destruct requester as [u|]; [destruct (truthy u)|]; reflexivity.
    - destruct requester as [u|]; [destruct (truthy u)|]; reflexivity. }
  split; [exact Hperm|].
  destruct (selected (where_sql filters requester d)) eqn:Hsel;
    [|reflexivity].
  apply where_sql_permission in Hsel. congruence.
Qed.

Lemma selected_rows_unchanged (f f' : File) (new_docs : list Documento)
    (new_chunks : list ChunkRow) (where_ : Documento -> sql_bool) :
  appended f f' new_docs new_chunks ->
  Forall (fun d => selected (where_ d) = false) new_docs ->
  Forall (fun c => (largest_documento f < c_documento_id c)%Z) new_chunks ->
  List.filter (fun row => selected (where_ (snd row))) (join (tables f'))
  = List.filter (fun row => selected (where_ (snd row))) (join (tables f)).
Proof.
  intros [_ Hdocs Hchunks] Hhidden Hnew. unfold join.
  rewrite Hdocs, Hchunks, flat_map_app, List.filter_app.
  rewrite !filter_flat_map.
  assert (Hrow : forall c d,
            List.find (fun d => Z.eqb (d_id d) (c_documento_id c)) new_docs
            = Some d ->
            List.filter (fun row : ChunkRow * Documento =>
                           selected (where_ (snd row))) [(c, d)] = []).
  { intros c d Hfind. apply find_some in Hfind as [Hd _].
    rewrite Forall_forall in Hhidden.
    cbn. rewrite (Hhidden d (proj2 (list_elem_of_In _ _) Hd)).
    reflexivity. }
  rewrite (flat_map_none _ new_chunks).
  - rewrite app_nil_r. apply flat_map_ext. intros c.
    rewrite find_app_first.
    destruct (List.find _ (documentos (tables f))) as [d|]; [reflexivity|].
    destruct (List.find _ new_docs) as [d|] eqn:Hfind; [|reflexivity].
    rewrite (Hrow c d Hfind). reflexivity.
  - eapply Forall_impl; [exact Hnew|]. cbn. intros c Hc.
    rewrite find_app_first.
    assert (Hold : List.find
                     (fun d => Z.eqb (d_id d) (c_documento_id c))
                     (documentos (tables f)) = None).
    { destruct (List.find _ (documentos (tables f))) as [d|] eqn:Hfind;
        [|reflexivity].
      apply find_some in Hfind as [Hd Hid]. apply Z.eqb_eq in Hid.
      pose proof (largest_rowid (map d_id (documentos (tables f)))
                    (seq_documentos f)) as [_ Hle].
      rewrite Forall_forall in Hle.
      specialize (Hle (d_id d)
                    (proj2 (list_elem_of_In _ _) (in_map d_id _ _ Hd))).
      unfold largest_documento in Hc. lia. }
    rewrite Hold.
    destruct (List.find _ new_docs) as [d|] eqn:Hfind; [|reflexivity].
    exact (Hrow c d Hfind).
Qed.

(** X14. [add_documents] writes neither an owner nor the global flag.
    When the columns [user_id] and [is_global] of a row that is
    inserted without them are NULL, or [is_global] is anything but 1,
    the documents a call has added are found by no search: every
    search, for every requester, returns after the call what it
    returned before. *)
Theorem ingested_documents_are_not_found (f f' : File)
    (documents : list Document.t) (chunks_per_doc : list (list Chunk.t)) :
  default_user_id = None ->
  default_is_global <> Some 1%Z ->
  add_documents batch_embed json_dumps default_user_id default_is_global
                f documents chunks_per_doc = inr f' ->
  forall query embedding filters k requester,
    search (tables f') query k requester
    = search (tables f) query k requester
    /\ search_by_embedding (tables f') embedding k requester
       = search_by_embedding (tables f) embedding k requester
    /\ search_with_filter (tables f') query filters k requester
       = search_with_filter (tables f) query filters k requester.
Proof.
  unfold add_documents. intros Huser Hglobal Hadd.
  apply add_each_stored in Hadd as (nd & nc & Hstored).
  destruct Hstored
    as (Happ & _ & Habove & _ & Hrows & _ & _ & _ & Hcrows & _).
  assert (Hhidden : forall where_,
            (forall d, d_user_id d = None -> d_is_global d <> Some 1%Z ->
                       selected (where_ d) = false) ->
            forall q, scan (tables f') where_ q = scan (tables f) where_ q).
  { intros where_ Hwhere q. unfold scan, prepare, has_column.
    rewrite (same_columns _ _ _ _ Happ).
    rewrite (selected_rows_unchanged f f' nd nc where_ Happ); [reflexivity| |].
    - eapply Forall_impl; [exact Hrows|]. cbn.
      intros d (doc & chunks & _ & Hrow & _).
      destruct Hrow as (_ & _ & _ & _ & _ & _ & _ & Hu & Hg).
      apply Hwhere; congruence.
    - eapply Forall_impl; [exact Hcrows|]. cbn.
      intros c (d & doc & chunks & embeddings & chunk & e & Hd & _ & _ & _
                & _ & Hc).
      destruct Hc as (-> & _). rewrite Forall_forall in Habove.
      apply Habove, list_elem_of_In, Hd. }
  intros query embedding filters k requester.
  assert (Hperm : forall q,
            scan (tables f') (permission_filter requester) q
            = scan (tables f) (permission_filter requester) q).
  { apply Hhidden. intros d Hu Hg. apply (hidden_row requester ∅ d Hu Hg). }
  assert (Hfilter : forall q,
            scan (tables f') (where_sql filters requester) q
            = scan (tables f) (where_sql filters requester) q).
  { apply Hhidden. intros d Hu Hg.
    apply (hidden_row requester filters d Hu Hg). }
  unfold search, search_by_embedding, search_with_filter.
  rewrite Hperm.
  destruct (generate_embedding query) as [q|]; cbn [mbind exc_bind];
    rewrite ?Hperm, ?Hfilter; repeat split.
Qed.

End IngestFacts.

Section IngestExamples.
Import VectorStore Fixture.

Example add_documents_ingests :
  add_documents embed_all dumps None None empty_file [ata_document]
                [ata_chunks] = inr ingested
  /\ map d_id (documentos (tables ingested)) = [1%Z]
  /\ map c_documento_id (chunks (tables ingested)) = [1; 1]%Z
  /\ map c_embedding (chunks (tables ingested))
     = [Some (b_one ++ b_zero); Some (b_one ++ b_zero)].
Proof. repeat split; vm_compute; reflexivity. Qed.

Lemma add_documents_is_idempotent_witness :
  add_documents embed_all dumps None None ingested [ata_document] [ata_chunks]
  = inr ingested
  /\ add_documents (fun _ => Raise TypeError) dumps None None ingested
                   [ata_document] [ata_chunks] = inr ingested.
Proof.
  assert (Hadd : add_documents embed_all dumps None None empty_file
                   [ata_document] [ata_chunks] = inr ingested)
    by (vm_compute; reflexivity).
  exact (add_documents_is_idempotent embed_all dumps None None empty_file
           ingested [ata_document] [ata_chunks] Hadd).
Defined.

Lemma add_documents_keeps_the_keys_witness :
  NoDup (map d_id (documentos (tables ingested)))
  /\ NoDup (map c_id (chunks (tables ingested)))
  /\ NoDup (omap d_hash_sha256 (documentos (tables ingested)))
  /\ exists new_docs new_chunks,
       appended empty_file ingested new_docs new_chunks.
Proof.
  assert (Hadd : add_documents embed_all dumps None None empty_file
                   [ata_document] [ata_chunks] = inr ingested)
    by (vm_compute; reflexivity).
  refine (add_documents_keeps_the_keys embed_all dumps None None empty_file
            ingested [ata_document] [ata_chunks] _ _ _ Hadd);
    constructor.
Defined.

Lemma add_documents_stores_the_vectors_witness :
  exists new_docs new_chunks,
    appended empty_file ingested new_docs new_chunks
    /\ Forall (fun d => exists doc,
                 In doc [ata_document] /\ row_of None None doc d)
              new_docs
    /\ Forall (fun c =>
                 exists d doc chunks embeddings chunk e,
                   In d new_docs
                   /\ In (doc, chunks) (zip [ata_document] [ata_chunks])
                   /\ row_of None None doc d
                   /\ embed_all (map Chunk.conteudo chunks) = Ok embeddings
                   /\ In (chunk, e) (zip chunks embeddings)
                   /\ chunk_row_of dumps (d_id d) chunk e c
                   /\ (forallb is_float32 e = true ->
                       np_frombuffer (c_embedding c) = Ok e))
              new_chunks.
Proof.
  assert (Hadd : add_documents embed_all dumps None None empty_file
                   [ata_document] [ata_chunks] = inr ingested)
    by (vm_compute; reflexivity).
  exact (add_documents_stores_the_vectors embed_all dumps None None empty_file
           ingested [ata_document] [ata_chunks] Hadd).
Defined.

Lemma ingested_documents_are_not_found_witness :
  search (tables ingested) (py "pauta") 5 None = Ok []
  /\ search (tables ingested) (py "pauta") 5 None
     = search (tables empty_file) (py "pauta") 5 None.
Proof.
  assert (Hadd : add_documents embed_all dumps None None empty_file
                   [ata_document] [ata_chunks] = inr ingested)
    by (vm_compute; reflexivity).
  split; [reflexivity|].
  assert (Hglobal : (None : option Z) <> Some 1%Z) by discriminate.
  destruct (ingested_documents_are_not_found embed_all dumps None None
              empty_file ingested [ata_document] [ata_chunks] eq_refl
              Hglobal Hadd (py "pauta") [] ∅ 5 None) as [Hsearch _].
  exact Hsearch.
Defined.
End IngestExamples.

(** ** The document store: statistics *)

Section StoreStats.
Import VectorStore.

Lemma count_by_tipo_lookup (rows : list Documento) (t : pystr) :
  count_by_tipo rows !! t
  = (let n := length (List.filter (fun d => bool_decide (d_tipo d = t))
                                  rows) in
     if (n =? 0)%nat then None else Some (Z.of_nat n)).
Proof.
  induction rows as [|d rows IH]; [reflexivity|].
  cbn [count_by_tipo fold_right List.filter].
  fold (count_by_tipo rows).
  destruct (decide (d_tipo d = t)) as [->|Hne].
  - rewrite lookup_insert_eq, IH, bool_decide_eq_true_2 by reflexivity.
    cbn [length]. cbn zeta.
    generalize (length (List.filter (fun d => bool_decide (d_tipo d = t))
                                    rows)).
    intros [|n]; simpl Nat.eqb; cbn [default]; f_equal; unfold id; lia.
  - rewrite lookup_insert_ne by exact Hne.
    rewrite bool_decide_eq_false_2 by exact Hne. exact IH.
Qed.

Lemma total_insert (counts : gmap pystr Z) (t : pystr) (n : Z) :
  map_fold (fun _ n total => (n + total)%Z) 0%Z (<[ t := n ]> counts)
  = (n - default 0 (counts !! t)
     + map_fold (fun _ n total => (n + total)%Z) 0%Z counts)%Z.
Proof.
  destruct (counts !! t) as [old|] eqn:Hold; cbn [default]; unfold id.
  - rewrite <- insert_delete_eq.
    rewrite map_fold_insert_L; [|intros; lia|apply lookup_delete_eq].
    rewrite (map_fold_delete_L _ _ t old counts);
      [cbv beta; lia|intros; lia|exact Hold].
  - rewrite map_fold_insert_L; [cbv beta; lia|intros; lia|exact Hold].
Qed.

(** X15. The statistics of the store are consistent: the counts by type
    add up to the number of documents, and a type is listed with the
    number of its documents exactly when it has one. *)
Theorem get_stats_counts_add_up (db : Database) :
  map_fold (fun _ n total => (n + total)%Z) 0%Z
           (documentos_por_tipo (get_stats db))
  = num_documentos (get_stats db)
  /\ forall t,
       documentos_por_tipo (get_stats db) !! t
       = (let n := length (List.filter
                             (fun d => bool_decide (d_tipo d = t))
                             (documentos db)) in
          if (n =? 0)%nat then None else Some (Z.of_nat n)).
Proof.
  unfold get_stats. cbn [documentos_por_tipo num_documentos].
  split; [|apply count_by_tipo_lookup].
  induction (documentos db) as [|d rows IH]; [reflexivity|].
  cbn [count_by_tipo fold_right]. fold (count_by_tipo rows).
  rewrite total_insert, IH. cbn [length]. lia.
Qed.

End StoreStats.

(** ** The focal agent *)

Section FocalAgentRuns.
Import VectorStore FocalAgent.
Context `{Services}.

Lemma pick_tool_In (question : pystr) (t : ToolConfig) :
  pick_tool question = Some t -> In t TOOLS.
Proof. intros Hp. apply find_some in Hp as [Hin _]. exact Hin. Qed.

Lemma TOOLS_filter_terms (t : ToolConfig) :
  In t TOOLS -> filter_terms t <> [].
Proof.
  intros Hin. repeat (destruct Hin as [<-|Hin]; [discriminate|]).
  destruct Hin.
Qed.

Lemma build_filters_cases (t : ToolConfig) :
  build_filters t = {[ py "tipo" := name t ]}
  /\ bool_decide (build_filters t = ∅) = false
  \/ build_filters t = ∅.
Proof.
  unfold build_filters.
  destruct (name_is t "pauta" || name_is t "ata" || name_is t "resolucao"
            || name_is t "portaria"); [left|right; reflexivity].
  split; [reflexivity|]. apply bool_decide_eq_false.
  intros Hempty. apply (f_equal (fun m => m !! py "tipo")) in Hempty.
  rewrite lookup_singleton_eq, lookup_empty in Hempty. discriminate.
Qed.

Lemma execute_search_sound (db : Database) (t : ToolConfig)
    (enhanced : pystr) (k : Z) (requester : option pystr)
    (rs : list SearchResult) :
  filter_terms t <> [] ->
  execute_search db t enhanced k requester = Ok rs ->
  forall r, In r rs ->
    (exists row,
        In row (join db) /\ from_row r row /\ admissible requester (snd row))
    /\ (if bool_decide (build_filters t = ∅)
        then keyword_match t r = true
        else tipo r = name t).
Proof.
  intros Hterms. unfold execute_search.
  destruct (build_filters_cases t) as [[Hf Hd]|Hf].
  - rewrite Hd, Hf. intros Hs r Hr.
    apply search_with_filter_inv in Hs as (q & all & _ & Hall & ->).
    apply top_k_subset in Hr.
    destruct (filtered_scan_entries _ _ _ _ _ Hall r Hr)
      as (Hrow & Htipo & _).
    split; [exact Hrow|]. apply Htipo, lookup_singleton_eq.
  - rewrite Hf, bool_decide_eq_true_2 by reflexivity. intros Hs.
    apply bind_ok in Hs as (found & Hfound & Hs).
    destruct (filter_terms t) as [|term terms] eqn:Ht; [contradiction|].
    injection Hs as <-. intros r Hr.
    apply slice_to_subset, filter_In in Hr as [Hr Hmatch].
    split; [|exact Hmatch].
    apply search_inv in Hfound as (q & all & _ & Hall & ->).
    apply top_k_subset in Hr. eapply scan_admissible; eassumption.
Qed.

(** X16. Every chunk the focal agent returns belongs to a document the
    requester may read and matches the tool that was picked: for the
    tools "pauta", "ata", "resolucao" and "portaria" its document has
    the type of the tool, for the other tools its text or its title
    contains a filter term of the tool. *)
Theorem run_results_match_tool (db : Database) (question : pystr) (k : Z)
    (requester : option pystr) (t : ToolConfig) :
  pick_tool question = Some t ->
  forall r, In r (chunks (run db question k requester)) ->
    (exists row,
        In row (join db) /\ from_row r row /\ admissible requester (snd row))
    /\ (if bool_decide (build_filters t = ∅)
        then keyword_match t r = true
        else tipo r = name t).
Proof.
  intros Hpick r. unfold run. rewrite Hpick.
  destruct (execute_search db t (enhance t question) k requester)
    as [rs|e] eqn:Hs; cbn [chunks]; [|intros []].
  eapply execute_search_sound; [|exact Hs].
  apply TOOLS_filter_terms, (pick_tool_In question), Hpick.
Qed.

Lemma execute_search_length (db : Database) (t : ToolConfig)
    (enhanced : pystr) (k : Z) (requester : option pystr)
    (rs : list SearchResult) :
  execute_search db t enhanced k requester = Ok rs ->
  (0 <= k)%Z -> (Z.of_nat (length rs) <= k)%Z.
Proof.
  unfold execute_search. intros Hs Hk.
  destruct (bool_decide (build_filters t = ∅)).
  - apply bind_ok in Hs as (found & Hfound & Hs).
    destruct (filter_terms t); injection Hs as <-.
    + apply search_inv in Hfound as (q & all & _ & _ & ->).
      apply top_k_length, Hk.
    + apply slice_to_length, Hk.
  - apply search_with_filter_inv in Hs as (q & all & _ & _ & ->).
    apply top_k_length, Hk.
Qed.

Lemma enhance_extends (t : ToolConfig) (question : pystr) :
  exists suffix, enhance t question = question ++ suffix.
Proof.
  unfold enhance.
  repeat match goal with
         | |- context [if ?b then _ else _] => destruct b
         end; try (eexists; reflexivity).
  exists []. rewrite app_nil_r. reflexivity.
Qed.

(** X17. The focal agent reports the first tool that detects the
    question, whether or not the search succeeds, searches with a query
    that extends the question, returns no chunk when no tool detects the
    question and, for [k >= 0], at most [k] chunks. *)
Theorem run_is_bounded (db : Database) (question : pystr) (k : Z)
    (requester : option pystr) :
  tool (run db question k requester) = name <$> pick_tool question
  /\ (exists suffix,
         enhanced_query (run db question k requester) = question ++ suffix)
  /\ (pick_tool question = None -> chunks (run db question k requester) = [])
  /\ ((0 <= k)%Z ->
      (Z.of_nat (length (chunks (run db question k requester))) <= k)%Z).
Proof.
  unfold run. destruct (pick_tool question) as [t|].
  - destruct (execute_search db t (enhance t question) k requester)
      as [rs|e] eqn:Hs; cbn [tool chunks enhanced_query];
      (split; [reflexivity|]); (split; [apply enhance_extends|]);
      (split; [discriminate|]).
    + eapply execute_search_length, Hs.
    + cbn. lia.
  - cbn [tool chunks enhanced_query]. split; [reflexivity|].
    split; [exists []; rewrite app_nil_r; reflexivity|].
    split; [reflexivity|]. cbn. lia.
Qed.

(** X18. The focal agent hides the errors of the store: when the SELECT
    cannot be prepared, as on the tables [_init_db] creates, [run]
    returns the picked tool and an empty list of chunks, not the
    error. *)
Theorem run_hides_store_errors (db : Database) (question : pystr) (k : Z)
    (requester : option pystr) (e : exn) :
  prepare db = Raise e ->
  chunks (run db question k requester) = []
  /\ tool (run db question k requester) = name <$> pick_tool question.
Proof.
  intros Hprepare. unfold run. destruct (pick_tool question) as [t|];
    [|split; reflexivity].
  assert (Hfail : exists e', execute_search db t (enhance t question) k
                               requester = Raise e').
  { unfold execute_search, search, search_with_filter, scan.
    rewrite Hprepare.
    destruct (bool_decide (build_filters t = ∅));
      destruct (generate_embedding (enhance t question));
      eexists; reflexivity. }
  destruct Hfail as [e' ->]. split; reflexivity.
Qed.

End FocalAgentRuns.

Section FocalAgentRunExamples.
Import VectorStore FocalAgent Fixture.

Lemma run_results_match_tool_witness :
  pick_tool (py "O que diz a ata?") = Some tool_ata
  /\ map chunk_id (chunks (run corpus (py "O que diz a ata?") 5
                              (Some (py "alice"))))
     = [2; 4; 3; 1]%Z
  /\ forall r,
       In r (chunks (run corpus (py "O que diz a ata?") 5
                        (Some (py "alice")))) ->
       (exists row,
           In row (join corpus) /\ from_row r row
           /\ admissible (Some (py "alice")) (snd row))
       /\ (if bool_decide (build_filters tool_ata = ∅)
           then keyword_match tool_ata r = true
           else tipo r = name tool_ata).
Proof.
  split; [reflexivity|]. split; [reflexivity|].
  exact (run_results_match_tool corpus (py "O que diz a ata?") 5
           (Some (py "alice")) tool_ata eq_refl).
Defined.

Lemma run_hides_store_errors_witness :
  chunks (run (_init_db None) (py "O que diz a ata?") 5 None) = []
  /\ tool (run (_init_db None) (py "O que diz a ata?") 5 None)
     = name <$> pick_tool (py "O que diz a ata?").
Proof.
  exact (run_hides_store_errors (_init_db None) (py "O que diz a ata?") 5
           None OperationalError eq_refl).
Defined.
End FocalAgentRunExamples.

(** ** The orchestrator: the ways an answer is returned *)

Section ChatServiceAnswers.
Import VectorStore ChatService.
Context `{Services}.

(** Read the fields of a response and of the service it leaves. *)
Ltac response_fields :=
  cbn [message content metadata sources cache_hit clarification error
       num_chunks chunks base_metadata ui_metadata cache audit with_state
       assistant a_user a_role input_text output_text fst snd].

(** The three ways [answer] returns: from a cache, with a request for
    clarification, or with the text of the model. *)
Lemma answer_cases (self : t) (user_message : pystr)
    (history : option (list ChatMessage)) (user_id role : pystr)
    (resp : ChatResponse) (self' : t) :
  answer self user_message history user_id role = Ok (resp, self') ->
  (exists level cached,
      cache_lookup self user_id user_message = Some (level, cached)
      /\ resp = {| message := assistant cached; sources := [];
                   metadata := base_metadata user_id role (Some level) None
                                             0 0 false None |}
      /\ self' = with_state self (cache self)
                   (_log_audit self user_id role user_message cached
                      (base_metadata user_id role (Some level) None 0 0
                                     false None)))
  \/ (exists search_query found agent_tool (facts : list pystr) c,
         cache_lookup self user_id user_message = None
         /\ retrieve self search_query = Ok (found, agent_tool)
         /\ SFltb threshold (confidence c) = true
         /\ resp = {| message := assistant (clarification_text c);
                      sources := [];
                      metadata := base_metadata user_id role None agent_tool
                                    (length found) (length facts) true
                                    None |}
         /\ self' = with_state self (cache self)
                      (_log_audit self user_id role user_message
                         (clarification_text c)
                         (base_metadata user_id role None agent_tool
                            (length found) (length facts) true None)))
  \/ (exists enrichment search_query found agent_tool
             (facts : list pystr) messages,
         cache_lookup self user_id user_message = None
         /\ retrieve self search_query = Ok (found, agent_tool)
         /\ resp = {| message := assistant (fst (generate self messages));
                      sources := build_sources found;
                      metadata :=
                        ui_metadata
                          (base_metadata user_id role None agent_tool
                             (length found) (length facts) false
                             (snd (generate self messages)))
                          enrichment facts found |}
         /\ self' = with_state self
                      (store_answer self user_id user_message
                                    (fst (generate self messages)))
                      (_log_audit self user_id role user_message
                         (fst (generate self messages))
                         (base_metadata user_id role None agent_tool
                            (length found) (length facts) false
                            (snd (generate self messages))))).
Proof.
  unfold answer.
  destruct (cache_lookup self user_id user_message) as [[level cached]|].
  { intros [= <- <-]. left. eauto. }
  intros Ha. right.
  apply bind_ok in Ha as ([enrichment search_query] & _ & Ha).
  apply bind_ok in Ha as ([found agent_tool] & Hretrieve & Ha).
  apply bind_ok in Ha as (facts & _ & Ha).
  apply bind_ok in Ha as (clarification & _ & Ha).
  assert (Hrespond :
            respond self user_message (default [] history) user_id role
                    enrichment found agent_tool facts = Ok (resp, self') ->
            exists messages,
              resp = {| message := assistant (fst (generate self messages));
                        sources := build_sources found;
                        metadata :=
                          ui_metadata
                            (base_metadata user_id role None agent_tool
                               (length found) (length facts) false
                               (snd (generate self messages)))
                            enrichment facts found |}
              /\ self' = with_state self
                           (store_answer self user_id user_message
                                         (fst (generate self messages)))
                           (_log_audit self user_id role user_message
                              (fst (generate self messages))
                              (base_metadata user_id role None agent_tool
                                 (length found) (length facts) false
                                 (snd (generate self messages))))).
  { unfold respond. intros Hr. apply bind_ok in Hr as (messages & _ & Hr).
    exists messages. destruct (generate self messages) as [text err].
    injection Hr as <- <-. split; reflexivity. }
  destruct clarification as [c|].
  - destruct (SFltb threshold (confidence c)) eqn:Hc.
    + injection Ha as <- <-. left.
      exists search_query, found, agent_tool, facts, c. auto.
    + right. destruct (Hrespond Ha) as (messages & -> & ->).
      exists enrichment, search_query, found, agent_tool, facts, messages.
      auto.
  - right. destruct (Hrespond Ha) as (messages & -> & ->).
    exists enrichment, search_query, found, agent_tool, facts, messages.
    auto.
Qed.

Lemma cache_lookup_sound (self : t) (user_id user_message level a : pystr) :
  cache_lookup self user_id user_message = Some (level, a) ->
  exists c,
    cache self = Some c
    /\ a <> [] /\ _is_negative a = false
    /\ (level = py "user"
        /\ CacheService.get_user_answer c user_id user_message = Some a
        \/ level = py "global"
           /\ CacheService.get_global_answer c user_message = Some a).
Proof.
  unfold cache_lookup. destruct (cache self) as [c|]; [|discriminate].
  intros Hl. exists c. split; [reflexivity|].
  assert (Hpos : forall x, truthy x && negb (_is_negative x) = true ->
                           x <> [] /\ _is_negative x = false).
  { intros x Hx. apply andb_prop in Hx as [Hx Hn].
    split; [intros ->; discriminate|]. destruct (_is_negative x);
      [discriminate|reflexivity]. }
  assert (Hglobal :
            match CacheService.get_global_answer c user_message with
            | Some g => if truthy g && negb (_is_negative g)
                        then Some (py "global", g) else None
            | None => None
            end = Some (level, a) ->
            a <> [] /\ _is_negative a = false
            /\ (level = py "user"
                /\ CacheService.get_user_answer c user_id user_message
                   = Some a
                \/ level = py "global"
                   /\ CacheService.get_global_answer c user_message
                      = Some a)).
  { destruct (CacheService.get_global_answer c user_message) as [g|];
      [|discriminate].
    destruct (truthy g && negb (_is_negative g)) eqn:Hg; [|discriminate].
    intros [= <- <-]. destruct (Hpos _ Hg). auto. }
  destruct (CacheService.get_user_answer c user_id user_message) as [u|];
    [|auto].
  destruct (truthy u && negb (_is_negative u)) eqn:Hu; [|auto].
  injection Hl as <- <-. destruct (Hpos _ Hu). auto.
Qed.

(** X19. A cache hit returns what the cache holds and nothing else: the
    text of a response marked as a hit is the answer stored for the
    question, for the user or globally, it is neither empty nor
    negative, it comes without sources, and the call leaves the cache
    as it was. *)
Theorem cache_hit_is_sound (self : t) (user_message : pystr)
    (history : option (list ChatMessage)) (user_id role : pystr)
    (resp : ChatResponse) (self' : t) (level : pystr) :
  answer self user_message history user_id role = Ok (resp, self') ->
  cache_hit (metadata resp) = Some level ->
  exists c,
    cache self = Some c
    /\ cache self' = cache self
    /\ sources resp = []
    /\ content (message resp) <> []
    /\ _is_negative (content (message resp)) = false
    /\ (level = py "user"
        /\ CacheService.get_user_answer c user_id user_message
           = Some (content (message resp))
        \/ level = py "global"
           /\ CacheService.get_global_answer c user_message
              = Some (content (message resp))).
Proof.
  intros Ha Hhit.
  apply answer_cases in Ha
    as [(level' & cached & Hl & -> & ->)
       |[(q & found & tool & facts & c & _ & _ & _ & -> & _)
        |(e & q & found & tool & facts & messages & _ & _ & -> & _)]];
    try discriminate.
  injection Hhit as ->.
  destruct (cache_lookup_sound _ _ _ _ _ Hl) as (c & Hc & Hne & Hneg & Hget).
  exists c. response_fields.
  repeat (split; [solve [auto]|]). exact Hget.
Qed.







Lemma run_chunks_length (db : Database) (question : pystr) (k : Z)
    (requester : option pystr) :
  (0 <= k)%Z ->
  (Z.of_nat (length (FocalAgent.chunks (FocalAgent.run db question k
                                                        requester))) <= k)%Z.
Proof.
  intros Hk. unfold FocalAgent.run.
  destruct (FocalAgent.pick_tool question) as [t|]; [|cbn; lia].
  destruct (FocalAgent.execute_search db t (FocalAgent.enhance t question)
              k requester) as [rs|e] eqn:Hs; cbn [FocalAgent.chunks];
    [|cbn; lia].
  eapply execute_search_length; eassumption.
Qed.

Lemma retrieve_length (self : t) (search_query : pystr)
    (found : list SearchResult) (agent_tool : option pystr) :
  retrieve self search_query = Ok (found, agent_tool) ->
  (length found <= 5)%nat.
Proof.
  unfold retrieve.
  destruct (agent self) as [store|], (vector_store self) as [store'|];
    intros Hr.
  - injection Hr as <- _.
    pose proof (run_chunks_length store search_query 5 None). lia.
  - injection Hr as <- _. cbn. lia.
  - apply bind_ok in Hr as (rs & Hrs & [= <- _]).
    apply search_inv in Hrs as (q & all & _ & _ & ->).
    pose proof (proj2 (top_k_length 5 all)). lia.
  - injection Hr as <- _. cbn. lia.
Qed.

(** X24. At most five chunks reach the prompt: the retrieval of [answer]
    asks for [k = 5], so a response counts at most five chunks, cites at
    most five sources, and a cache hit counts and cites none. *)
Theorem answer_uses_at_most_five_chunks (self : t) (user_message : pystr)
    (history : option (list ChatMessage)) (user_id role : pystr)
    (resp : ChatResponse) (self' : t) :
  answer self user_message history user_id role = Ok (resp, self') ->
  (num_chunks (metadata resp) <= 5)%nat
  /\ (length (sources resp) <= num_chunks (metadata resp))%nat
  /\ (forall found, chunks (metadata resp) = Some found ->
                    num_chunks (metadata resp) = length found)
  /\ (cache_hit (metadata resp) <> None -> num_chunks (metadata resp) = 0%nat).
Proof.
  intros Ha.
  apply answer_cases in Ha
    as [(level & cached & Hl & -> & ->)
       |[(q & found & tool & facts & c & _ & Hr & Hc & -> & ->)
        |(en & q & found & tool & facts & messages & _ & Hr & -> & ->)]];
    cbn [metadata sources num_chunks chunks cache_hit base_metadata
         ui_metadata length].
  - repeat split; try lia; discriminate.
  - apply retrieve_length in Hr. repeat split; try lia; try discriminate.
    intros Hnone. contradiction.
  - apply retrieve_length in Hr. repeat split; try lia.
    + unfold build_sources. rewrite length_map.
      apply slice_to_le_length.
    + intros found' [= <-]. reflexivity.
    + intros Hnone. contradiction.
Qed.

End ChatServiceAnswers.

Lemma returns_inv {A : Type} (m : Exc A) :
  match m with Ok _ => True | Raise _ => False end -> exists a, m = Ok a.
Proof. destruct m as [a|e]; [eauto|intros []]. Qed.

Lemma fmap_Ok_inv {A B : Type} (f : A -> B) (m : Exc A) (a : A) (b : B) :
  m = Ok a -> f <$> m = Ok b -> f a = b.
Proof. intros -> Hf. injection Hf as <-. reflexivity. Qed.

Section ChatServiceAnswerExamples.
Import VectorStore ChatService Fixture.

Lemma cache_hit_is_sound_witness :
  exists resp self',
    answer cached_service (py "O que diz a ATA?") None (py "bob")
           (py "publico") = Ok (resp, self')
    /\ cache_hit (metadata resp) = Some (py "global")
    /\ exists c,
         cache cached_service = Some c
         /\ cache self' = cache cached_service
         /\ sources resp = []
         /\ content (message resp) <> []
         /\ _is_negative (content (message resp)) = false
         /\ (py "global" = py "user"
             /\ CacheService.get_user_answer c (py "bob")
                  (py "O que diz a ATA?")
                = Some (content (message resp))
             \/ py "global" = py "global"
                /\ CacheService.get_global_answer c (py "O que diz a ATA?")
                   = Some (content (message resp))).
Proof.
  destruct (returns_inv
              (answer cached_service (py "O que diz a ATA?") None (py "bob")
                      (py "publico")) I) as [[resp self'] Ha].
  assert (Hhit : cache_hit (metadata resp) = Some (py "global")).
  { apply (fmap_Ok_inv (fun p => cache_hit (metadata (fst p))) _ _ _ Ha).
    vm_compute. reflexivity. }
  exists resp, self'. split; [exact Ha|]. split; [exact Hhit|].
  exact (cache_hit_is_sound cached_service (py "O que diz a ATA?") None
           (py "bob") (py "publico") resp self' (py "global") Ha Hhit).
Defined.





Lemma answer_uses_at_most_five_chunks_witness :
  exists resp self',
    answer (service (py "A ata registra três itens."))
           (py "O que diz a ata?") None (py "alice") (py "publico")
    = Ok (resp, self')
    /\ num_chunks (metadata resp) = 3%nat
    /\ (num_chunks (metadata resp) <= 5)%nat
    /\ (length (sources resp) <= num_chunks (metadata resp))%nat.
Proof.
  destruct (returns_inv
              (answer (service (py "A ata registra três itens."))
                      (py "O que diz a ata?") None (py "alice")
                      (py "publico")) I) as [[resp self'] Ha].
  assert (Hnum : num_chunks (metadata resp) = 3%nat).
  { apply (fmap_Ok_inv (fun p => num_chunks (metadata (fst p))) _ _ _ Ha).
    vm_compute. reflexivity. }
  destruct (answer_uses_at_most_five_chunks
              (service (py "A ata registra três itens."))
              (py "O que diz a ata?") None (py "alice") (py "publico")
              resp self' Ha) as (Hfive & Hsources & _).
  exists resp, self'. auto.
Defined.

End ChatServiceAnswerExamples.

(** ** The disambiguation detector *)

Section ClarificationFacts.
Import ChatService ClarificationAgent.
Context {Result : Type} (titulo_of tipo_of : Result -> pystr).

Lemma two_elements {A : Type} (x y : A) (l : list A) :
  In x l -> In y l -> x <> y -> (2 <= length l)%nat.
Proof.
  intros Hx Hy Hxy.
  destruct l as [|a [|b l]]; cbn [length In] in *; [destruct Hx| |lia].
  destruct Hx as [<-|[]], Hy as [<-|[]]. contradiction.
Qed.

(** A set has at most one element when all elements of the list are
    equal. *)
Lemma one_title (l : list pystr) :
  (1 <? length (remove_dups l))%nat = false
  <-> forall x y, In x l -> In y l -> x = y.
Proof.
  rewrite Nat.ltb_ge. split.
  - intros Hlen x y Hx Hy.
    apply list_elem_of_In, elem_of_remove_dups in Hx, Hy.
    destruct (remove_dups l) as [|a [|b l']]; cbn in Hlen; [| |lia].
    + apply elem_of_nil in Hx. destruct Hx.
    + apply list_elem_of_singleton in Hx, Hy. congruence.
  - intros Heq. pose proof (NoDup_remove_dups l) as Hnd.
    destruct (remove_dups l) as [|a [|b l']] eqn:Hr; cbn; [lia|lia|].
    exfalso. apply NoDup_cons in Hnd as [Hab _]. apply Hab.
    assert (Ha : a ∈ l) by (apply elem_of_remove_dups; rewrite Hr; set_solver).
    assert (Hb : b ∈ l) by (apply elem_of_remove_dups; rewrite Hr; set_solver).
    rewrite (Heq a b) by (apply list_elem_of_In; assumption). set_solver.
Qed.

Lemma keys_in_order_In (l : list pystr) (x : pystr) :
  In x (keys_in_order l) <-> In x l.
Proof.
  induction l as [|a l IH]; [reflexivity|]. cbn [keys_in_order In].
  rewrite filter_In, IH. split.
  - intros [->|[Hx _]]; auto.
  - intros [->|Hx]; [auto|].
    destruct (decide (x = a)) as [->|Hne]; [auto|right].
    split; [exact Hx|]. rewrite bool_decide_eq_false_2 by exact Hne.
    reflexivity.
Qed.

Lemma keys_in_order_NoDup (l : list pystr) : NoDup (keys_in_order l).
Proof.
  induction l as [|a l IH]; [constructor|]. cbn [keys_in_order].
  apply NoDup_cons. split.
  - intros Ha. apply list_elem_of_In, filter_In in Ha as [_ Ha].
    rewrite bool_decide_eq_true_2 in Ha by reflexivity. discriminate.
  - clear -IH. induction IH as [|x k Hx _ IHk]; [constructor|].
    cbn [List.filter]. destruct (negb (bool_decide (x = a))); [|exact IHk].
    apply NoDup_cons. split; [|exact IHk].
    intros Hin. apply Hx. apply list_elem_of_In.
    apply list_elem_of_In, filter_In in Hin as [Hin _]. exact Hin.
Qed.

Lemma slice_to_5_8 {A : Type} (l : list A) (x : A) :
  In x (slice_to 5 l) -> In x (slice_to 8 l).
Proof.
  unfold slice_to. change (0 <=? 5)%Z with true. change (0 <=? 8)%Z with true.
  change (Z.to_nat 5) with 5%nat. change (Z.to_nat 8) with 8%nat.
  intros Hx. rewrite <- (firstn_skipn 5 (firstn 8 l)), firstn_firstn.
  apply in_or_app. left. exact Hx.
Qed.

Lemma many_titles (results : list Result) :
  (1 <? length (remove_dups (map titulo_of (slice_to 5 results))))%nat
  = true ->
  (1 <? length (keys_in_order (map titulo_of (slice_to 8 results))))%nat
  = true.
Proof.
  intros Hmany. apply Nat.ltb_lt.
  destruct (1 <? length (keys_in_order (map titulo_of (slice_to 8 results))))%nat
    eqn:Hkeys; [apply Nat.ltb_lt, Hkeys|].
  exfalso. apply Nat.ltb_ge in Hkeys.
  assert (Hone : (1 <? length (remove_dups
                                 (map titulo_of (slice_to 5 results))))%nat
                 = false); [|congruence].
  apply one_title. intros x y Hx Hy.
  destruct (decide (x = y)) as [|Hne]; [assumption|exfalso].
  assert (Hin : forall z, In z (map titulo_of (slice_to 5 results)) ->
                          In z (keys_in_order
                                  (map titulo_of (slice_to 8 results)))).
  { intros z Hz. apply keys_in_order_In.
    apply in_map_iff in Hz as (r & <- & Hr).
    apply in_map, slice_to_5_8, Hr. }
  pose proof (two_elements x y _ (Hin x Hx) (Hin y Hy) Hne). lia.
Qed.

(** X25. A clarification is asked for exactly when the five best results
    carry at least two titles: [check_for_ambiguity] returns [None] if
    and only if all of the first five results have the same title (or
    there is no result), whatever the question. *)
Theorem clarification_needs_two_titles (user_query : pystr)
    (search_results : list Result) (history : list ChatMessage) :
  check_for_ambiguity titulo_of tipo_of user_query search_results history
  = None
  <-> forall r r',
        In r (slice_to 5 search_results) ->
        In r' (slice_to 5 search_results) ->
        titulo_of r = titulo_of r'.
Proof.
  assert (Htitles :
            (1 <? length (remove_dups
                            (map titulo_of (slice_to 5 search_results))))%nat
            = false
            <-> forall r r',
                  In r (slice_to 5 search_results) ->
                  In r' (slice_to 5 search_results) ->
                  titulo_of r = titulo_of r').
  { rewrite one_title. split.
    - intros Heq r r' Hr Hr'. apply Heq; apply in_map; assumption.
    - intros Heq x y Hx Hy.
      apply in_map_iff in Hx as (r & <- & Hr).
      apply in_map_iff in Hy as (r' & <- & Hr'). auto. }
  rewrite <- Htitles. unfold check_for_ambiguity.
  destruct (_is_temporal_query (lower user_query)).
  - unfold _check_temporal_ambiguity.
    destruct (slice_to 5 search_results) as [|first rest] eqn:Hs.
    + split; reflexivity.
    + destruct (1 <? length (remove_dups (map titulo_of (first :: rest))))%nat;
        split; congruence.
  - unfold _has_multiple_similar_docs, _check_multiple_docs_ambiguity.
    destruct (length search_results <? 2)%nat eqn:Hlen.
    + split; [intros _|reflexivity]. apply Nat.ltb_lt in Hlen.
      destruct search_results as [|r [|r' rest]]; cbn in Hlen; try lia;
        reflexivity.
    + destruct (1 <? length (remove_dups
                               (map titulo_of (slice_to 5 search_results))))%nat
        eqn:Hmany; [|split; reflexivity].
      rewrite (many_titles _ Hmany). split; discriminate.
Qed.

(** X26. The callers show a clarification when its confidence exceeds
    0.7.  A clarification of the temporal kind has confidence 0.8 and
    passes; one of the kind "multiple_options" has confidence 0.7 and
    never passes: whether a clarification interrupts the answer is
    decided by the question alone. *)
Theorem only_temporal_clarifications_interrupt (user_query : pystr)
    (search_results : list Result) (history : list ChatMessage)
    (c : ClarificationNeeded) :
  check_for_ambiguity titulo_of tipo_of user_query search_results history
  = Some c ->
  interrupts c = _is_temporal_query (lower user_query)
  /\ ambiguity_type c
     = (if _is_temporal_query (lower user_query)
        then py "temporal" else py "multiple_options")
  /\ original_query c = user_query.
Proof.
  unfold check_for_ambiguity.
  destruct (_is_temporal_query (lower user_query)).
  - unfold _check_temporal_ambiguity.
    destruct (slice_to 5 search_results) as [|first rest]; [discriminate|].
    destruct (1 <? length (remove_dups (map titulo_of (first :: rest))))%nat;
      [|discriminate].
    intros [= <-]. repeat split.
  - destruct (_has_multiple_similar_docs titulo_of search_results);
      [|discriminate].
    unfold _check_multiple_docs_ambiguity.
    destruct (1 <? length (keys_in_order
                             (map titulo_of (slice_to 8 search_results))))%nat;
      [|discriminate].
    intros [= <-]. repeat split.
Qed.

(** X27. The options of a clarification of the kind "multiple_options"
    are titles of the first eight results, each once, three at most,
    the title of the best result first. *)
Theorem multiple_options_are_titles (user_query : pystr)
    (search_results : list Result) (history : list ChatMessage)
    (c : ClarificationNeeded) :
  check_for_ambiguity titulo_of tipo_of user_query search_results history
  = Some c ->
  _is_temporal_query (lower user_query) = false ->
  (length (options c) <= 3)%nat
  /\ NoDup (options c)
  /\ (forall o, In o (options c) ->
                exists r, In r (slice_to 8 search_results)
                          /\ titulo_of r = o)
  /\ exists best rest,
       search_results = best :: rest
       /\ head (options c) = Some (titulo_of best).
Proof.
  unfold check_for_ambiguity. intros Hc Htemporal. rewrite Htemporal in Hc.
  destruct (_has_multiple_similar_docs titulo_of search_results) eqn:Hm;
    [|discriminate].
  unfold _check_multiple_docs_ambiguity in Hc.
  destruct (1 <? length (keys_in_order
                           (map titulo_of (slice_to 8 search_results))))%nat;
    [|discriminate].
  injection Hc as <-. cbn [options]. split; [|split; [|split]].
  - pose proof (slice_to_length 3
                  (keys_in_order (map titulo_of (slice_to 8 search_results)))).
    lia.
  - apply slice_to_NoDup, keys_in_order_NoDup.
  - intros o Ho. apply slice_to_subset in Ho.
    apply (proj1 (keys_in_order_In _ _)) in Ho.
    apply in_map_iff in Ho as (r & <- & Hr). eauto.
  - unfold _has_multiple_similar_docs in Hm.
    destruct search_results as [|best rest]; [discriminate|].
    exists best, rest. split; reflexivity.
Qed.

End ClarificationFacts.

Section ClarificationQueries.
Import ClarificationAgent.

Lemma contains_In (s t : pystr) (c : N) :
  contains s t = true -> In c t -> In c s.
Proof.
  intros Hc Ht. apply contains_spec in Hc as (before & after & ->).
  apply in_or_app. right. apply in_or_app. left. exact Ht.
Qed.

(** X28. A number in the question does not make it specific: the entry
    [r'\d+'] of the list of specific words is compared as a text, so a
    question without a backslash is specific only through one of the
    six words of the list. *)
Theorem digits_do_not_make_a_query_specific (query : pystr) :
  ~ In 0x5C query ->
  _is_temporal_query query
  = any (fun word => contains query word) temporal_words
    && any (fun word => contains query word) vague_words
    && negb (any (fun word => contains query word)
                 [py "última"; py "ultima"; py "próxima"; py "proxima";
                  py "número"; py "numero"]).
Proof.
  intros Hbackslash. unfold _is_temporal_query, specific_words, any.
  assert (Hraw : contains query (py "\d+") = false).
  { destruct (contains query (py "\d+")) eqn:Hc; [|reflexivity].
    exfalso. apply Hbackslash. apply (contains_In _ _ _ Hc).
    left. reflexivity. }
  cbn [existsb]. rewrite Hraw, !orb_false_r. reflexivity.
Qed.

Lemma digits_do_not_make_a_query_specific_witness :
  _is_temporal_query (lower (py "Qual a ata 12 de 2024?")) = true.
Proof.
  rewrite (digits_do_not_make_a_query_specific
             (lower (py "Qual a ata 12 de 2024?"))).
  - vm_compute. reflexivity.
  - vm_compute. intuition discriminate.
Defined.
End ClarificationQueries.

Section ClarificationExamples.
Import ChatService ClarificationAgent.

Lemma only_temporal_clarifications_interrupt_witness :
  exists c,
    check_for_ambiguity fst snd (py "Qual a ata?")
      [ (py "Ata 01/2024", py "ata"); (py "Ata 02/2024", py "ata") ] []
    = Some c
    /\ interrupts c = true
    /\ interrupts c = _is_temporal_query (lower (py "Qual a ata?"))
    /\ ambiguity_type c
       = (if _is_temporal_query (lower (py "Qual a ata?"))
          then py "temporal" else py "multiple_options")
    /\ original_query c = py "Qual a ata?".
Proof.
  eexists. split; [vm_compute; reflexivity|]. split; [reflexivity|].
  exact (only_temporal_clarifications_interrupt fst snd (py "Qual a ata?")
           [ (py "Ata 01/2024", py "ata"); (py "Ata 02/2024", py "ata") ]
           [] _ eq_refl).
Defined.

Lemma multiple_options_are_titles_witness :
  exists c,
    check_for_ambiguity fst snd (py "Mostre as resoluções")
      [ (py "Resolução 1", py "resolucao");
        (py "Resolução 2", py "resolucao");
        (py "Resolução 1", py "resolucao");
        (py "Resolução 3", py "resolucao");
        (py "Resolução 4", py "resolucao") ] []
    = Some c
    /\ options c = [py "Resolução 1"; py "Resolução 2"; py "Resolução 3"]
    /\ interrupts c = false
    /\ (length (options c) <= 3)%nat
    /\ NoDup (options c).
Proof.
  eexists. split; [vm_compute; reflexivity|]. split; [reflexivity|].
  split; [reflexivity|].
  destruct (multiple_options_are_titles fst snd (py "Mostre as resoluções")
           [ (py "Resolução 1", py "resolucao");
             (py "Resolução 2", py "resolucao");
             (py "Resolução 1", py "resolucao");
             (py "Resolução 3", py "resolucao");
             (py "Resolução 4", py "resolucao") ] [] _ eq_refl)
    as (Hlen & Hnodup & _).
  - vm_compute. reflexivity.
  - split; [exact Hlen|exact Hnodup].
Defined.
End ClarificationExamples.

(** ** The fact deriver: vote counts *)

Section DecimalText.







End DecimalText.

Section RegexRuns.
Import Re.
Context {R : Type}.









End RegexRuns.

Section VoteCounts.
Import Re CountHelper.
Context {Chunk : Type} (conteudo_of : Chunk -> pystr).




End VoteCounts.

Section VoteCountExamples.
Import Re CountHelper.


End VoteCountExamples.
